(** * Eksi Sozluk fetcher: a shallow embedding of [fetch_playwright_optimized.py]

    The development follows the layout of the Python module:
    - Python values the module manipulates (strings as sequences of code
      points, exceptions, [datetime] objects, decoded JSON);
    - [load_companies_from_json];
    - [parse_eksi_date_fast];
    - the browser session (Playwright [Page]) and the clock as an abstract
      interface, with a trace of what a run logs;
    - [get_topic_url_fast], [fetch_entries_fast], [process_company_fast] and
      the sequential loop of [main];
    - a site that does not change, for examples;
    - the vocabulary of the properties, and their proofs. *)

From Stdlib Require Import ZArith NArith List Bool Lia String Ascii DecimalString.
From Stdlib Require Import Sorted.
Import ListNotations.

Set Implicit Arguments.
Local Open Scope Z_scope.

(** ** Python strings *)

(** A Python [str] is a sequence of Unicode code points. *)
Definition str := list N.

Module PyStr.

(** Literals are written as Rocq strings, whose bytes are the UTF-8 encoding of
    the text; [decode] turns the bytes into code points. *)
Fixpoint decode (bs : list N) : str :=
  match bs with
  | [] => []
  | b0 :: r0 =>
    if (b0 <? 128)%N then b0 :: decode r0
    else match r0 with
    | [] => [b0]
    | b1 :: r1 =>
      if (b0 <? 224)%N then ((b0 - 192) * 64 + (b1 - 128))%N :: decode r1
      else match r1 with
      | [] => [b0; b1]
      | b2 :: r2 =>
        if (b0 <? 240)%N
        then ((b0 - 224) * 4096 + (b1 - 128) * 64 + (b2 - 128))%N :: decode r2
        else match r2 with
        | [] => [b0; b1; b2]
        | b3 :: r3 =>
          ((b0 - 240) * 262144 + (b1 - 128) * 4096 + (b2 - 128) * 64 + (b3 - 128))%N
            :: decode r3
        end
      end
    end
  end.

Definition lit (s : string) : str :=
  decode (map N_of_ascii (list_ascii_of_string s)).

Definition eqb (a b : str) : bool :=
  if list_eq_dec N.eq_dec a b then true else false.

(** [len(s)] *)
Definition len {A} (l : list A) : Z := Z.of_nat (List.length l).

Fixpoint is_prefix (p s : str) : bool :=
  match p, s with
  | [], _ => true
  | _ :: _, [] => false
  | a :: p', b :: s' => (a =? b)%N && is_prefix p' s'
  end.

(** [p in s] *)
Fixpoint contains (p s : str) : bool :=
  is_prefix p s ||
  match s with
  | [] => false
  | _ :: s' => contains p s'
  end.

(** [s.replace(old, new)] for a non-empty [old]: the occurrences are replaced
    from left to right and do not overlap.  [skip] counts the characters of a
    matched occurrence that are still to be dropped. *)
Fixpoint replace_from (old new : str) (skip : nat) (s : str) : str :=
  match s with
  | [] => []
  | c :: s' =>
    match skip with
    | S k => replace_from old new k s'
    | O =>
      if is_prefix old s
      then new ++ replace_from old new (Nat.pred (List.length old)) s'
      else c :: replace_from old new O s'
    end
  end.

Definition replace (old new s : str) : str := replace_from old new O s.

(** [s.split(sep)] for a non-empty [sep]; [cur] holds the current piece in
    reverse. *)
Fixpoint split_from (sep : str) (skip : nat) (cur : str) (s : str) : list str :=
  match s with
  | [] => [rev cur]
  | c :: s' =>
    match skip with
    | S k => split_from sep k cur s'
    | O =>
      if is_prefix sep s
      then rev cur :: split_from sep (Nat.pred (List.length sep)) [] s'
      else split_from sep O (c :: cur) s'
    end
  end.

Definition split (sep s : str) : list str := split_from sep O [] s.

(** [str.isspace] on one code point (the same set is the regular expression
    class [\s] on [str] patterns). *)
Definition isspace (c : N) : bool :=
  ((9 <=? c) && (c <=? 13) || (28 <=? c) && (c <=? 32) || (c =? 133)
   || (c =? 160) || (c =? 5760) || (8192 <=? c) && (c <=? 8202)
   || (c =? 8232) || (c =? 8233) || (c =? 8239) || (c =? 8287)
   || (c =? 12288))%N.

Fixpoint lstrip (s : str) : str :=
  match s with
  | [] => []
  | c :: s' => if isspace c then lstrip s' else s
  end.

Definition rstrip (s : str) : str := rev (lstrip (rev s)).

(** [s.strip()] *)
Definition strip (s : str) : str := rstrip (lstrip s).

(** The code points at which a run of ten decimal digits (category [Nd])
    starts, as in the Unicode tables of CPython 3.11; the class [\d] of a
    [str] pattern and [int] accept all of them. *)
Definition digit_zeros : list N :=
  [48; 1632; 1776; 1984; 2406; 2534; 2662; 2790; 2918; 3046; 3174; 3302;
   3430; 3558; 3664; 3792; 3872; 4160; 4240; 6112; 6160; 6470; 6608; 6784;
   6800; 6992; 7088; 7232; 7248; 42528; 43216; 43264; 43472; 43504; 43600;
   44016; 65296; 66720; 68912; 69734; 69872; 69942; 70096; 70384; 70736;
   70864; 71248; 71360; 71472; 71904; 72016; 72784; 73040; 73120; 92768;
   92864; 93008; 120782; 120792; 120802; 120812; 120822; 123200; 123632;
   125264; 130032]%N.

Fixpoint digit_in (zeros : list N) (c : N) : option Z :=
  match zeros with
  | [] => None
  | z :: zs =>
    if ((z <=? c) && (c <? z + 10))%N then Some (Z.of_N (c - z))
    else digit_in zs c
  end.

(** The value of a decimal digit, [None] when [c] is not one. *)
Definition digit (c : N) : option Z := digit_in digit_zeros c.

End PyStr.

(** [py "text"] is the Python string literal ["text"]. *)
Definition py (s : string) : str := PyStr.lit s.
Arguments py s%_string.

(** ** Exceptions *)

(** The exceptions the modelled library calls raise; all of them derive from
    Python's [Exception], so that [except Exception] and a bare [except]
    catch every one of them. *)
Inductive exn : Type :=
| ValueError
| OverflowError
| TypeError
| KeyError
| AttributeError
| PlaywrightError.

Definition exn_eqb (a b : exn) : bool :=
  match a, b with
  | ValueError, ValueError | OverflowError, OverflowError
  | TypeError, TypeError | KeyError, KeyError
  | AttributeError, AttributeError | PlaywrightError, PlaywrightError => true
  | _, _ => false
  end.

(** The outcome of a call: a value, or a raised exception. *)
Inductive result (A : Type) : Type :=
| Ok (a : A)
| Raise (e : exn).
Arguments Ok {A} a.
Arguments Raise {A} e.

Definition rbind {A B} (r : result A) (k : A -> result B) : result B :=
  match r with
  | Ok a => k a
  | Raise e => Raise e
  end.

(** [try: body  except Exception: handler] *)
Definition try_except {A} (body : result A) (handler : exn -> result A) : result A :=
  match body with
  | Ok a => Ok a
  | Raise e => handler e
  end.

(** [try: body  except kind: handler]: other exceptions propagate. *)
Definition try_except_only {A} (kind : exn) (body : result A)
  (handler : result A) : result A :=
  match body with
  | Ok a => Ok a
  | Raise e => if exn_eqb e kind then handler else Raise e
  end.

Declare Scope result_scope.
Delimit Scope result_scope with result.
Notation "x <- c ;; k" := (rbind c (fun x => k))
  (at level 61, c at next level, right associativity) : result_scope.
Notation "' p <- c ;; k" := (rbind c (fun x => match x with p => k end))
  (at level 61, p pattern, c at next level, right associativity) : result_scope.

(** ** [datetime] *)

(** The fields of a [datetime.datetime]; for an aware value the fields are the
    wall clock of its zone. *)
Record datetime : Type := mk_datetime {
  year : Z;
  month : Z;
  day : Z;
  hour : Z;
  minute : Z;
  second : Z;
  microsecond : Z
}.

Module Datetime.

Definition MINYEAR : Z := 1.
Definition MAXYEAR : Z := 9999.
Definition MAXORDINAL : Z := 3652059.

Definition is_leap (y : Z) : bool :=
  (y mod 4 =? 0) && (negb (y mod 100 =? 0) || (y mod 400 =? 0)).

(** Days of month [m] in a year that is not a leap year. *)
Definition DAYS_IN_MONTH (m : Z) : Z :=
  if m =? 2 then 28
  else if (m =? 4) || (m =? 6) || (m =? 9) || (m =? 11) then 30
  else 31.

Definition days_in_month (y m : Z) : Z :=
  if (m =? 2) && is_leap y then 29 else DAYS_IN_MONTH m.

(** Days before the first of month [m] in a year that is not a leap year. *)
Definition DAYS_BEFORE_MONTH (m : Z) : Z :=
  match m with
  | 1 => 0 | 2 => 31 | 3 => 59 | 4 => 90 | 5 => 120 | 6 => 151
  | 7 => 181 | 8 => 212 | 9 => 243 | 10 => 273 | 11 => 304 | 12 => 334
  | _ => 0
  end.

Definition days_before_year (y : Z) : Z :=
  let y1 := y - 1 in y1 * 365 + y1 / 4 - y1 / 100 + y1 / 400.

Definition days_before_month (y m : Z) : Z :=
  DAYS_BEFORE_MONTH m + (if (2 <? m) && is_leap y then 1 else 0).

(** [date(y, m, d).toordinal()]: 0001-01-01 is day 1. *)
Definition ymd2ord (y m d : Z) : Z :=
  days_before_year y + days_before_month y m + d.

(** [date.fromordinal(n)], by the 400, 100, 4 and 1 year cycles. *)
Definition ord2ymd (n : Z) : Z * Z * Z :=
  let n := n - 1 in
  let n400 := n / 146097 in
  let n := n mod 146097 in
  let n100 := n / 36524 in
  let n := n mod 36524 in
  let n4 := n / 1461 in
  let n := n mod 1461 in
  let n1 := n / 365 in
  let n := n mod 365 in
  let y := n400 * 400 + 1 + n100 * 100 + n4 * 4 + n1 in
  if (n1 =? 4) || (n100 =? 4) then (y - 1, 12, 31)
  else
    let leapyear := (n1 =? 3) && (negb (n4 =? 24) || (n100 =? 3)) in
    let m := Z.shiftr (n + 50) 5 in
    let preceding := DAYS_BEFORE_MONTH m + (if (2 <? m) && leapyear then 1 else 0) in
    if n <? preceding
    then
      let m' := m - 1 in
      let preceding' :=
        preceding - (DAYS_IN_MONTH m' + (if (m' =? 2) && leapyear then 1 else 0)) in
      (y, m', n - preceding' + 1)
    else (y, m, n - preceding + 1).

Definition check_date (y m d : Z) : bool :=
  (MINYEAR <=? y) && (y <=? MAXYEAR) && (1 <=? m) && (m <=? 12)
  && (1 <=? d) && (d <=? days_in_month y m).

Definition check_time (H M S us : Z) : bool :=
  (0 <=? H) && (H <? 24) && (0 <=? M) && (M <? 60)
  && (0 <=? S) && (S <? 60) && (0 <=? us) && (us <? 1000000).

(** The fields are those of a [datetime] Python accepts. *)
Definition valid (dt : datetime) : bool :=
  check_date (year dt) (month dt) (day dt)
  && check_time (hour dt) (minute dt) (second dt) (microsecond dt).

(** The constructor [datetime(y, m, d, H, M, S, us)]. *)
Definition make (y m d H M S us : Z) : result datetime :=
  let dt := mk_datetime y m d H M S us in
  if valid dt then Ok dt else Raise ValueError.

(** [dt.replace(year=y, month=m, day=d)] *)
Definition replace_date (dt : datetime) (y m d : Z) : result datetime :=
  make y m d (hour dt) (minute dt) (second dt) (microsecond dt).

Definition toordinal (dt : datetime) : Z :=
  ymd2ord (year dt) (month dt) (day dt).

(** [dt + timedelta(seconds=s)] for any integer [s]: the fields of an aware
    value move with the wall clock, the zone is untouched. *)
Definition add_seconds (dt : datetime) (s : Z) : result datetime :=
  let total :=
    toordinal dt * 86400 + hour dt * 3600 + minute dt * 60 + second dt + s in
  let days := total / 86400 in
  let rem := total mod 86400 in
  if (0 <? days) && (days <=? MAXORDINAL)
  then
    let '(y, m, d) := ord2ymd days in
    Ok (mk_datetime y m d (rem / 3600) ((rem mod 3600) / 60) (rem mod 60)
          (microsecond dt))
  else Raise OverflowError.

(** [dt + timedelta(days=n)] *)
Definition add_days (dt : datetime) (n : Z) : result datetime :=
  add_seconds dt (n * 86400).

End Datetime.

(** ** [datetime.strptime] *)

(** [strptime] turns the format into a regular expression, takes the first
    match of it at the start of the text (alternatives in their written order,
    with backtracking) and rejects text left over behind that match.  A
    pattern is modelled as the list of its matches in the order the matcher
    tries them; each match is the captured value and the rest of the text. *)
Module Strptime.

Definition rx (A : Type) : Type := str -> list (A * str).

Definition alt {A} (p q : rx A) : rx A := fun s => p s ++ q s.

Definition seq {A B} (p : rx A) (k : A -> rx B) : rx B :=
  fun s => flat_map (fun '(a, rest) => k a rest) (p s).

Definition pure {A} (a : A) : rx A := fun s => [(a, s)].

(** One literal character. *)
Definition chr (c : N) : rx unit :=
  fun s =>
    match s with
    | x :: rest => if (x =? c)%N then [(tt, rest)] else []
    | [] => []
    end.

(** The ASCII class [[lo-hi]] of digits, with the digit's value. *)
Definition range (lo hi : Z) : rx Z :=
  fun s =>
    match s with
    | x :: rest =>
      let v := Z.of_N x - 48 in
      if (lo <=? v) && (v <=? hi) then [(v, rest)] else []
    | [] => []
    end.

(** The class [\d]: any decimal digit, with its value. *)
Definition digit : rx Z :=
  fun s =>
    match s with
    | x :: rest =>
      match PyStr.digit x with
      | Some v => [(v, rest)]
      | None => []
      end
    | [] => []
    end.

(** [\s+], the longest run first. *)
Fixpoint spaces (s : str) : list (unit * str) :=
  match s with
  | x :: rest => if PyStr.isspace x then spaces rest ++ [(tt, rest)] else []
  | [] => []
  end.

Definition two (p q : rx Z) : rx Z :=
  seq p (fun a => seq q (fun b => pure (10 * a + b))).

(** [%H]: [2[0-3]|[0-1]\d|\d] *)
Definition dir_H : rx Z :=
  alt (two (range 2 2) (range 0 3)) (alt (two (range 0 1) digit) digit).

(** [%M]: [[0-5]\d|\d] *)
Definition dir_M : rx Z :=
  alt (two (range 0 5) digit) digit.

(** [%d]: [3[0-1]|[1-2]\d|0[1-9]|[1-9]| [1-9]] *)
Definition dir_d : rx Z :=
  alt (two (range 3 3) (range 0 1))
   (alt (two (range 1 2) digit)
     (alt (two (range 0 0) (range 1 9))
       (alt (range 1 9)
            (seq (chr 32) (fun _ => range 1 9))))).

(** [%m]: [1[0-2]|0[1-9]|[1-9]] *)
Definition dir_m : rx Z :=
  alt (two (range 1 1) (range 0 2))
   (alt (two (range 0 0) (range 1 9)) (range 1 9)).

(** [%Y]: [\d\d\d\d] *)
Definition dir_Y : rx Z :=
  seq digit (fun a => seq digit (fun b => seq digit (fun c => seq digit (fun d =>
    pure (1000 * a + 100 * b + 10 * c + d))))).

Definition dot : rx unit := chr 46.
Definition colon : rx unit := chr 58.

(** The pattern of ["%H:%M"]. *)
Definition rx_HM : rx (Z * Z) :=
  seq dir_H (fun H => seq colon (fun _ => seq dir_M (fun M => pure (H, M)))).

(** The pattern of ["%d.%m.%Y"]. *)
Definition rx_dmY : rx (Z * Z * Z) :=
  seq dir_d (fun d => seq dot (fun _ => seq dir_m (fun m => seq dot (fun _ =>
    seq dir_Y (fun Y => pure (d, m, Y)))))).

(** The pattern of ["%d.%m.%Y %H:%M"]; the blank of the format is [\s+]. *)
Definition rx_dmY_HM : rx (Z * Z * Z * (Z * Z)) :=
  seq rx_dmY (fun date => seq spaces (fun _ => seq rx_HM (fun time =>
    pure (date, time)))).

(** The first match, which has to reach the end of the text. *)
Definition fullmatch {A} (p : rx A) (s : str) : result A :=
  match p s with
  | [] => Raise ValueError
  | (a, []) :: _ => Ok a
  | (_, _ :: _) :: _ => Raise ValueError
  end.

(** [datetime.strptime(s, "%H:%M")]: the date defaults to 1900-01-01. *)
Definition strptime_HM (s : str) : result datetime :=
  ('(H, M) <- fullmatch rx_HM s ;;
   Datetime.make 1900 1 1 H M 0 0)%result.

(** [datetime.strptime(s, "%d.%m.%Y %H:%M")] *)
Definition strptime_dmY_HM (s : str) : result datetime :=
  ('(d, m, Y, (H, M)) <- fullmatch rx_dmY_HM s ;;
   Datetime.make Y m d H M 0 0)%result.

(** [datetime.strptime(s, "%d.%m.%Y")] *)
Definition strptime_dmY (s : str) : result datetime :=
  ('(d, m, Y) <- fullmatch rx_dmY s ;;
   Datetime.make Y m d 0 0 0 0)%result.

End Strptime.

(** ** Library calls taken as parameters *)

(** The parts of the Python runtime and of [pytz] that the module calls and
    that are not modelled above:
    - [str.lower];
    - [int] applied to a string ([ValueError] when it is not a number);
    - the UTC offset, in seconds, that [pytz]'s [Europe/Istanbul] gives with
      [localize(dt, is_dst=False)] to a wall clock before 2016-09-07, or the
      exception that call raises.  From that day on the zone is at a fixed
      +03:00, which [localize] below writes out. *)
Class PyRuntime : Type := {
  str_lower : str -> str;
  int_of_str : str -> result Z;
  istanbul_before_2016 : datetime -> result Z
}.

Section DateParser.

Context {RT : PyRuntime}.

Local Open Scope result_scope.

(** The wall clock lies on or after 2016-09-07, the day Turkey stopped
    changing its clocks. *)
Definition fixed_offset_era (dt : datetime) : bool :=
  (2016 <? year dt)
  || (year dt =? 2016) && ((9 <? month dt) || (month dt =? 9) && (7 <=? day dt)).

(** [istanbul_tz.localize(dt_naive, is_dst=False)]: the offset, in seconds
    east of UTC, attached to the wall clock.  [pytz] looks the zone's
    transition table up one day before and one day after [dt_naive]; the two
    sums raise [OverflowError] at the ends of the calendar. *)
Definition localize (dt_naive : datetime) : result Z :=
  if fixed_offset_era dt_naive
  then
    _ <- Datetime.add_days dt_naive (-1) ;;
    _ <- Datetime.add_days dt_naive 1 ;;
    Ok 10800
  else istanbul_before_2016 dt_naive.

(** [dt_istanbul.astimezone(timezone.utc)] for the wall clock [dt] at offset
    [utcoffset]: the fields of the same instant in UTC. *)
Definition astimezone_utc (dt : datetime) (utcoffset : Z) : result datetime :=
  Datetime.add_seconds dt (- utcoffset).

(** The body of the [try] block of [parse_eksi_date_fast]; [Ok None] is its
    [return None]. *)
Definition parse_eksi_date_try (now_istanbul : datetime) (date_str : str)
  : result (option datetime) :=
  dt_naive <-
    (if PyStr.contains (py "bugün") date_str then
       let time_part := PyStr.strip (PyStr.replace (py "bugün") (py "") date_str) in
       t <- Strptime.strptime_HM time_part ;;
       d <- Datetime.replace_date t (year now_istanbul) (month now_istanbul)
              (day now_istanbul) ;;
       Ok (Some d)
     else if PyStr.contains (py "dün") date_str then
       yesterday <- Datetime.add_days now_istanbul (-1) ;;
       let time_part := PyStr.strip (PyStr.replace (py "dün") (py "") date_str) in
       t <- Strptime.strptime_HM time_part ;;
       d <- Datetime.replace_date t (year yesterday) (month yesterday)
              (day yesterday) ;;
       Ok (Some d)
     else
       try_except_only ValueError
         (d <- Strptime.strptime_dmY_HM date_str ;; Ok (Some d))
         (try_except_only ValueError
            (d <- Strptime.strptime_dmY date_str ;; Ok (Some d))
            (Ok None))) ;;
  match dt_naive with
  | None => Ok None
  | Some dt =>
    utcoffset <- localize dt ;;
    dt_utc <- astimezone_utc dt utcoffset ;;
    Ok (Some dt_utc)
  end.

(** [parse_eksi_date_fast(date_str)], with the reading of
    [datetime.now(istanbul_tz)] that the call makes passed in as
    [now_istanbul].  [None] is Python's [None]. *)
Definition parse_eksi_date_fast (now_istanbul : datetime) (date_str : str)
  : result (option datetime) :=
  let date_str := str_lower (PyStr.strip date_str) in
  try_except (parse_eksi_date_try now_istanbul date_str) (fun _ => Ok None).

End DateParser.

(** ** Decoded JSON and [load_companies_from_json] *)

(** A Python [float]: [m * 2^e], an infinity, or not-a-number. *)
Variant pyfloat : Type :=
| Finite (m e : Z)
| Infinity (negative : bool)
| NaN.

(** The values [json.load] produces.  A [dict] keeps its keys in insertion
    order. *)
#[local] Set Warnings "-register-all".
Inductive json : Type :=
| JNull
| JBool (b : bool)
| JInt (n : Z)
| JFloat (f : pyfloat)
| JStr (s : str)
| JList (l : list json)
| JDict (d : list (str * json)).

Module Py.

Local Open Scope result_scope.

Fixpoint lookup {V} (key : str) (d : list (str * V)) : option V :=
  match d with
  | [] => None
  | (k, v) :: rest => if PyStr.eqb k key then Some v else lookup key rest
  end.

(** [v[key]] for a string [key] *)
Definition getitem (v : json) (key : str) : result json :=
  match v with
  | JDict d =>
    match lookup key d with
    | Some x => Ok x
    | None => Raise KeyError
    end
  | _ => Raise TypeError
  end.

(** [v.get(key, default)] *)
Definition get (v : json) (key : str) (default : json) : result json :=
  match v with
  | JDict d =>
    match lookup key d with
    | Some x => Ok x
    | None => Ok default
    end
  | _ => Raise AttributeError
  end.

(** [v.items()] *)
Definition items (v : json) : result (list (str * json)) :=
  match v with
  | JDict d => Ok d
  | _ => Raise AttributeError
  end.

(** [v[:1]]: lists and strings are sliced, every other value raises. *)
Definition slice1 (v : json) : result json :=
  match v with
  | JList l => Ok (JList (firstn 1 l))
  | JStr s => Ok (JStr (firstn 1 s))
  | _ => Raise TypeError
  end.

(** The values a [for] loop over [v] binds. *)
Definition iter (v : json) : result (list json) :=
  match v with
  | JList l => Ok l
  | JStr s => Ok (map (fun c => JStr [c]) s)
  | JDict d => Ok (map (fun kv => JStr (fst kv)) d)
  | _ => Raise TypeError
  end.

(** [len(v)] where it is defined. *)
Definition length (v : json) : option Z :=
  match v with
  | JList l => Some (PyStr.len l)
  | JStr s => Some (PyStr.len s)
  | JDict d => Some (PyStr.len d)
  | _ => None
  end.

(** Numbers compare by value across [bool], [int] and [float]. *)
Definition number (v : json) : option (Z * Z) :=
  match v with
  | JBool b => Some (if b then 1 else 0, 0)
  | JInt n => Some (n, 0)
  | JFloat (Finite m e) => Some (m, e)
  | _ => None
  end.

Definition number_eqb (a b : Z * Z) : bool :=
  let '(m1, e1) := a in
  let '(m2, e2) := b in
  let e := Z.min e1 e2 in
  m1 * 2 ^ (e1 - e) =? m2 * 2 ^ (e2 - e).

Definition hashable (v : json) : bool :=
  match v with
  | JList _ | JDict _ => false
  | _ => true
  end.

(** Two hashable values are the same dictionary key.  The decoder hands out
    one object for every [NaN] of a document, so that it is found again. *)
Definition key_eqb (a b : json) : bool :=
  match number a, number b with
  | Some x, Some y => number_eqb x y
  | None, None =>
    match a, b with
    | JNull, JNull => true
    | JStr s, JStr t => PyStr.eqb s t
    | JFloat (Infinity s), JFloat (Infinity t) => Bool.eqb s t
    | JFloat NaN, JFloat NaN => true
    | _, _ => false
    end
  | _, _ => false
  end.

(** [d[key] = value]: an existing key keeps its place. *)
Fixpoint dict_set {V} (key : json) (value : V) (d : list (json * V))
  : list (json * V) :=
  match d with
  | [] => [(key, value)]
  | (k, v) :: rest =>
    if key_eqb k key then (k, value) :: rest
    else (k, v) :: dict_set key value rest
  end.

End Py.

(** The dataclass [CompanyInfo]; the annotations of its fields are not
    enforced, a field holds whatever the document gave. *)
Record CompanyInfo : Type := mk_CompanyInfo {
  ticker : json;
  official_name : json;
  short_name : json;
  common_names : json;
  eksi_search_terms : json;
  sector : json;
  is_active : json
}.

Section Loader.

Local Open Scope result_scope.

(** The loop over [data['companies'].items()]. *)
Fixpoint load_keyed (items : list (str * json)) (companies : list (json * CompanyInfo))
  : result (list (json * CompanyInfo)) :=
  match items with
  | [] => Ok companies
  | (key, company_data) :: rest =>
    f_ticker <- Py.getitem company_data (py "ticker") ;;
    f_official <- Py.getitem company_data (py "official_name") ;;
    f_short <- Py.getitem company_data (py "short_name") ;;
    f_common <- Py.getitem company_data (py "common_names") ;;
    all_terms <- Py.getitem company_data (py "eksi_search_terms") ;;
    f_terms <- Py.slice1 all_terms ;;
    f_sector <- Py.getitem company_data (py "sector") ;;
    f_active <- Py.get company_data (py "is_active") (JBool true) ;;
    load_keyed rest
      (Py.dict_set (JStr key)
         (mk_CompanyInfo f_ticker f_official f_short f_common f_terms f_sector
            f_active)
         companies)
  end.

(** The loop over the documents of the list shape. *)
Fixpoint load_listed (data : list json) (companies : list (json * CompanyInfo))
  : result (list (json * CompanyInfo)) :=
  match data with
  | [] => Ok companies
  | company_data :: rest =>
    f_ticker <- Py.get company_data (py "ticker") (JStr []) ;;
    f_official <- Py.get company_data (py "official_name") (JStr []) ;;
    f_short <- Py.get company_data (py "short_name") (JStr []) ;;
    f_common <- Py.get company_data (py "common_names") (JList []) ;;
    all_terms <- Py.get company_data (py "eksi_search_terms") (JList []) ;;
    f_terms <- Py.slice1 all_terms ;;
    f_sector <- Py.get company_data (py "sector") (JStr (py "unknown")) ;;
    f_active <- Py.get company_data (py "is_active") (JBool true) ;;
    if Py.hashable f_ticker
    then
      load_listed rest
        (Py.dict_set f_ticker
           (mk_CompanyInfo f_ticker f_official f_short f_common f_terms f_sector
              f_active)
           companies)
    else Raise TypeError
  end.

(** [load_companies_from_json], from the decoded document [data] on.  Every
    exception is logged and raised again: [Raise] is what the caller sees. *)
Definition load_companies_from_json (data : json)
  : result (list (json * CompanyInfo)) :=
  match data with
  | JDict d =>
    match Py.lookup (py "companies") d with
    | Some companies_data =>
      items <- Py.items companies_data ;;
      load_keyed items []
    | None => Raise ValueError
    end
  | JList l => load_listed l []
  | _ => Raise ValueError
  end.

End Loader.

(** ** Configuration *)

Definition BASE_URL : str := py "https://eksisozluk.com".
Definition REQUEST_TIMEOUT : Z := 40000.
Definition SELECTOR_WAIT_TIMEOUT : Z := 8000.
Definition MAX_CONCURRENT_WORKERS : Z := 3.
Definition ENTRIES_PER_COMPANY_LIMIT : Z := 5.

(** ** The page and its elements *)

(** A child element of an entry: what [inner_text()] answers. *)
Record ChildEl : Type := mk_ChildEl {
  inner_text : result str
}.

(** An [li] of the entry list, as the answers of the calls made on it:
    [get_attribute("data-id")] and the three [query_selector] calls, each of
    which gives [None] when nothing matches. *)
Record EntryEl : Type := mk_EntryEl {
  get_data_id : result (option str);
  query_content : result (option ChildEl);
  query_author : result (option ChildEl);
  query_date : result (option ChildEl)
}.

(** The pager's last-page link: the answer of [get_attribute("href")]. *)
Record LinkEl : Type := mk_LinkEl {
  get_href : result (option str)
}.

Variant selector : Type :=
| ItemList   (* "ul#entry-item-list > li" *)
| Pager.     (* "div.pager" *)

(** One element of the list [fetch_entries_fast] returns; the fields are the
    keys of the dictionary. *)
Record Entry : Type := mk_Entry {
  company_ticker : json;
  company_official_name : json;
  search_term_used : str;
  topic_url : str;
  entry_id : str;
  entry_content : str;
  entry_author : str;
  entry_date_str : str;
  entry_datetime_utc : option str;
  fetch_timestamp_utc : str;
  page_number : Z
}.

(** What a run leaves behind, oldest first: the lines it logs (one
    constructor per [logger] call, the source line in the comment) and, for
    the two browser calls the properties speak about, the call itself. *)
Inductive event : Type :=
| LogGoing (url : str)                          (* 155 *)
| LogNoEntriesFound                             (* 165 *)
| LogRealUrl (real_url : str)                   (* 170 *)
| LogLastPage (last_page_num : Z) (url : str)   (* 183 *)
| LogSinglePage                                 (* 191 *)
| LogResolveFailed                              (* 195 *)
| LogPage (current_page : Z) (target_url : str) (* 213 *)
| LogPageEmpty (current_page : Z)               (* 226 *)
| LogPageGot (current_page : Z) (count : Z)     (* 269 *)
| LogPageFailed (current_page : Z)              (* 272 *)
| LogTotal (count : Z) (start_page_num : Z)     (* 281 *)
| LogCompany (tick : json) (count : Z)          (* 321 *)
| LogCompanyError (tick : json)                 (* 325 *)
| LogProcessing (i n : Z) (tick : json)         (* 397 *)
| LogAdded (tick : json) (count total : Z)      (* 403 *)
| LogNoneFound (tick : json)                    (* 405 *)
| LogFailed (tick : json)                       (* 412 *)
| Goto (url : str)                  (* [page.goto(url)] is called *)
| Queried (current_page : Z) (els : list EntryEl).
                                    (* [query_selector_all] answered [els] *)

(** The browser and the clock, over a state [World] of which nothing is
    assumed: every call may answer differently each time and may raise. *)
Class Platform (World : Type) : Type := {
  new_context : World -> result unit * World;
  new_page : World -> result unit * World;
  page_close : World -> result unit * World;
  context_close : World -> result unit * World;
  page_url : World -> str;
  page_goto : str -> Z -> World -> result unit * World;
  wait_for_selector : selector -> Z -> World -> result unit * World;
  query_selector_all : World -> result (list EntryEl) * World;
  query_last_page_link : World -> result (option LinkEl) * World;
  now_utc : World -> datetime * World;
  now_istanbul : World -> datetime * World
}.

(** A computation reads and changes the world and writes events. *)
Definition run (World A : Type) : Type := World -> A * World * list event.

Module Run.

Section Ops.

Context {World : Type}.

Definition ret {A} (a : A) : run World A := fun w => (a, w, []).

Definition bind {A B} (c : run World A) (k : A -> run World B) : run World B :=
  fun w =>
    let '(a, w1, t1) := c w in
    let '(b, w2, t2) := k a w1 in
    (b, w2, t1 ++ t2).

Definition emit (e : event) : run World unit := fun w => (tt, w, [e]).

Definition call {A} (op : World -> A * World) : run World A :=
  fun w => let '(a, w') := op w in (a, w', []).

Definition read {A} (f : World -> A) : run World A := fun w => (f w, w, []).

End Ops.

End Run.

Declare Scope run_scope.
Delimit Scope run_scope with run.
Notation "x <- c ;; k" := (Run.bind c (fun x => k))
  (at level 61, c at next level, right associativity) : run_scope.
Notation "c ;; k" := (Run.bind c (fun _ => k))
  (at level 61, right associativity) : run_scope.

(** [str(n)] and zero-padded fields. *)
Definition str_of_int (n : Z) : str :=
  map N_of_ascii (list_ascii_of_string (NilZero.string_of_int (Z.to_int n))).

Fixpoint padded (width : nat) (n : Z) : str :=
  match width with
  | O => []
  | S w => padded w (n / 10) ++ [Z.to_N (48 + n mod 10)]
  end.

(** [dt.isoformat()] of an aware UTC value. *)
Definition isoformat_utc (dt : datetime) : str :=
  padded 4 (year dt) ++ py "-" ++ padded 2 (month dt) ++ py "-"
  ++ padded 2 (day dt) ++ py "T" ++ padded 2 (hour dt) ++ py ":"
  ++ padded 2 (minute dt) ++ py ":" ++ padded 2 (second dt)
  ++ (if microsecond dt =? 0 then [] else py "." ++ padded 6 (microsecond dt))
  ++ py "+00:00".

(** ** The fetcher *)

Section Fetcher.

Context {World : Type} {P : Platform World} {RT : PyRuntime}.

(** The value of the module constant [ENTRIES_PER_COMPANY_LIMIT], which the
    functions below read. *)
Variable limit : Z.

Local Open Scope run_scope.

Local Abbreviation run := (run World).

(** [await page.goto(url, timeout=REQUEST_TIMEOUT, ...)] *)
Definition goto (url : str) : run (result unit) :=
  Run.emit (Goto url) ;;
  Run.call (page_goto url REQUEST_TIMEOUT).

(** The slug of a search term: the first lines of [get_topic_url_fast]. *)
Definition url_term (search_term : str) : str :=
  let url_term := str_lower search_term in
  let url_term :=
    PyStr.replace (py "ü") (py "u")
      (PyStr.replace (py "ğ") (py "g")
         (PyStr.replace (py "ı") (py "i") url_term)) in
  let url_term :=
    PyStr.replace (py "ç") (py "c")
      (PyStr.replace (py "ö") (py "o")
         (PyStr.replace (py "ş") (py "s") url_term)) in
  PyStr.replace (py ",") (py "")
    (PyStr.replace (py ".") (py "")
       (PyStr.replace (py " ") (py "-") url_term)).

(** The inner [try] of [get_topic_url_fast], which looks for the link to the
    last page.  [Some] is its [return]; [None] is leaving the block, by
    reaching its end or by an exception, which the bare [except] drops. *)
Definition probe_last_page (real_url : str) : run (option (str * Z)) :=
  r <- Run.call (wait_for_selector Pager 3000) ;;
  match r with
  | Raise _ => Run.ret None
  | Ok _ =>
    l <- Run.call query_last_page_link ;;
    match l with
    | Raise _ | Ok None => Run.ret None
    | Ok (Some son_sayfa_link) =>
      match get_href son_sayfa_link with
      | Raise _ | Ok None => Run.ret None
      | Ok (Some son_sayfa_href) =>
        if negb (PyStr.eqb son_sayfa_href [])
           && PyStr.contains (py "?p=") son_sayfa_href
        then
          match int_of_str (nth 1 (PyStr.split (py "?p=") son_sayfa_href) []) with
          | Raise _ => Run.ret None
          | Ok last_page_num =>
            let last_page_url := real_url ++ py "?p=" ++ str_of_int last_page_num in
            Run.emit (LogLastPage last_page_num last_page_url) ;;
            r <- goto last_page_url ;;
            match r with
            | Raise _ => Run.ret None
            | Ok _ =>
              r <- Run.call (wait_for_selector ItemList SELECTOR_WAIT_TIMEOUT) ;;
              match r with
              | Raise _ => Run.ret None
              | Ok _ => Run.ret (Some (real_url, last_page_num))
              end
            end
          end
        else Run.ret None
      end
    end
  end.

(** [get_topic_url_fast(page, search_term)] *)
Definition get_topic_url_fast (search_term : str) : run (option (str * Z)) :=
  let topic_url := BASE_URL ++ py "/" ++ url_term search_term in
  Run.emit (LogGoing topic_url) ;;
  r <- goto topic_url ;;
  match r with
  | Raise _ => Run.emit LogResolveFailed ;; Run.ret None
  | Ok _ =>
    r <- Run.call (wait_for_selector ItemList SELECTOR_WAIT_TIMEOUT) ;;
    match r with
    | Raise _ => Run.emit LogNoEntriesFound ;; Run.ret None
    | Ok _ =>
      real_url <- Run.read page_url ;;
      Run.emit (LogRealUrl real_url) ;;
      found <- probe_last_page real_url ;;
      match found with
      | Some info => Run.ret (Some info)
      | None => Run.emit LogSinglePage ;; Run.ret (Some (real_url, 1))
      end
    end
  end.

(** The reads of one entry element, up to the three stripped texts: [Ok None]
    is a [continue], [Raise] an exception for the item's [except]. *)
Definition entry_fields (entry_el : EntryEl)
  : result (option (str * str * str * str)) :=
  (e_id <- get_data_id entry_el ;;
   match e_id with
   | None | Some [] => Ok None
   | Some entry_id =>
     content_el <- query_content entry_el ;;
     author_el <- query_author entry_el ;;
     date_el <- query_date entry_el ;;
     match content_el, author_el, date_el with
     | Some content_el, Some author_el, Some date_el =>
       content <- inner_text content_el ;;
       author <- inner_text author_el ;;
       date_str <- inner_text date_el ;;
       Ok (Some (entry_id, PyStr.strip content, PyStr.strip author,
                 PyStr.strip date_str))
     | _, _, _ => Ok None
     end
   end)%result.

(** The dictionary appended for an item. *)
Definition make_entry (company : CompanyInfo) (search_term target_url : str)
  (fetch_ts : datetime) (current_page : Z) (fields : str * str * str * str)
  (entry_datetime : option datetime) : Entry :=
  let '(e_id, content, author, date_str) := fields in
  {| company_ticker := ticker company;
     company_official_name := official_name company;
     search_term_used := search_term;
     topic_url := target_url;
     entry_id := e_id;
     entry_content := content;
     entry_author := author;
     entry_date_str := date_str;
     entry_datetime_utc := option_map isoformat_utc entry_datetime;
     fetch_timestamp_utc := isoformat_utc fetch_ts;
     page_number := current_page |}.

(** The body of the loop over the entry elements: the entry to append, or
    [None] when the item is skipped.  [parse_eksi_date_fast] reads the clock
    when it is called. *)
Definition extract_entry (company : CompanyInfo) (search_term target_url : str)
  (fetch_ts : datetime) (current_page : Z) (entry_el : EntryEl)
  : run (option Entry) :=
  match entry_fields entry_el with
  | Ok (Some (e_id, content, author, date_str)) =>
    now <- Run.call now_istanbul ;;
    match parse_eksi_date_fast now date_str with
    | Ok entry_datetime =>
      Run.ret (Some (make_entry company search_term target_url fetch_ts
                       current_page (e_id, content, author, date_str)
                       entry_datetime))
    | Raise _ => Run.ret None
    end
  | Ok None | Raise _ => Run.ret None
  end.

(** [for entry_el in elements: ...], for the elements in the order given; the
    caller passes [reversed(entry_elements)]. *)
Fixpoint for_entries (company : CompanyInfo) (search_term target_url : str)
  (fetch_ts : datetime) (current_page : Z) (elements : list EntryEl)
  (all_entries : list Entry) : run (list Entry) :=
  match elements with
  | [] => Run.ret all_entries
  | entry_el :: rest =>
    if limit <=? PyStr.len all_entries then Run.ret all_entries
    else
      e <- extract_entry company search_term target_url fetch_ts current_page
             entry_el ;;
      for_entries company search_term target_url fetch_ts current_page rest
        (match e with
         | Some entry => all_entries ++ [entry]
         | None => all_entries
         end)
  end.

(** The calls of the page-level [try] that can raise: navigation when the
    page is somewhere else, the wait for the entry list, the query. *)
Definition load_page (current_page : Z) (target_url : str)
  : run (result (list EntryEl)) :=
  url <- Run.read page_url ;;
  r <- (if PyStr.eqb url target_url then Run.ret (Ok tt) else goto target_url) ;;
  match r with
  | Raise e => Run.ret (Raise e)
  | Ok _ =>
    r <- Run.call (wait_for_selector ItemList SELECTOR_WAIT_TIMEOUT) ;;
    match r with
    | Raise e => Run.ret (Raise e)
    | Ok _ =>
      r <- Run.call query_selector_all ;;
      match r with
      | Raise e => Run.ret (Raise e)
      | Ok entry_elements =>
        Run.emit (Queried current_page entry_elements) ;;
        Run.ret (Ok entry_elements)
      end
    end
  end.

Definition page_url_of (base_url : str) (current_page : Z) : str :=
  if current_page =? 1 then base_url
  else base_url ++ py "?p=" ++ str_of_int current_page.

Definition count_on_page (current_page : Z) (all_entries : list Entry) : Z :=
  PyStr.len (filter (fun e => page_number e =? current_page) all_entries).

(** The [while] loop of [fetch_entries_fast]; [fuel] bounds its turns. *)
Fixpoint while_pages (fuel : nat) (base_url : str) (company : CompanyInfo)
  (search_term : str) (fetch_ts : datetime) (current_page : Z)
  (all_entries : list Entry) : run (list Entry) :=
  match fuel with
  | O => Run.ret all_entries
  | S fuel' =>
    if (PyStr.len all_entries <? limit) && (1 <=? current_page) then
      let target_url := page_url_of base_url current_page in
      Run.emit (LogPage current_page target_url) ;;
      loaded <- load_page current_page target_url ;;
      match loaded with
      | Raise _ => Run.emit (LogPageFailed current_page) ;; Run.ret all_entries
      | Ok [] => Run.emit (LogPageEmpty current_page) ;; Run.ret all_entries
      | Ok entry_elements =>
        all_entries <-
          for_entries company search_term target_url fetch_ts current_page
            (rev entry_elements) all_entries ;;
        Run.emit (LogPageGot current_page (count_on_page current_page all_entries)) ;;
        while_pages fuel' base_url company search_term fetch_ts
          (current_page - 1) all_entries
      end
    else Run.ret all_entries
  end.

(** [fetch_entries_fast(page, topic_url, company, search_term,
    start_page_num)].  No call outside the page-level [try] raises, so the
    outer [except] is never entered.  The loop takes at most
    [start_page_num] turns. *)
Definition fetch_entries_fast (base_url : str) (company : CompanyInfo)
  (search_term : str) (start_page_num : Z) : run (list Entry) :=
  fetch_ts <- Run.call now_utc ;;
  all_entries <-
    while_pages (Z.to_nat start_page_num) base_url company search_term fetch_ts
      start_page_num [] ;;
  Run.emit (LogTotal (PyStr.len all_entries) start_page_num) ;;
  Run.ret all_entries.

(** The loop of [process_company_fast] over the search terms. *)
Fixpoint for_terms (company : CompanyInfo) (terms : list json)
  (processed_urls : list str) (all_entries : list Entry)
  : run (result (list Entry)) :=
  match terms with
  | [] => Run.ret (Ok all_entries)
  | JStr term :: rest =>
    topic_info <- get_topic_url_fast term ;;
    match topic_info with
    | None => for_terms company rest processed_urls all_entries
    | Some (base_url, start_page_num) =>
      if existsb (PyStr.eqb base_url) processed_urls
      then for_terms company rest processed_urls all_entries
      else
        entries <- fetch_entries_fast base_url company term start_page_num ;;
        let all_entries := all_entries ++ entries in
        if limit <=? PyStr.len all_entries then Run.ret (Ok all_entries)
        else for_terms company rest (base_url :: processed_urls) all_entries
    end
  | _ :: _ => Run.ret (Raise AttributeError)
  end.

(** The statements of the [try] of [process_company_fast] once the page is
    open. *)
Definition process_terms (company : CompanyInfo) : run (result (list Entry)) :=
  match rbind (Py.slice1 (eksi_search_terms company)) Py.iter with
  | Raise e => Run.ret (Raise e)
  | Ok terms => for_terms company terms [] []
  end.

(** [process_company_fast(browser, company, semaphore)]: the [except] turns
    every exception into the empty list, the [finally] closes what was
    opened and drops what closing raises. *)
Definition process_company_fast (company : CompanyInfo) : run (result (list Entry)) :=
  c <- Run.call new_context ;;
  match c with
  | Raise _ => Run.emit (LogCompanyError (ticker company)) ;; Run.ret (Ok [])
  | Ok _ =>
    p <- Run.call new_page ;;
    match p with
    | Raise _ =>
      Run.emit (LogCompanyError (ticker company)) ;;
      Run.call context_close ;;
      Run.ret (Ok [])
    | Ok _ =>
      r <- process_terms company ;;
      all_entries <-
        match r with
        | Ok all_entries =>
          Run.emit (LogCompany (ticker company) (PyStr.len all_entries)) ;;
          Run.ret all_entries
        | Raise _ =>
          Run.emit (LogCompanyError (ticker company)) ;; Run.ret []
        end ;;
      Run.call page_close ;;
      Run.call context_close ;;
      Run.ret (Ok all_entries)
    end
  end.

(** The loop of [main] over [companies_to_fetch], one company after the
    other; [i] counts from 1 and [n] is their number. *)
Fixpoint main_loop (i n : Z) (companies_to_fetch : list CompanyInfo)
  (all_entries : list Entry) : run (list Entry) :=
  match companies_to_fetch with
  | [] => Run.ret all_entries
  | company :: rest =>
    Run.emit (LogProcessing i n (ticker company)) ;;
    r <- process_company_fast company ;;
    all_entries <-
      match r with
      | Ok [] => Run.emit (LogNoneFound (ticker company)) ;; Run.ret all_entries
      | Ok result =>
        let all_entries := all_entries ++ result in
        Run.emit (LogAdded (ticker company) (PyStr.len result)
                    (PyStr.len all_entries)) ;;
        Run.ret all_entries
      | Raise _ => Run.emit (LogFailed (ticker company)) ;; Run.ret all_entries
      end ;;
    main_loop (i + 1) n rest all_entries
  end.

End Fetcher.

(** ** A site that does not change *)

(** A world for examples: a site that answers every address the same way each
    time, and a clock that stands still. *)
Record Site : Type := mk_Site {
  site_nav : str -> result str;
    (* [goto]: the address the page lands on, or the exception *)
  site_entries : str -> list EntryEl;
    (* the entry elements of the page at an address *)
  site_last_href : str -> option str
    (* the [href] of the last-page link of the page at an address *)
}.

Record StaticWorld : Type := mk_StaticWorld {
  site : Site;
  at_url : str;
  clock_utc : datetime;
  clock_istanbul : datetime
}.

Definition static_goto (url : str) (w : StaticWorld) : result unit * StaticWorld :=
  match site_nav (site w) url with
  | Ok landed =>
    (Ok tt, mk_StaticWorld (site w) landed (clock_utc w) (clock_istanbul w))
  | Raise e => (Raise e, w)
  end.

Definition static_wait (sel : selector) (w : StaticWorld)
  : result unit * StaticWorld :=
  match sel with
  | ItemList =>
    match site_entries (site w) (at_url w) with
    | [] => (Raise PlaywrightError, w)
    | _ :: _ => (Ok tt, w)
    end
  | Pager =>
    match site_last_href (site w) (at_url w) with
    | None => (Raise PlaywrightError, w)
    | Some _ => (Ok tt, w)
    end
  end.

Instance static_platform : Platform StaticWorld := {
  new_context w := (Ok tt, w);
  new_page w :=
    (Ok tt, mk_StaticWorld (site w) (py "about:blank") (clock_utc w)
              (clock_istanbul w));
  page_close w := (Ok tt, w);
  context_close w := (Ok tt, w);
  page_url := at_url;
  page_goto url _ := static_goto url;
  wait_for_selector sel _ := static_wait sel;
  query_selector_all w := (Ok (site_entries (site w) (at_url w)), w);
  query_last_page_link w :=
    (Ok (option_map (fun h => mk_LinkEl (Ok (Some h)))
           (site_last_href (site w) (at_url w))), w);
  now_utc w := (clock_utc w, w);
  now_istanbul w := (clock_istanbul w, w)
}.

Module Demo.

(** [str.lower] on ASCII, Latin-1 and the capital letters of the Turkish
    alphabet; other code points are left as they are. *)
Definition lower_char (c : N) : str :=
  if ((65 <=? c) && (c <=? 90))%N then [(c + 32)%N]
  else if ((192 <=? c) && (c <=? 222) && negb (c =? 215))%N then [(c + 32)%N]
  else if (c =? 286)%N then [287%N]
  else if (c =? 304)%N then [105%N; 775%N]
  else if (c =? 350)%N then [351%N]
  else [c].

Definition lower (s : str) : str := flat_map lower_char s.

(** [int] on a run of ASCII digits. *)
Fixpoint digits_value (acc : Z) (s : str) : result Z :=
  match s with
  | [] => Ok acc
  | c :: rest =>
    if ((48 <=? c) && (c <=? 57))%N
    then digits_value (10 * acc + (Z.of_N c - 48)) rest
    else Raise ValueError
  end.

Definition int (s : str) : result Z :=
  match s with
  | [] => Raise ValueError
  | _ :: _ => digits_value 0 s
  end.

(** Of the years before 2016 the example knows the daylight saving time of
    2010, which ran from 28 March to 31 October at +03:00; elsewhere winter
    time (+02:00) stands in. *)
Definition summer_2010 (dt : datetime) : bool :=
  (year dt =? 2010)
  && ((3 <? month dt) && (month dt <? 10)
      || (month dt =? 3) && (29 <=? day dt)
      || (month dt =? 10) && (day dt <=? 30)).

Definition runtime : PyRuntime := {|
  str_lower := lower;
  int_of_str := int;
  istanbul_before_2016 := fun dt => if summer_2010 dt then Ok 10800 else Ok 7200
|}.

(** An entry element with identifier [n] and all its parts. *)
Definition item (n : Z) : EntryEl := {|
  get_data_id := Ok (Some (str_of_int n));
  query_content := Ok (Some (mk_ChildEl (Ok (py " some text "))));
  query_author := Ok (Some (mk_ChildEl (Ok (py "yazar"))));
  query_date := Ok (Some (mk_ChildEl (Ok (py "09.05.2024 12:00"))))
|}.

(** Five items, numbered [10 * p + 1] to [10 * p + 5], oldest first. *)
Definition items_of_page (p : Z) : list EntryEl :=
  map (fun k => item (10 * p + k)) [1; 2; 3; 4; 5].

(** A site on which every topic has three pages of five entries, except that
    every address with [fail] in it cannot be reached. *)
Definition three_pages : Site := {|
  site_nav url :=
    if PyStr.contains (py "fail") url then Raise PlaywrightError else Ok url;
  site_entries url :=
    if PyStr.contains (py "?p=3") url then items_of_page 3
    else if PyStr.contains (py "?p=2") url then items_of_page 2
    else items_of_page 1;
  site_last_href url := Some (py "/konu?p=3")
|}.

Definition world : StaticWorld := {|
  site := three_pages;
  at_url := py "about:blank";
  clock_utc := mk_datetime 2024 5 10 7 0 0 250000;
  clock_istanbul := mk_datetime 2024 5 10 10 0 0 250000
|}.

Definition company (name term : string) : CompanyInfo := {|
  ticker := JStr (py name);
  official_name := JStr (py name);
  short_name := JStr (py name);
  common_names := JList [];
  eksi_search_terms := JList [JStr (py term)];
  sector := JStr (py "unknown");
  is_active := JBool true
|}.

(** Ten companies; the address of the fourth cannot be reached. *)
Definition ten_companies : list CompanyInfo :=
  [company "AAA" "a"; company "BBB" "b"; company "CCC" "c";
   company "DDD" "fail d"; company "EEE" "e"; company "FFF" "f";
   company "GGG" "g"; company "HHH" "h"; company "III" "i";
   company "JJJ" "j"].

End Demo.

(** ** Vocabulary of the properties *)

(** What the slug makes of one lowered character, in the words of the
    specification: six letters go to ASCII, a space to a hyphen, periods and
    commas are dropped. *)
Definition slug_char (c : N) : str :=
  if (c =? 305)%N then py "i"        (* dotless i *)
  else if (c =? 287)%N then py "g"   (* g with breve *)
  else if (c =? 252)%N then py "u"   (* u with diaeresis *)
  else if (c =? 351)%N then py "s"   (* s with cedilla *)
  else if (c =? 246)%N then py "o"   (* o with diaeresis *)
  else if (c =? 231)%N then py "c"   (* c with cedilla *)
  else if (c =? 32)%N then py "-"
  else if (c =? 46)%N then []
  else if (c =? 44)%N then []
  else [c].

Definition slugify_spec {RT : PyRuntime} (search_term : str) : str :=
  flat_map slug_char (str_lower search_term).

(** Projections of the outcome of a computation. *)
Definition value_of {W A} (r : A * W * list event) : A := fst (fst r).
Definition world_of {W A} (r : A * W * list event) : W := snd (fst r).
Definition trace_of {W A} (r : A * W * list event) : list event := snd r.

(** The five texts of the examples; none has a capital letter. *)
Definition example_texts : list str :=
  [py "bugün 14:05"; py "dün 09:00"; py "09.05.2024 12:00"; py "09.05.2024";
   py "garbage"].

(** The month and day of the [n]-th day (from 0) of a year, as [ord2ymd]
    computes them. *)
Definition month_day (leapyear : bool) (n : Z) : Z * Z :=
  let m := Z.shiftr (n + 50) 5 in
  let preceding :=
    Datetime.DAYS_BEFORE_MONTH m + (if (2 <? m) && leapyear then 1 else 0) in
  if n <? preceding
  then
    let m' := m - 1 in
    let preceding' :=
      preceding
      - (Datetime.DAYS_IN_MONTH m' + (if (m' =? 2) && leapyear then 1 else 0)) in
    (m', n - preceding' + 1)
  else (m, n - preceding + 1).

Definition month_day_ok (leapyear : bool) (n : Z) : bool :=
  let '(m, d) := month_day leapyear n in
  (1 <=? m) && (m <=? 12) && (1 <=? d)
  && (d <=? (if (m =? 2) && leapyear then 29 else Datetime.DAYS_IN_MONTH m)).

(** The value is the slice [[:1]] of something, and has at most one
    element. *)
Definition truncated (v : json) : Prop :=
  (exists source, Py.slice1 source = Ok v)
  /\ exists n, Py.length v = Some n /\ n <= 1.

(** A document of each shape, with two search terms for its company. *)
Definition keyed_document : json :=
  JDict [(py "companies",
          JDict [(py "THYAO",
                  JDict [(py "ticker", JStr (py "THYAO"));
                         (py "official_name", JStr (py "Türk Hava Yolları"));
                         (py "short_name", JStr (py "THY"));
                         (py "common_names", JList []);
                         (py "eksi_search_terms",
                          JList [JStr (py "thy"); JStr (py "türk hava yolları")]);
                         (py "sector", JStr (py "ulaştırma"))])])].

Definition listed_document : json :=
  JList [JDict [(py "ticker", JStr (py "THYAO"));
                (py "eksi_search_terms",
                 JList [JStr (py "thy"); JStr (py "türk hava yolları")])]].

Definition terms_truncated (companies : list (json * CompanyInfo)) : Prop :=
  Forall (fun kv => truncated (eksi_search_terms (snd kv))) companies.

(** ** Reading a trace *)

(** The page indices of the lines "Page n: url", in the order logged. *)
Definition pages_logged (t : list event) : list Z :=
  flat_map (fun e => match e with LogPage n _ => [n] | _ => [] end) t.

(** The addresses navigated to. *)
Definition gotos (t : list event) : list str :=
  flat_map (fun e => match e with Goto url => [url] | _ => [] end) t.

(** The pages whose entry list was read, with the elements in document
    order. *)
Definition queried (t : list event) : list (Z * list EntryEl) :=
  flat_map (fun e => match e with Queried n els => [(n, els)] | _ => [] end) t.

(** [start; start - 1; ...], [k] indices. *)
Fixpoint countdown (start : Z) (k : nat) : list Z :=
  match k with
  | O => []
  | S k' => start :: countdown (start - 1) k'
  end.

(** The four texts of the elements that have them all, in the order of the
    elements. *)
Definition item_fields (elements : list EntryEl) : list (str * str * str * str) :=
  flat_map
    (fun el => match entry_fields el with Ok (Some f) => [f] | _ => [] end)
    elements.

(** What one page that was read offers, newest first: its index with the
    texts of each usable element, last element first. *)
Definition page_items (q : Z * list EntryEl) : list (Z * (str * str * str * str)) :=
  map (pair (fst q)) (item_fields (rev (snd q))).

(** All that the pages read in a run offer, in the order they were read. *)
Definition offered (t : list event) : list (Z * (str * str * str * str)) :=
  flat_map page_items (queried t).

(** A parsed date is [None] or a [datetime] of the calendar. *)
Definition date_ok (d : option datetime) : Prop :=
  match d with
  | None => True
  | Some dt => Datetime.valid dt = true
  end.

(** The entry [e] is the one made from the texts [snd pf] found on page
    [fst pf], with some parsed date. *)
Definition emitted_from (base_url : str) (company : CompanyInfo)
  (search_term : str) (fetch_ts : datetime) (e : Entry)
  (pf : Z * (str * str * str * str)) : Prop :=
  exists entry_datetime,
    date_ok entry_datetime
    /\ e = make_entry company search_term (page_url_of base_url (fst pf))
             fetch_ts (fst pf) (snd pf) entry_datetime.

(** An entry of a walk: made from texts with a non-empty identifier found
    on some page, with a parsed date that is [None] or of the calendar. *)
Definition walked_entry (base_url : str) (company : CompanyInfo)
  (search_term : str) (fetch_ts : datetime) (e : Entry) : Prop :=
  exists pf entry_datetime,
    fst (fst (fst (snd pf))) <> []
    /\ date_ok entry_datetime
    /\ e = make_entry company search_term (page_url_of base_url (fst pf))
             fetch_ts (fst pf) (snd pf) entry_datetime.

(** An emitted record has an identifier, and its date field is empty or the
    text of a [datetime] of the calendar. *)
Definition entry_ok (e : Entry) : Prop :=
  entry_id e <> []
  /\ (entry_datetime_utc e = None
      \/ exists dt, Datetime.valid dt = true
                    /\ entry_datetime_utc e = Some (isoformat_utc dt)).

(** The element has an identifier and its three parts. *)
Definition has_fields (entry_el : EntryEl) : bool :=
  match entry_fields entry_el with
  | Ok (Some _) => true
  | _ => false
  end.

Definition is_some {A} (o : option A) : bool :=
  match o with
  | Some _ => true
  | None => false
  end.

(** The world with the page at another address. *)
Definition moved_to (url : str) (w : StaticWorld) : StaticWorld :=
  mk_StaticWorld (site w) url (clock_utc w) (clock_istanbul w).

Section BatchVocabulary.

Context {World : Type} {P : Platform World} {RT : PyRuntime}.

Variable limit : Z.

(** What a subject adds to the batch. *)
Definition own_entries (r : result (list Entry)) : list Entry :=
  match r with
  | Ok es => es
  | Raise _ => []
  end.

(** The entries of each company of a batch, each company run in the world
    the one before it left. *)
Fixpoint batch (companies : list CompanyInfo) (w : World) : list (list Entry) :=
  match companies with
  | [] => []
  | company :: rest =>
    let r := process_company_fast limit company w in
    own_entries (value_of r) :: batch rest (world_of r)
  end.

(** The entries of one subject: they come from one walk, and are no more
    than the limit. *)
Definition subject_entries (company : CompanyInfo) (es : list Entry) : Prop :=
  PyStr.len es <= Z.max 0 limit
  /\ exists base_url search_term fetch_ts,
       Forall (walked_entry base_url company search_term fetch_ts) es.

(** The world a batch leaves. *)
Fixpoint world_after (companies : list CompanyInfo) (w : World) : World :=
  match companies with
  | [] => w
  | company :: rest =>
    world_after rest (world_of (process_company_fast limit company w))
  end.

End BatchVocabulary.

(** The ten companies again; this time the fourth has a number where its
    search term should be, so that its run raises. *)
Definition ten_companies_bad_term : list CompanyInfo :=
  firstn 3 Demo.ten_companies
  ++ [{| ticker := JStr (py "DDD");
         official_name := JStr (py "DDD");
         short_name := JStr (py "DDD");
         common_names := JList [];
         eksi_search_terms := JList [JInt 4];
         sector := JStr (py "unknown");
         is_active := JBool true |}]
  ++ skipn 4 Demo.ten_companies.

(** Five entries for each of the nine other companies, in their order. *)
Definition nine_times_five : list json :=
  flat_map (fun c => repeat (ticker c) 5)
    (firstn 3 Demo.ten_companies ++ skipn 4 Demo.ten_companies).

(** ** The loading stage of [main] *)

Definition TARGET_COMPANIES_FOR_DEBUG : Z := 999999.

(** [sep.join(v)] on the values [v] binds to a loop: every one of them has
    to be a string. *)
Fixpoint join_items (sep : str) (items : list json) : result str :=
  match items with
  | [] => Ok []
  | JStr s :: rest =>
    match rest with
    | [] => Ok s
    | _ :: _ => rbind (join_items sep rest) (fun r => Ok (s ++ sep ++ r))
    end
  | _ :: _ => Raise TypeError
  end.

Definition join (sep : str) (v : json) : result str :=
  rbind (Py.iter v) (join_items sep).

(** The loop of [main] that logs the companies to process; formatting the
    ticker and the short name raises nothing, joining the terms can. *)
Fixpoint show_companies (companies : list CompanyInfo) : result unit :=
  match companies with
  | [] => Ok tt
  | company :: rest =>
    rbind (rbind (Py.slice1 (eksi_search_terms company)) (join (py ", ")))
      (fun _ => show_companies rest)
  end.

(** The first [try] of [main], from the decoded document on: [Ok] holds
    [companies_to_fetch], [Raise] is the [return] of its [except]. *)
Definition companies_to_fetch (data : json) : result (list CompanyInfo) :=
  rbind (load_companies_from_json data) (fun companies_dict =>
    let all_companies := map snd companies_dict in
    let companies_to_fetch :=
      firstn (Z.to_nat TARGET_COMPANIES_FOR_DEBUG) all_companies in
    rbind (show_companies companies_to_fetch) (fun _ =>
      Ok companies_to_fetch)).

(** ** Vocabulary of the further properties *)

(** The lines "Failed to load page" and "No entries found, stopping". *)
Definition ends_walk (e : event) : bool :=
  match e with
  | LogPageFailed _ | LogPageEmpty _ => true
  | _ => false
  end.

(** A page is logged, navigated to or read. *)
Definition page_activity (e : event) : bool :=
  match e with
  | LogPage _ _ | Goto _ | Queried _ _ => true
  | _ => false
  end.

(** Behind the first line that ends a walk there is no page activity. *)
Fixpoint quiet_after_end (t : list event) : bool :=
  match t with
  | [] => true
  | e :: t' =>
    if ends_walk e then negb (existsb page_activity t')
    else quiet_after_end t'
  end.

(** The term a subject's run searches for: the first element of a list of
    terms when it is a string, the first character of a string of terms. *)
Definition searched_term (terms : json) : option str :=
  match terms with
  | JList (JStr term :: _) => Some term
  | JStr (c :: _) => Some [c]
  | _ => None
  end.

(** No key is found again behind itself. *)
Fixpoint distinct_keys (keys : list json) : bool :=
  match keys with
  | [] => true
  | k :: rest =>
    forallb (fun k' => negb (Py.key_eqb k k')) rest && distinct_keys rest
  end.

(** The documents of the companies in a document of either shape. *)
Definition documents (data : json) : list json :=
  match data with
  | JList l => l
  | JDict d =>
    match Py.lookup (py "companies") d with
    | Some (JDict items) => map snd items
    | _ => []
    end
  | _ => []
  end.

(** In the list shape a company is stored under its own ticker, in the
    keyed shape under the key of its document. *)
Definition stored_under (data : json) (kc : json * CompanyInfo) : Prop :=
  match data with
  | JList _ => Py.key_eqb (fst kc) (ticker (snd kc)) = true
  | _ => exists key, fst kc = JStr key
  end.

Definition required_fields : list str :=
  [py "ticker"; py "official_name"; py "short_name"; py "common_names";
   py "eksi_search_terms"; py "sector"].

Definition sliceable (v : json) : bool :=
  match v with
  | JList _ | JStr _ => true
  | _ => false
  end.

(** A company document of the keyed shape has the six fields, with terms
    that can be sliced. *)
Definition keyed_ok (company_data : json) : bool :=
  match company_data with
  | JDict fields =>
    forallb (fun k => is_some (Py.lookup k fields)) required_fields
    && match Py.lookup (py "eksi_search_terms") fields with
       | Some v => sliceable v
       | None => false
       end
  | _ => false
  end.

(** A company document of the list shape is an object; its terms, if it has
    any, can be sliced and its ticker, if it has one, can be a key. *)
Definition listed_ok (company_data : json) : bool :=
  match company_data with
  | JDict fields =>
    match Py.lookup (py "eksi_search_terms") fields with
    | Some v => sliceable v
    | None => true
    end
    && match Py.lookup (py "ticker") fields with
       | Some v => Py.hashable v
       | None => true
       end
  | _ => false
  end.

Definition accepted (data : json) : bool :=
  match data with
  | JDict d =>
    match Py.lookup (py "companies") d with
    | Some (JDict items) => forallb keyed_ok (map snd items)
    | _ => false
    end
  | JList l => forallb listed_ok l
  | _ => false
  end.

Definition is_string (v : json) : bool :=
  match v with
  | JStr _ => true
  | _ => false
  end.

(** The first of a list of terms is not a string. *)
Definition first_term_not_string (terms : json) : bool :=
  match terms with
  | JList (term :: _) => negb (is_string term)
  | _ => false
  end.

(** The day of the year counted back from the month and day that [ord2ymd]
    computes for it. *)
Definition month_day_back (leapyear : bool) (n : Z) : bool :=
  let '(m, d) := month_day leapyear n in
  Datetime.DAYS_BEFORE_MONTH m + (if (2 <? m) && leapyear then 1 else 0) + d
  =? n + 1.

(** The texts the site shows for a wall clock: ["HH:MM"], ["DD.MM.YYYY"] and
    ["DD.MM.YYYY HH:MM"]. *)
Definition HM_text (H M : Z) : str := padded 2 H ++ py ":" ++ padded 2 M.

Definition dmY_text (y m d : Z) : str :=
  padded 2 d ++ py "." ++ padded 2 m ++ py "." ++ padded 4 y.

Definition dmY_HM_text (dt : datetime) : str :=
  dmY_text (year dt) (month dt) (day dt) ++ py " "
  ++ HM_text (hour dt) (minute dt).

(** The wall clock at [H]:[M] on the date of [dt]. *)
Definition at_time (dt : datetime) (H M : Z) : datetime :=
  mk_datetime (year dt) (month dt) (day dt) H M 0 0.

(** The counts of the lines "Page n: Got c entries" and of the closing line
    "Total entries collected: c". *)
Definition got_counts (t : list event) : list Z :=
  flat_map (fun e => match e with LogPageGot _ c => [c] | _ => [] end) t.

Definition totals_logged (t : list event) : list Z :=
  flat_map (fun e => match e with LogTotal c _ => [c] | _ => [] end) t.

Definition sum_counts (l : list Z) : Z := fold_right Z.add 0 l.

(** ** The records of the company documents *)

(** The [CompanyInfo] that the loop over the keyed shape builds from one
    company document (lines 77 to 85). *)
Definition keyed_company (company_data : json) : result CompanyInfo :=
  (f_ticker <- Py.getitem company_data (py "ticker") ;;
   f_official <- Py.getitem company_data (py "official_name") ;;
   f_short <- Py.getitem company_data (py "short_name") ;;
   f_common <- Py.getitem company_data (py "common_names") ;;
   all_terms <- Py.getitem company_data (py "eksi_search_terms") ;;
   f_terms <- Py.slice1 all_terms ;;
   f_sector <- Py.getitem company_data (py "sector") ;;
   f_active <- Py.get company_data (py "is_active") (JBool true) ;;
   Ok (mk_CompanyInfo f_ticker f_official f_short f_common f_terms f_sector
         f_active))%result.

(** The one that the loop over the list shape builds (lines 89 to 98). *)
Definition listed_company (company_data : json) : result CompanyInfo :=
  (f_ticker <- Py.get company_data (py "ticker") (JStr []) ;;
   f_official <- Py.get company_data (py "official_name") (JStr []) ;;
   f_short <- Py.get company_data (py "short_name") (JStr []) ;;
   f_common <- Py.get company_data (py "common_names") (JList []) ;;
   all_terms <- Py.get company_data (py "eksi_search_terms") (JList []) ;;
   f_terms <- Py.slice1 all_terms ;;
   f_sector <- Py.get company_data (py "sector") (JStr (py "unknown")) ;;
   f_active <- Py.get company_data (py "is_active") (JBool true) ;;
   Ok (mk_CompanyInfo f_ticker f_official f_short f_common f_terms f_sector
         f_active))%result.

(** The key a document of the list shape is stored under: its ticker, or
    the empty string when it has none. *)
Definition document_key (company_data : json) : json :=
  match Py.get company_data (py "ticker") (JStr []) with
  | Ok f_ticker => f_ticker
  | Raise _ => JNull
  end.

(** The company documents of a document of either shape, in their order,
    each with the key it is stored under. *)
Definition entries_of (data : json) : list (json * json) :=
  match data with
  | JList l => map (fun company_data => (document_key company_data, company_data)) l
  | JDict d =>
    match Py.lookup (py "companies") d with
    | Some (JDict items) => map (fun kv => (JStr (fst kv), snd kv)) items
    | _ => []
    end
  | _ => []
  end.

Definition company_of (data company_data : json) : result CompanyInfo :=
  match data with
  | JList _ => listed_company company_data
  | _ => keyed_company company_data
  end.

(** The search terms a company document gives. *)
Definition document_terms (data company_data : json) : result json :=
  match data with
  | JList _ => Py.get company_data (py "eksi_search_terms") (JList [])
  | _ => Py.getitem company_data (py "eksi_search_terms")
  end.

(** [kept] holds the first of [all_terms] and nothing else, or nothing when
    there is no first. *)
Definition first_kept (all_terms kept : json) : Prop :=
  match all_terms with
  | JList [] => kept = JList []
  | JList (first :: _) => kept = JList [first]
  | JStr [] => kept = JStr []
  | JStr (first :: _) => kept = JStr [first]
  | _ => False
  end.

(** The stored pair is the record of a company document of [data], under
    a key equal to that document's key (the key itself when it is a
    string). *)
Definition stored_from (data : json) (kc : json * CompanyInfo) : Prop :=
  exists key company_data,
    In (key, company_data) (entries_of data)
    /\ Py.key_eqb (fst kc) key = true
    /\ (forall s, key = JStr s -> fst kc = key)
    /\ company_of data company_data = Ok (snd kc).

(** The page number the link to the last page gives: the number behind
    [?p=] in its [href]. *)
Definition last_page_of_link {RT : PyRuntime} (link : result (option LinkEl))
  : option Z :=
  match link with
  | Ok (Some son_sayfa_link) =>
    match get_href son_sayfa_link with
    | Ok (Some son_sayfa_href) =>
      if negb (PyStr.eqb son_sayfa_href [])
         && PyStr.contains (py "?p=") son_sayfa_href
      then
        match int_of_str (nth 1 (PyStr.split (py "?p=") son_sayfa_href) []) with
        | Ok last_page_num => Some last_page_num
        | Raise _ => None
        end
      else None
    | _ => None
    end
  | _ => None
  end.

(** * Proofs *)

(** ** The outcome of a sequence of two computations *)

Section RunFacts.

Context {World : Type}.

Lemma bind_value {A B} (c : run World A) (k : A -> run World B) (w : World) :
  value_of (Run.bind c k w) = value_of (k (value_of (c w)) (world_of (c w))).
Proof.
  unfold Run.bind, value_of, world_of.
  destruct (c w) as [[a w1] t1]; cbn. destruct (k a w1) as [[b w2] t2].
  reflexivity.
Qed.

Lemma bind_world {A B} (c : run World A) (k : A -> run World B) (w : World) :
  world_of (Run.bind c k w) = world_of (k (value_of (c w)) (world_of (c w))).
Proof.
  unfold Run.bind, value_of, world_of.
  destruct (c w) as [[a w1] t1]; cbn. destruct (k a w1) as [[b w2] t2].
  reflexivity.
Qed.

Lemma bind_trace {A B} (c : run World A) (k : A -> run World B) (w : World) :
  trace_of (Run.bind c k w)
  = trace_of (c w) ++ trace_of (k (value_of (c w)) (world_of (c w))).
Proof.
  unfold Run.bind, value_of, world_of, trace_of.
  destruct (c w) as [[a w1] t1]; cbn. destruct (k a w1) as [[b w2] t2].
  reflexivity.
Qed.

End RunFacts.

(** ** Properties of the string functions *)

Section StringFacts.

Lemma replace_char (c : N) (new s : str) :
  PyStr.replace [c] new s = flat_map (fun x => if (x =? c)%N then new else [x]) s.
Proof.
  unfold PyStr.replace.
  induction s as [|x s IH]; [reflexivity|].
  cbn [PyStr.replace_from PyStr.is_prefix flat_map List.length Nat.pred].
  rewrite N.eqb_sym, andb_true_r.
  destruct (x =? c)%N; rewrite IH; reflexivity.
Qed.

Lemma flat_map_fuse {A B C} (f : A -> list B) (g : B -> list C) (l : list A) :
  flat_map g (flat_map f l) = flat_map (fun x => flat_map g (f x)) l.
Proof.
  induction l as [|x l IH]; [reflexivity|].
  cbn [flat_map]. rewrite flat_map_app, IH. reflexivity.
Qed.

End StringFacts.

Section Slug.

Context {World : Type} {P : Platform World} {RT : PyRuntime}.

(** The chain of [replace] calls acts on each character on its own. *)
Lemma url_term_pointwise (search_term : str) :
  url_term search_term = flat_map slug_char (str_lower search_term).
Proof.
  unfold url_term.
  change (py "ü") with [252%N]. change (py "ğ") with [287%N].
  change (py "ı") with [305%N]. change (py "ç") with [231%N].
  change (py "ö") with [246%N]. change (py "ş") with [351%N].
  change (py ",") with [44%N]. change (py ".") with [46%N].
  change (py " ") with [32%N].
  rewrite !replace_char, !flat_map_fuse.
  apply flat_map_ext. intros c. unfold slug_char.
  repeat match goal with
  | |- context [(c =? ?k)%N] =>
    let E := fresh "E" in
    destruct (c =? k)%N eqn:E;
    [apply N.eqb_eq in E; subst c; reflexivity
    |cbn [flat_map app]; rewrite ?app_nil_r]
  end.
  reflexivity.
Qed.

End Slug.

(** C8.  Slugification is a function of the search term alone: for every
    search term (and every [str.lower]) the chain of replacements in
    [get_topic_url_fast] lowers the term and then maps each character on its
    own, the six Turkish letters to ASCII, a space to a hyphen, periods and
    commas to nothing, so that none of these nine characters is left; the
    address built from the slug is logged and requested only afterwards, as
    the first two events of the resolver; and "Türk Telekom" gives
    "turk-telekom". *)
Theorem slugify_pure_transform :
  (forall (RT : PyRuntime) (search_term : str),
     url_term search_term = slugify_spec search_term)
  /\ (forall (RT : PyRuntime) (search_term : str),
        forallb
          (fun c => negb (existsb (N.eqb c)
                            [305; 287; 252; 351; 246; 231; 32; 46; 44]%N))
          (url_term search_term) = true)
  /\ (forall (World : Type) (P : Platform World) (RT : PyRuntime)
        (search_term : str) (w : World),
        exists rest,
          trace_of (get_topic_url_fast search_term w)
          = LogGoing (BASE_URL ++ py "/" ++ url_term search_term)
            :: Goto (BASE_URL ++ py "/" ++ url_term search_term) :: rest)
  /\ @url_term Demo.runtime (py "Türk Telekom") = py "turk-telekom".
Proof.
  split; [|split; [|split]].
  - intros RT s. apply url_term_pointwise.
  - intros RT s. rewrite url_term_pointwise.
    induction (str_lower s) as [|c l IH]; [reflexivity|].
    cbn [flat_map]. rewrite forallb_app, IH, andb_true_r.
    unfold slug_char.
    repeat match goal with
    | |- context [(c =? ?k)%N] =>
      let E := fresh "E" in
      destruct (c =? k)%N eqn:E; [reflexivity|]
    end.
    cbn [forallb existsb]. rewrite E, E0, E1, E2, E3, E4, E5, E6, E7.
    reflexivity.
  - intros World P RT s w.
    unfold get_topic_url_fast, goto. rewrite !bind_trace.
    cbn [Run.emit trace_of snd app]. eexists. reflexivity.
  - vm_compute. reflexivity.
Qed.

(** ** Properties of the date parser *)

Section DateFacts.

Context {RT : PyRuntime}.

(** Sums of a [datetime] and a [timedelta] raise [OverflowError] only. *)
Lemma add_seconds_raises (dt : datetime) (s : Z) (e : exn) :
  Datetime.add_seconds dt s = Raise e -> e = OverflowError.
Proof.
  unfold Datetime.add_seconds.
  destruct (_ && _); [|congruence].
  destruct (Datetime.ord2ymd _) as [[y m] d]. discriminate.
Qed.

(** No exception leaves [parse_eksi_date_fast]. *)
Lemma parse_eksi_date_fast_returns (now : datetime) (date_str : str) :
  exists r, parse_eksi_date_fast now date_str = Ok r.
Proof.
  unfold parse_eksi_date_fast, try_except.
  destruct (parse_eksi_date_try _ _); eauto.
Qed.

End DateFacts.

(** C4, as the code has it.  With the reading 2024-05-10 10:00 of the
    Istanbul clock, "bugün 14:05" is 2024-05-10T11:05:00Z and "dün 09:00" is
    2024-05-09T06:00:00Z; whatever the clock reads, "09.05.2024 12:00" is
    2024-05-09T09:00:00Z, "09.05.2024" is midnight in Istanbul, that is
    2024-05-08T21:00:00Z, and "garbage" is unknown; no input makes the
    function raise; the text is looked at in the order today, yesterday,
    date with time, date; and a wall clock from 2016-09-07 on is taken at
    the zone's fixed +03:00 (earlier ones at what the zone table gives). *)
Theorem parse_eksi_date_fast_examples (RT : PyRuntime)
  (Hlower : Forall (fun s => str_lower s = s) example_texts) :
  let ref := mk_datetime 2024 5 10 10 0 0 0 in
  parse_eksi_date_fast ref (py "bugün 14:05")
    = Ok (Some (mk_datetime 2024 5 10 11 5 0 0))
  /\ parse_eksi_date_fast ref (py "dün 09:00")
    = Ok (Some (mk_datetime 2024 5 9 6 0 0 0))
  /\ (forall now, parse_eksi_date_fast now (py "09.05.2024 12:00")
        = Ok (Some (mk_datetime 2024 5 9 9 0 0 0)))
  /\ (forall now, parse_eksi_date_fast now (py "09.05.2024")
        = Ok (Some (mk_datetime 2024 5 8 21 0 0 0)))
  /\ (forall now, parse_eksi_date_fast now (py "garbage") = Ok None)
  /\ (forall now date_str, exists r, parse_eksi_date_fast now date_str = Ok r)
  /\ (forall now date_str,
        let text := str_lower (PyStr.strip date_str) in
        parse_eksi_date_try now text
        = rbind
            (if PyStr.contains (py "bugün") text then
               rbind (Strptime.strptime_HM
                        (PyStr.strip (PyStr.replace (py "bugün") (py "") text)))
                 (fun t => rbind (Datetime.replace_date t (year now) (month now)
                                    (day now))
                             (fun d => Ok (Some d)))
             else if PyStr.contains (py "dün") text then
               rbind (Datetime.add_days now (-1)) (fun yesterday =>
               rbind (Strptime.strptime_HM
                        (PyStr.strip (PyStr.replace (py "dün") (py "") text)))
                 (fun t => rbind (Datetime.replace_date t (year yesterday)
                                    (month yesterday) (day yesterday))
                             (fun d => Ok (Some d))))
             else
               match Strptime.strptime_dmY_HM text with
               | Ok d => Ok (Some d)
               | Raise ValueError =>
                 match Strptime.strptime_dmY text with
                 | Ok d => Ok (Some d)
                 | Raise ValueError => Ok None
                 | Raise e => Raise e
                 end
               | Raise e => Raise e
               end)
            (fun dt_naive =>
               match dt_naive with
               | None => Ok None
               | Some dt =>
                 rbind (localize dt) (fun utcoffset =>
                 rbind (Datetime.add_seconds dt (- utcoffset))
                   (fun dt_utc => Ok (Some dt_utc)))
               end))
  /\ (forall dt,
        if fixed_offset_era dt
        then localize dt = Ok 10800 \/ localize dt = Raise OverflowError
        else localize dt = istanbul_before_2016 dt).
Proof.
  intros ref.
  unfold example_texts in Hlower.
  repeat rewrite Forall_cons_iff in Hlower.
  destruct Hlower as (H1 & H2 & H3 & H4 & H5 & _).
  repeat split.
  - unfold parse_eksi_date_fast.
    change (PyStr.strip (py "bugün 14:05")) with (py "bugün 14:05").
    rewrite H1. vm_compute. reflexivity.
  - unfold parse_eksi_date_fast.
    change (PyStr.strip (py "dün 09:00")) with (py "dün 09:00").
    rewrite H2. vm_compute. reflexivity.
  - intros now. unfold parse_eksi_date_fast.
    change (PyStr.strip (py "09.05.2024 12:00")) with (py "09.05.2024 12:00").
    rewrite H3. vm_compute. reflexivity.
  - intros now. unfold parse_eksi_date_fast.
    change (PyStr.strip (py "09.05.2024")) with (py "09.05.2024").
    rewrite H4. vm_compute. reflexivity.
  - intros now. unfold parse_eksi_date_fast.
    change (PyStr.strip (py "garbage")) with (py "garbage").
    rewrite H5. vm_compute. reflexivity.
  - intros now s. apply parse_eksi_date_fast_returns.
  - intros now s text. unfold parse_eksi_date_try, astimezone_utc.
    f_equal.
    destruct (PyStr.contains (py "bugün") text); [reflexivity|].
    destruct (PyStr.contains (py "dün") text); [reflexivity|].
    unfold try_except_only.
    destruct (Strptime.strptime_dmY_HM text) as [d|[]]; try reflexivity.
    cbn. destruct (Strptime.strptime_dmY text) as [d|[]]; reflexivity.
  - intros dt. unfold localize.
    destruct (fixed_offset_era dt); [|reflexivity].
    unfold Datetime.add_days.
    change (-1 * 86400) with (-86400). change (1 * 86400) with 86400.
    destruct (Datetime.add_seconds dt (-86400)) as [a|e] eqn:Ea; cbn [rbind].
    + destruct (Datetime.add_seconds dt 86400) as [b|e] eqn:Eb; cbn [rbind].
      * left; reflexivity.
      * right. apply add_seconds_raises in Eb. congruence.
    + right. apply add_seconds_raises in Ea. congruence.
Qed.

(** ** The calendar *)

Section CalendarFacts.

Lemma month_day_table :
  forallb (fun k => month_day_ok true (Z.of_nat k) && month_day_ok false (Z.of_nat k))
    (seq 0 365) = true.
Proof. vm_compute. reflexivity. Qed.

Lemma month_day_in_range (leapyear : bool) (n : Z) :
  0 <= n < 365 -> month_day_ok leapyear n = true.
Proof.
  intros Hn.
  assert (Hin : In (Z.to_nat n) (seq 0 365)) by (apply in_seq; lia).
  apply (proj1 (forallb_forall _ _) month_day_table) in Hin.
  cbv beta in Hin. rewrite Z2Nat.id in Hin by lia.
  apply andb_true_iff in Hin.
  destruct leapyear; tauto.
Qed.

Lemma is_leap_cycles (n400 n100 n4 n1 : Z) :
  0 <= n100 <= 3 -> 0 <= n4 <= 24 -> 0 <= n1 <= 3 ->
  Datetime.is_leap (n400 * 400 + 1 + n100 * 100 + n4 * 4 + n1)
  = (n1 =? 3) && (negb (n4 =? 24) || (n100 =? 3)).
Proof.
  intros H100 H4 H1. unfold Datetime.is_leap.
  set (y := n400 * 400 + 1 + n100 * 100 + n4 * 4 + n1).
  assert (E4 : (y mod 4 =? 0) = (n1 =? 3)).
  { subst y. destruct (Z.eqb_spec n1 3); apply Z.eqb_eq || apply Z.eqb_neq;
      Z.div_mod_to_equations; lia. }
  assert (E100 : (y mod 100 =? 0) = (n1 =? 3) && (n4 =? 24)).
  { subst y. destruct (Z.eqb_spec n1 3); destruct (Z.eqb_spec n4 24); cbn;
      apply Z.eqb_eq || apply Z.eqb_neq; Z.div_mod_to_equations; lia. }
  assert (E400 : (y mod 400 =? 0) = (n1 =? 3) && (n4 =? 24) && (n100 =? 3)).
  { subst y. destruct (Z.eqb_spec n1 3); destruct (Z.eqb_spec n4 24);
      destruct (Z.eqb_spec n100 3); cbn;
      apply Z.eqb_eq || apply Z.eqb_neq; Z.div_mod_to_equations; lia. }
  rewrite E4, E100, E400.
  destruct (n1 =? 3), (n4 =? 24), (n100 =? 3); reflexivity.
Qed.

(** [date.fromordinal] gives a date of the calendar for every ordinal the
    calendar has. *)
Lemma ord2ymd_valid (n : Z) :
  1 <= n <= Datetime.MAXORDINAL ->
  let '(y, m, d) := Datetime.ord2ymd n in Datetime.check_date y m d = true.
Proof.
  unfold Datetime.MAXORDINAL. intros Hn. unfold Datetime.ord2ymd.
  set (n0 := n - 1).
  set (n400 := n0 / 146097). set (r := n0 mod 146097).
  set (n100 := r / 36524). set (r2 := r mod 36524).
  set (n4 := r2 / 1461). set (r3 := r2 mod 1461).
  set (n1 := r3 / 365). set (r4 := r3 mod 365).
  assert (B400 : 0 <= n400 <= 24 /\ 0 <= r < 146097
                 /\ n0 = 146097 * n400 + r).
  { subst n400 r. Z.div_mod_to_equations. lia. }
  assert (B100 : 0 <= n100 <= 4 /\ 0 <= r2 < 36524 /\ r = 36524 * n100 + r2).
  { subst n100 r2. Z.div_mod_to_equations. lia. }
  assert (B4 : 0 <= n4 <= 24 /\ 0 <= r3 < 1461 /\ r2 = 1461 * n4 + r3).
  { subst n4 r3. Z.div_mod_to_equations. lia. }
  assert (B1 : 0 <= n1 <= 4 /\ 0 <= r4 < 365 /\ r3 = 365 * n1 + r4).
  { subst n1 r4. Z.div_mod_to_equations. lia. }
  clearbody n400 r n100 r2 n4 r3 n1 r4. subst n0.
  destruct ((n1 =? 4) || (n100 =? 4)) eqn:Elast.
  - unfold Datetime.check_date, Datetime.days_in_month, Datetime.DAYS_IN_MONTH,
      Datetime.MINYEAR, Datetime.MAXYEAR.
    cbn [Z.eqb Pos.eqb andb orb Z.leb Z.compare Pos.compare Pos.compare_cont].
    apply orb_true_iff in Elast.
    repeat (apply andb_true_iff; split); try reflexivity; apply Z.leb_le;
      destruct Elast as [E|E]; apply Z.eqb_eq in E; lia.
  - apply orb_false_iff in Elast. destruct Elast as [E1 E100].
    apply Z.eqb_neq in E1, E100.
    pose proof (@is_leap_cycles n400 n100 n4 n1 ltac:(lia) ltac:(lia) ltac:(lia))
      as Hleap.
    set (leapyear := (n1 =? 3) && (negb (n4 =? 24) || (n100 =? 3))) in *.
    pose proof (@month_day_in_range leapyear r4 ltac:(lia)) as Hmd.
    unfold month_day_ok, month_day in Hmd.
    set (y := n400 * 400 + 1 + n100 * 100 + n4 * 4 + n1) in *.
    assert (Hy : 1 <= y <= 9999) by (subst y; lia).
    destruct (r4 <? _) in Hmd |- *.
    + unfold Datetime.check_date, Datetime.days_in_month, Datetime.MINYEAR,
        Datetime.MAXYEAR. rewrite Hleap.
      repeat rewrite andb_true_iff in Hmd.
      destruct Hmd as [[[Ha Hb] Hc] Hd].
      rewrite Ha, Hb, Hc, Hd.
      repeat (apply andb_true_iff; split); try reflexivity; apply Z.leb_le; lia.
    + unfold Datetime.check_date, Datetime.days_in_month, Datetime.MINYEAR,
        Datetime.MAXYEAR. rewrite Hleap.
      repeat rewrite andb_true_iff in Hmd.
      destruct Hmd as [[[Ha Hb] Hc] Hd].
      rewrite Ha, Hb, Hc, Hd.
      repeat (apply andb_true_iff; split); try reflexivity; apply Z.leb_le; lia.
Qed.

Lemma make_valid (y m d H M S us : Z) (dt : datetime) :
  Datetime.make y m d H M S us = Ok dt -> Datetime.valid dt = true.
Proof.
  unfold Datetime.make.
  destruct (Datetime.valid _) eqn:E; [|discriminate].
  intros [= <-]. exact E.
Qed.

(** A sum that does not overflow is a [datetime] again. *)
Lemma add_seconds_valid (dt : datetime) (s : Z) (r : datetime) :
  Datetime.valid dt = true ->
  Datetime.add_seconds dt s = Ok r -> Datetime.valid r = true.
Proof.
  intros Hdt. unfold Datetime.add_seconds.
  set (total := _ + s).
  destruct ((0 <? total / 86400) && (total / 86400 <=? Datetime.MAXORDINAL))
    eqn:Erange; [|discriminate].
  apply andb_true_iff in Erange. destruct Erange as [Hlo Hhi].
  apply Z.ltb_lt in Hlo. apply Z.leb_le in Hhi.
  pose proof (@ord2ymd_valid (total / 86400) ltac:(lia)) as Hdate.
  destruct (Datetime.ord2ymd (total / 86400)) as [[y m] d].
  intros [= <-]. unfold Datetime.valid. cbn [year month day hour minute second
    microsecond]. rewrite Hdate. cbn [andb].
  unfold Datetime.valid, Datetime.check_time in Hdt.
  repeat rewrite andb_true_iff in Hdt.
  destruct Hdt as [_ [[_ Hus1] Hus2]].
  unfold Datetime.check_time. rewrite Hus1, Hus2.
  repeat (apply andb_true_iff; split); try reflexivity;
    apply Z.leb_le || apply Z.ltb_lt; Z.div_mod_to_equations; lia.
Qed.

End CalendarFacts.

Section ParserValid.

Context {RT : PyRuntime}.

(** What [parse_eksi_date_fast] returns, when it is not [None], is a
    [datetime] of the calendar. *)
Lemma parse_eksi_date_fast_valid (now : datetime) (date_str : str)
  (dt : datetime) :
  parse_eksi_date_fast now date_str = Ok (Some dt) -> Datetime.valid dt = true.
Proof.
  unfold parse_eksi_date_fast, try_except.
  set (text := str_lower (PyStr.strip date_str)).
  destruct (parse_eksi_date_try now text) as [r|e] eqn:E; [|discriminate].
  intros [= ->]. revert E. unfold parse_eksi_date_try.
  match goal with
  | |- rbind ?c _ = _ -> _ => destruct c as [[naive|]|e] eqn:En
  end; cbn [rbind]; try discriminate.
  assert (Hnaive : Datetime.valid naive = true).
  { revert En.
    destruct (PyStr.contains (py "bugün") text).
    - destruct (Strptime.strptime_HM _) as [t|]; cbn [rbind]; [|discriminate].
      destruct (Datetime.replace_date _ _ _ _) as [d|] eqn:Ed; cbn [rbind];
        [|discriminate].
      intros [= <-]. eapply make_valid, Ed.
    - destruct (PyStr.contains (py "dün") text).
      + destruct (Datetime.add_days _ _) as [yd|]; cbn [rbind]; [|discriminate].
        destruct (Strptime.strptime_HM _) as [t|]; cbn [rbind]; [|discriminate].
        destruct (Datetime.replace_date _ _ _ _) as [d|] eqn:Ed; cbn [rbind];
          [|discriminate].
        intros [= <-]. eapply make_valid, Ed.
      + unfold try_except_only.
        destruct (Strptime.strptime_dmY_HM text) as [d|e] eqn:E1; cbn [rbind].
        * intros [= <-]. revert E1. unfold Strptime.strptime_dmY_HM.
          destruct (Strptime.fullmatch _ _) as [[[[d' m'] Y'] [H' M']]|];
            cbn [rbind]; [|discriminate].
          apply make_valid.
        * destruct (exn_eqb e ValueError); [|discriminate].
          destruct (Strptime.strptime_dmY text) as [d|e'] eqn:E2; cbn [rbind].
          -- intros [= <-]. revert E2. unfold Strptime.strptime_dmY.
             destruct (Strptime.fullmatch _ _) as [[[d' m'] Y']|];
               cbn [rbind]; [|discriminate].
             apply make_valid.
          -- destruct (exn_eqb e' ValueError); discriminate. }
  destruct (localize naive) as [off|]; cbn [rbind]; [|discriminate].
  unfold astimezone_utc.
  destruct (Datetime.add_seconds naive (- off)) as [r|] eqn:Er; cbn [rbind];
    [|discriminate].
  intros [= <-]. eapply add_seconds_valid; eauto.
Qed.

End ParserValid.

(** ** Properties of the loader *)

Section LoaderFacts.

Lemma slice1_truncated (source v : json) :
  Py.slice1 source = Ok v -> truncated v.
Proof.
  intros H. split; [eauto|].
  destruct source; try discriminate; injection H as <-; cbn [Py.length].
  - destruct s as [|c [|c' s]]; eexists; (split; [reflexivity|]);
      unfold PyStr.len; cbn; lia.
  - destruct l as [|c [|c' s]]; eexists; (split; [reflexivity|]);
      unfold PyStr.len; cbn; lia.
Qed.

Lemma dict_set_Forall {V} (Q : V -> Prop) (key : json) (value : V)
  (d : list (json * V)) :
  Forall (fun kv => Q (snd kv)) d -> Q value ->
  Forall (fun kv => Q (snd kv)) (Py.dict_set key value d).
Proof.
  intros Hd Hv. induction d as [|[k v] d IH]; cbn [Py.dict_set].
  - constructor; [exact Hv|constructor].
  - inversion Hd as [|? ? Hk Hrest]; subst.
    destruct (Py.key_eqb k key); constructor; auto.
Qed.

Lemma load_keyed_truncated (items : list (str * json))
  (acc companies : list (json * CompanyInfo)) :
  terms_truncated acc -> load_keyed items acc = Ok companies ->
  terms_truncated companies.
Proof.
  revert acc. induction items as [|[key cd] items IH]; intros acc Hacc.
  - cbn. intros [= <-]. exact Hacc.
  - cbn [load_keyed].
    repeat match goal with
    | |- rbind ?c _ = _ -> _ =>
      let E := fresh "E" in destruct c eqn:E; cbn [rbind]; [|discriminate]
    end.
    apply IH.
    apply (dict_set_Forall (fun c => truncated (eksi_search_terms c)));
      [exact Hacc|].
    cbn [eksi_search_terms]. eapply slice1_truncated; eassumption.
Qed.

Lemma load_listed_truncated (data : list json)
  (acc companies : list (json * CompanyInfo)) :
  terms_truncated acc -> load_listed data acc = Ok companies ->
  terms_truncated companies.
Proof.
  revert acc. induction data as [|cd data IH]; intros acc Hacc.
  - cbn. intros [= <-]. exact Hacc.
  - cbn [load_listed].
    repeat match goal with
    | |- rbind ?c _ = _ -> _ =>
      let E := fresh "E" in destruct c eqn:E; cbn [rbind]; [|discriminate]
    end.
    destruct (Py.hashable _); [|discriminate].
    apply IH.
    apply (dict_set_Forall (fun c => truncated (eksi_search_terms c)));
      [exact Hacc|].
    cbn [eksi_search_terms]. eapply slice1_truncated; eassumption.
Qed.

End LoaderFacts.

(** ** What the loader returns *)

Section LoaderKeys.

Lemma eqb_refl (s : str) : PyStr.eqb s s = true.
Proof. unfold PyStr.eqb. destruct (list_eq_dec N.eq_dec s s); congruence. Qed.

Lemma key_eqb_refl (k : json) : Py.hashable k = true -> Py.key_eqb k k = true.
Proof.
  unfold Py.key_eqb. destruct k as [|b|n|[m e|s|]|s|l|d]; cbn;
    try discriminate; intros _; try reflexivity.
  - apply Z.eqb_refl.
  - apply Z.eqb_refl.
  - apply Z.eqb_refl.
  - apply Bool.eqb_reflx.
  - apply eqb_refl.
Qed.

Lemma dict_set_keys {V} (key : json) (value : V) (d : list (json * V)) :
  (map fst (Py.dict_set key value d) = map fst d
   /\ existsb (fun k => Py.key_eqb k key) (map fst d) = true)
  \/ (map fst (Py.dict_set key value d) = map fst d ++ [key]
      /\ existsb (fun k => Py.key_eqb k key) (map fst d) = false).
Proof.
  induction d as [|[k v] d IH]; cbn [Py.dict_set map fst existsb app].
  - right. split; reflexivity.
  - destruct (Py.key_eqb k key) eqn:E; cbn [map fst orb].
    + left. split; reflexivity.
    + destruct IH as [[-> ->]|[-> ->]]; [left|right]; split; reflexivity.
Qed.

Lemma distinct_keys_snoc (keys : list json) (key : json) :
  distinct_keys keys = true ->
  existsb (fun k => Py.key_eqb k key) keys = false ->
  distinct_keys (keys ++ [key]) = true.
Proof.
  induction keys as [|k keys IH]; cbn [distinct_keys existsb app];
    [reflexivity|].
  intros Hd He. apply andb_true_iff in Hd. destruct Hd as [Hk Hd].
  apply orb_false_iff in He. destruct He as [Hkey He].
  rewrite forallb_app, Hk, IH by assumption. cbn. rewrite Hkey. reflexivity.
Qed.

Lemma dict_set_distinct {V} (key : json) (value : V) (d : list (json * V)) :
  distinct_keys (map fst d) = true ->
  distinct_keys (map fst (Py.dict_set key value d)) = true.
Proof.
  intros Hd. destruct (dict_set_keys key value d) as [[-> _]|[-> He]];
    [exact Hd|]. apply distinct_keys_snoc; assumption.
Qed.

Lemma dict_set_length {V} (key : json) (value : V) (d : list (json * V)) :
  (List.length (Py.dict_set key value d) <= S (List.length d))%nat.
Proof.
  rewrite <- (length_map fst (Py.dict_set key value d)),
    <- (length_map fst d).
  destruct (dict_set_keys key value d) as [[-> _]|[-> _]];
    rewrite ?length_app; cbn; lia.
Qed.

(** What holds of the stored pairs holds after one more is stored, when it
    holds of the new pair under the key that is kept for it. *)
Lemma dict_set_pairs {V} (R : json -> V -> Prop) (key : json) (value : V)
  (d : list (json * V)) :
  Forall (fun kv => R (fst kv) (snd kv)) d ->
  (forall k, k = key \/ Py.key_eqb k key = true -> R k value) ->
  Forall (fun kv => R (fst kv) (snd kv)) (Py.dict_set key value d).
Proof.
  intros Hd Hv. induction d as [|[k v] d IH]; cbn [Py.dict_set].
  - constructor; [apply Hv; left; reflexivity|constructor].
  - inversion Hd as [|? ? Hk Hrest]; subst.
    destruct (Py.key_eqb k key) eqn:E; constructor; auto.
Qed.

Lemma load_keyed_keys (items : list (str * json))
  (acc companies : list (json * CompanyInfo)) :
  load_keyed items acc = Ok companies ->
  distinct_keys (map fst acc) = true ->
  Forall (fun kc => exists key, fst kc = JStr key) acc ->
  distinct_keys (map fst companies) = true
  /\ (List.length companies <= List.length acc + List.length items)%nat
  /\ Forall (fun kc => exists key, fst kc = JStr key) companies.
Proof.
  revert acc. induction items as [|[key cd] items IH]; intros acc.
  - cbn. intros [= <-]. intros; repeat split; auto; lia.
  - cbn [load_keyed].
    repeat match goal with
    | |- rbind ?c _ = _ -> _ =>
      let E := fresh "E" in destruct c eqn:E; cbn [rbind]; [|discriminate]
    end.
    intros Hload Hd Hk.
    match type of Hload with
    | load_keyed _ (Py.dict_set ?k ?v _) = _ =>
      pose proof (dict_set_length k v acc) as Hlen;
      destruct (IH _ Hload (dict_set_distinct k v acc Hd)) as (H1 & H2 & H3)
    end.
    + apply (dict_set_pairs (fun k (_ : CompanyInfo) => exists key, k = JStr key));
        [exact Hk|].
      intros k [->|Hkey]; [eauto|].
      unfold Py.key_eqb in Hkey. cbn in Hkey.
      destruct k as [|b|n|[m e|s|]|s|l|d]; cbn in Hkey; try discriminate.
      eauto.
    + repeat split; auto. cbn [List.length]. lia.
Qed.

Lemma load_listed_keys (data : list json)
  (acc companies : list (json * CompanyInfo)) :
  load_listed data acc = Ok companies ->
  distinct_keys (map fst acc) = true ->
  Forall (fun kc => Py.key_eqb (fst kc) (ticker (snd kc)) = true) acc ->
  distinct_keys (map fst companies) = true
  /\ (List.length companies <= List.length acc + List.length data)%nat
  /\ Forall (fun kc => Py.key_eqb (fst kc) (ticker (snd kc)) = true) companies.
Proof.
  revert acc. induction data as [|cd data IH]; intros acc.
  - cbn. intros [= <-]. intros; repeat split; auto; lia.
  - cbn [load_listed].
    repeat match goal with
    | |- rbind ?c _ = _ -> _ =>
      let E := fresh "E" in destruct c eqn:E; cbn [rbind]; [|discriminate]
    end.
    destruct (Py.hashable _) eqn:Eh; [|discriminate].
    intros Hload Hd Hk.
    match type of Hload with
    | load_listed _ (Py.dict_set ?k ?v _) = _ =>
      pose proof (dict_set_length k v acc) as Hlen;
      destruct (IH _ Hload (dict_set_distinct k v acc Hd)) as (H1 & H2 & H3)
    end.
    + apply (dict_set_pairs (fun k c => Py.key_eqb k (ticker c) = true));
        [exact Hk|].
      cbn [ticker]. intros k [->|Hkey]; [apply key_eqb_refl, Eh|exact Hkey].
    + repeat split; auto. cbn [List.length]. lia.
Qed.

End LoaderKeys.

(** ** Keys of a dictionary *)

Section KeyFacts.

Lemma eqb_true (s t : str) : PyStr.eqb s t = true -> s = t.
Proof. unfold PyStr.eqb. destruct (list_eq_dec N.eq_dec s t); congruence. Qed.

Lemma eqb_sym (s t : str) : PyStr.eqb s t = PyStr.eqb t s.
Proof.
  unfold PyStr.eqb.
  destruct (list_eq_dec N.eq_dec s t), (list_eq_dec N.eq_dec t s); congruence.
Qed.

(** Two numbers are equal when they agree once brought to a common
    exponent, whichever one at or below both. *)
Lemma number_eqb_scaled (m1 e1 m2 e2 E : Z) :
  E <= e1 -> E <= e2 ->
  Py.number_eqb (m1, e1) (m2, e2) = true
  <-> m1 * 2 ^ (e1 - E) = m2 * 2 ^ (e2 - E).
Proof.
  intros H1 H2. unfold Py.number_eqb. cbv zeta. rewrite Z.eqb_eq.
  set (e := Z.min e1 e2). assert (He : E <= e) by (subst e; lia).
  assert (He1 : e <= e1) by (subst e; lia).
  assert (He2 : e <= e2) by (subst e; lia).
  replace (e1 - E) with ((e1 - e) + (e - E)) by lia.
  replace (e2 - E) with ((e2 - e) + (e - E)) by lia.
  rewrite !Z.pow_add_r, !Z.mul_assoc by lia.
  assert (Hp : 0 < 2 ^ (e - E)) by (apply Z.pow_pos_nonneg; lia).
  split; intros Hq.
  - rewrite Hq. reflexivity.
  - apply Z.mul_reg_r in Hq; [exact Hq|lia].
Qed.

Lemma number_eqb_sym (x y : Z * Z) : Py.number_eqb x y = Py.number_eqb y x.
Proof.
  destruct x as [m1 e1], y as [m2 e2]. unfold Py.number_eqb. cbv zeta.
  rewrite (Z.min_comm e2 e1). apply Z.eqb_sym.
Qed.

Lemma number_eqb_trans (x y z : Z * Z) :
  Py.number_eqb x y = true -> Py.number_eqb y z = true ->
  Py.number_eqb x z = true.
Proof.
  destruct x as [m1 e1], y as [m2 e2], z as [m3 e3].
  set (E := Z.min e1 (Z.min e2 e3)).
  rewrite (@number_eqb_scaled m1 e1 m2 e2 E) by (subst E; lia).
  rewrite (@number_eqb_scaled m2 e2 m3 e3 E) by (subst E; lia).
  rewrite (@number_eqb_scaled m1 e1 m3 e3 E) by (subst E; lia).
  congruence.
Qed.

Lemma key_eqb_sym (a b : json) : Py.key_eqb a b = Py.key_eqb b a.
Proof.
  destruct a as [|?|?|[? ?|?|]|?|?|?], b as [|?|?|[? ?|?|]|?|?|?];
    cbn [Py.key_eqb Py.number]; try reflexivity;
    try apply number_eqb_sym.
  - destruct negative, negative0; reflexivity.
  - apply eqb_sym.
Qed.

Lemma key_eqb_trans (a b c : json) :
  Py.key_eqb a b = true -> Py.key_eqb b c = true -> Py.key_eqb a c = true.
Proof.
  destruct a as [|?|?|[? ?|?|]|?|?|?], b as [|?|?|[? ?|?|]|?|?|?],
    c as [|?|?|[? ?|?|]|?|?|?];
    cbn [Py.key_eqb Py.number]; try discriminate; try reflexivity;
    try apply number_eqb_trans.
  - destruct negative, negative0, negative1; cbn; congruence.
  - intros H1 H2. apply eqb_true in H1, H2. subst. apply eqb_refl.
Qed.

Lemma key_eqb_string (k : json) (s : str) :
  Py.key_eqb k (JStr s) = true -> k = JStr s.
Proof.
  destruct k as [|?|?|[? ?|?|]|?|?|?]; cbn [Py.key_eqb Py.number];
    try discriminate.
  intros H. apply eqb_true in H. congruence.
Qed.

End KeyFacts.

(** ** A dictionary filled pair by pair *)

Section DictFacts.

Context {V : Type}.

Lemma dict_set_keeps (key : json) (value : V) (d : list (json * V))
  (k : json) (v : V) :
  In (k, v) d -> Py.key_eqb k key = false ->
  In (k, v) (Py.dict_set key value d).
Proof.
  intros Hin Hk. induction d as [|[k0 v0] d IH]; [destruct Hin|].
  cbn [Py.dict_set]. destruct Hin as [[= -> ->]|Hin].
  - rewrite Hk. left. reflexivity.
  - destruct (Py.key_eqb k0 key); right; auto.
Qed.

Lemma dict_set_stores (key : json) (value : V) (d : list (json * V)) :
  Py.hashable key = true ->
  exists k, In (k, value) (Py.dict_set key value d)
            /\ Py.key_eqb k key = true.
Proof.
  intros Hh. induction d as [|[k0 v0] d IH]; cbn [Py.dict_set].
  - exists key. split; [left; reflexivity|apply key_eqb_refl, Hh].
  - destruct (Py.key_eqb k0 key) eqn:E.
    + exists k0. split; [left; reflexivity|exact E].
    + destruct IH as (k & Hin & Hk). exists k. split; [right; exact Hin|exact Hk].
Qed.

Lemma dict_set_members (key : json) (value : V) (d : list (json * V))
  (k : json) (v : V) :
  In (k, v) (Py.dict_set key value d) ->
  In (k, v) d \/ (v = value /\ (k = key \/ Py.key_eqb k key = true)).
Proof.
  induction d as [|[k0 v0] d IH]; cbn [Py.dict_set].
  - intros [[= <- <-]|[]]. right. auto.
  - destruct (Py.key_eqb k0 key) eqn:E.
    + intros [[= <- <-]|Hin]; [right; auto|left; right; exact Hin].
    + intros [[= <- <-]|Hin]; [left; left; reflexivity|].
      destruct (IH Hin) as [H|H]; [left; right; exact H|right; exact H].
Qed.

Lemma fold_dict_set_keeps (records : list (json * V)) (acc : list (json * V))
  (k : json) (v : V) :
  In (k, v) acc ->
  Forall (fun r => Py.key_eqb k (fst r) = false) records ->
  In (k, v) (fold_left (fun d r => Py.dict_set (fst r) (snd r) d) records acc).
Proof.
  revert acc. induction records as [|r records IH]; intros acc Hin Hall;
    [exact Hin|].
  inversion Hall as [|? ? Hr Hrest]; subst. cbn [fold_left].
  apply IH; [|exact Hrest]. apply dict_set_keeps; assumption.
Qed.

Lemma fold_dict_set_members (records : list (json * V))
  (acc : list (json * V)) (k : json) (v : V) :
  In (k, v) (fold_left (fun d r => Py.dict_set (fst r) (snd r) d) records acc) ->
  In (k, v) acc
  \/ exists r, In r records /\ v = snd r
               /\ (k = fst r \/ Py.key_eqb k (fst r) = true).
Proof.
  revert acc. induction records as [|r records IH]; intros acc Hin;
    [left; exact Hin|].
  cbn [fold_left] in Hin. destruct (IH _ Hin) as [H|(r' & Hr' & H)].
  - apply dict_set_members in H. destruct H as [H|[-> H]]; [left; exact H|].
    right. exists r. split; [left; reflexivity|]. split; [reflexivity|exact H].
  - right. exists r'. split; [right; exact Hr'|exact H].
Qed.

(** The pair stored last under a key is found in the dictionary. *)
Lemma fold_dict_set_last (before after : list (json * V)) (r : json * V)
  (acc : list (json * V)) :
  Py.hashable (fst r) = true ->
  Forall (fun r' => Py.key_eqb (fst r) (fst r') = false) after ->
  exists k,
    In (k, snd r)
      (fold_left (fun d r => Py.dict_set (fst r) (snd r) d)
         (before ++ r :: after) acc)
    /\ Py.key_eqb k (fst r) = true.
Proof.
  intros Hh Hafter. rewrite fold_left_app. cbn [fold_left].
  set (d := fold_left _ before acc).
  destruct (@dict_set_stores (fst r) (snd r) d Hh) as (k & Hin & Hk).
  exists k. split; [|exact Hk].
  apply fold_dict_set_keeps; [exact Hin|].
  eapply Forall_impl; [|exact Hafter]. cbn. intros r' Hr'.
  destruct (Py.key_eqb k (fst r')) eqn:E; [|reflexivity].
  rewrite <- Hr'. symmetry. apply key_eqb_trans with k; [|exact E].
  rewrite key_eqb_sym. exact Hk.
Qed.

Lemma fold_dict_set_distinct (records : list (json * V))
  (acc : list (json * V)) :
  distinct_keys (map fst acc) = true ->
  distinct_keys
    (map fst (fold_left (fun d r => Py.dict_set (fst r) (snd r) d) records acc))
  = true.
Proof.
  revert acc. induction records as [|r records IH]; intros acc Hd;
    [exact Hd|].
  cbn [fold_left]. apply IH, dict_set_distinct, Hd.
Qed.

End DictFacts.

(** ** The loader as the filling of a dictionary *)

Section LoaderFold.

Lemma listed_company_key (company_data : json) (c : CompanyInfo) :
  listed_company company_data = Ok c -> ticker c = document_key company_data.
Proof.
  unfold listed_company, document_key.
  destruct (Py.get company_data (py "ticker") (JStr [])) as [t|];
    cbn [rbind]; [|discriminate].
  repeat match goal with
  | |- rbind ?c _ = _ -> _ =>
    destruct c; cbn [rbind]; [|discriminate]
  end.
  intros [= <-]. reflexivity.
Qed.

(** The loop over the list shape stores the record of each document under
    the document's key, one document after the other. *)
Lemma load_listed_fold (data : list json)
  (acc companies : list (json * CompanyInfo)) :
  load_listed data acc = Ok companies ->
  exists records,
    Forall2
      (fun e r => fst r = fst e /\ listed_company (snd e) = Ok (snd r)
                  /\ Py.hashable (fst r) = true)
      (map (fun company_data => (document_key company_data, company_data)) data)
      records
    /\ companies
       = fold_left (fun d r => Py.dict_set (fst r) (snd r) d) records acc.
Proof.
  revert acc. induction data as [|cd data IH]; intros acc.
  - cbn. intros [= <-]. exists []. split; [constructor|reflexivity].
  - cbn [load_listed].
    repeat match goal with
    | |- rbind ?c _ = _ -> _ =>
      let E := fresh "E" in destruct c eqn:E; cbn [rbind]; [|discriminate]
    end.
    destruct (Py.hashable _) eqn:Eh; [|discriminate].
    intros Hload. destruct (IH _ Hload) as (records & Hall & Hc).
    match type of Hload with
    | load_listed _ (Py.dict_set ?k ?v _) = _ => exists ((k, v) :: records)
    end.
    split; [|exact Hc]. cbn [map]. constructor; [|exact Hall].
    cbn [fst snd]. split; [|split; [|exact Eh]].
    + unfold document_key.
      match goal with
      | H : Py.get cd (py "ticker") _ = Ok _ |- _ => rewrite H
      end.
      reflexivity.
    + unfold listed_company.
      repeat match goal with
      | H : ?c = Ok _ |- rbind ?c _ = _ => rewrite H; cbn [rbind]
      end.
      reflexivity.
Qed.

Lemma load_keyed_fold (items : list (str * json))
  (acc companies : list (json * CompanyInfo)) :
  load_keyed items acc = Ok companies ->
  exists records,
    Forall2
      (fun e r => fst r = fst e /\ keyed_company (snd e) = Ok (snd r)
                  /\ Py.hashable (fst r) = true)
      (map (fun kv => (JStr (fst kv), snd kv)) items)
      records
    /\ companies
       = fold_left (fun d r => Py.dict_set (fst r) (snd r) d) records acc.
Proof.
  revert acc. induction items as [|[key cd] items IH]; intros acc.
  - cbn. intros [= <-]. exists []. split; [constructor|reflexivity].
  - cbn [load_keyed].
    repeat match goal with
    | |- rbind ?c _ = _ -> _ =>
      let E := fresh "E" in destruct c eqn:E; cbn [rbind]; [|discriminate]
    end.
    intros Hload. destruct (IH _ Hload) as (records & Hall & Hc).
    match type of Hload with
    | load_keyed _ (Py.dict_set ?k ?v _) = _ => exists ((k, v) :: records)
    end.
    split; [|exact Hc]. cbn [map]. constructor; [|exact Hall].
    cbn [fst snd]. split; [reflexivity|split; [|reflexivity]].
    unfold keyed_company.
    repeat match goal with
    | H : ?c = Ok _ |- rbind ?c _ = _ => rewrite H; cbn [rbind]
    end.
    reflexivity.
Qed.

(** What the loader returns is the dictionary filled, document after
    document, with the record of each company document under its key. *)
Lemma loaded_records (data : json) (companies : list (json * CompanyInfo)) :
  load_companies_from_json data = Ok companies ->
  exists records,
    Forall2
      (fun e r => fst r = fst e /\ company_of data (snd e) = Ok (snd r)
                  /\ Py.hashable (fst r) = true)
      (entries_of data) records
    /\ companies
       = fold_left (fun d r => Py.dict_set (fst r) (snd r) d) records [].
Proof.
  unfold load_companies_from_json, entries_of, company_of.
  destruct data as [| | | |s|l|d]; try discriminate.
  - apply load_listed_fold.
  - destruct (Py.lookup (py "companies") d) as [cd|]; [|discriminate].
    destruct cd; try discriminate. cbn [Py.items rbind].
    apply load_keyed_fold.
Qed.

Lemma Forall2_In_right {A B} (R : A -> B -> Prop) (l : list A) (l' : list B)
  (b : B) :
  Forall2 R l l' -> In b l' -> exists a, In a l /\ R a b.
Proof.
  induction 1 as [|a b' l l' Hab _ IH]; [intros []|].
  intros [<-|Hin].
  - exists a. split; [left; reflexivity|exact Hab].
  - destruct (IH Hin) as (a' & Ha' & HR). exists a'. split; [right|]; assumption.
Qed.

(** Every stored pair is the record of a company document, under that
    document's key. *)
Lemma loaded_stored_from (data : json) (companies : list (json * CompanyInfo)) :
  load_companies_from_json data = Ok companies ->
  Forall (stored_from data) companies.
Proof.
  intros Hload.
  destruct (@loaded_records data companies Hload) as (records & Hall & ->).
  apply Forall_forall. intros [k c] Hin.
  apply fold_dict_set_members in Hin. destruct Hin as [[]|(r & Hr & -> & Hk)].
  destruct (@Forall2_In_right _ _ _ _ _ r Hall Hr)
    as ([key cd] & He & Hkey & Hc & Hh).
  cbn [fst snd] in *. exists key, cd. cbn [fst snd].
  assert (Hk' : Py.key_eqb k key = true).
  { rewrite <- Hkey. destruct Hk as [->|Hk]; [apply key_eqb_refl, Hh|exact Hk]. }
  split; [exact He|]. split; [exact Hk'|]. split; [|exact Hc].
  intros s ->. apply key_eqb_string, Hk'.
Qed.

(** A company document whose key no later document has is stored. *)
Lemma loaded_last_stored (data : json) (companies : list (json * CompanyInfo))
  (before after : list (json * json)) (key company_data : json) :
  load_companies_from_json data = Ok companies ->
  entries_of data = before ++ (key, company_data) :: after ->
  Forall (fun e => Py.key_eqb key (fst e) = false) after ->
  exists k c,
    In (k, c) companies /\ Py.key_eqb k key = true
    /\ company_of data company_data = Ok c.
Proof.
  intros Hload Hsplit Hafter.
  destruct (@loaded_records data companies Hload) as (records & Hall & ->).
  rewrite Hsplit in Hall. apply Forall2_app_inv_l in Hall.
  destruct Hall as (rb & rest & Hb & Hrest & ->).
  inversion Hrest as [|? r ? ra (Hkey & Hc & Hh) Ha]; subst.
  cbn [fst snd] in *.
  destruct (@fold_dict_set_last _ rb ra r [] Hh) as (k & Hin & Hk).
  - clear - Hafter Ha Hkey. rewrite Hkey. revert ra Ha.
    induction Hafter as [|e after He _ IH]; intros ra Ha;
      inversion Ha as [|? r' ? ra' (Hk' & _) Ha']; subst; constructor.
    + rewrite Hk'. exact He.
    + apply IH, Ha'.
  - exists k, (snd r). rewrite <- Hkey. auto.
Qed.

Lemma company_first_kept (data company_data : json) (c : CompanyInfo) :
  company_of data company_data = Ok c ->
  exists all_terms,
    document_terms data company_data = Ok all_terms
    /\ first_kept all_terms (eksi_search_terms c).
Proof.
  assert (Hslice : forall all_terms f_terms,
             Py.slice1 all_terms = Ok f_terms -> first_kept all_terms f_terms).
  { intros [| | | |s|l|d] f_terms; cbn; try discriminate; intros [= <-].
    - destruct s; reflexivity.
    - destruct l; reflexivity. }
  unfold company_of, document_terms, listed_company, keyed_company.
  destruct data;
    repeat match goal with
    | |- rbind (Py.slice1 ?t) _ = _ -> _ =>
      let E := fresh "Es" in
      destruct (Py.slice1 t) eqn:E; cbn [rbind]; [|discriminate]
    | |- rbind ?c _ = _ -> _ =>
      destruct c; cbn [rbind]; [|discriminate]
    end;
    intros [= <-]; eexists; (split; [reflexivity|]);
    cbn [eksi_search_terms]; apply Hslice; assumption.
Qed.

Lemma entries_documents (data : json) (key company_data : json) :
  In (key, company_data) (entries_of data) -> In company_data (documents data).
Proof.
  unfold entries_of, documents. destruct data as [| | | |s|l|d]; try tauto.
  - intros H. apply in_map_iff in H. destruct H as (x & [= _ <-] & Hx).
    exact Hx.
  - destruct (Py.lookup (py "companies") d) as [[| | | | | |items]|]; try tauto.
    intros H. apply in_map_iff in H. destruct H as (x & [= _ <-] & Hx).
    apply in_map, Hx.
Qed.

End LoaderFold.

(** C10.  Whatever document the loader accepts, in the keyed shape or in the
    list shape, each company it returns holds the slice [[:1]] of its
    search terms, which has at most one element.  The company is the record
    of one of the company documents of the input, and its terms are the
    first of the terms that document gives and nothing else (no term when
    the document gives none); and every company document whose key no later
    document has is stored so.  Of two terms in a document of either shape
    the first one is kept. *)
Theorem loader_keeps_first_search_term :
  (forall data : json,
     match load_companies_from_json data with
     | Ok companies =>
       Forall (fun kv => truncated (eksi_search_terms (snd kv))) companies
     | Raise _ => True
     end)
  /\ (forall data : json,
        match load_companies_from_json data with
        | Ok companies =>
          Forall
            (fun kv =>
               exists company_data all_terms,
                 In company_data (documents data)
                 /\ company_of data company_data = Ok (snd kv)
                 /\ document_terms data company_data = Ok all_terms
                 /\ first_kept all_terms (eksi_search_terms (snd kv)))
            companies
          /\ (forall before key company_data after,
                entries_of data = before ++ (key, company_data) :: after ->
                Forall (fun e => Py.key_eqb key (fst e) = false) after ->
                exists kv all_terms,
                  In kv companies
                  /\ company_of data company_data = Ok (snd kv)
                  /\ document_terms data company_data = Ok all_terms
                  /\ first_kept all_terms (eksi_search_terms (snd kv)))
        | Raise _ => True
        end)
  /\ option_map (fun r => map (fun kv => eksi_search_terms (snd kv)) r)
       (match load_companies_from_json keyed_document with
        | Ok r => Some r
        | Raise _ => None
        end)
     = Some [JList [JStr (py "thy")]]
  /\ option_map (fun r => map (fun kv => eksi_search_terms (snd kv)) r)
       (match load_companies_from_json listed_document with
        | Ok r => Some r
        | Raise _ => None
        end)
     = Some [JList [JStr (py "thy")]].
Proof.
  split; [|split; [|split; vm_compute; reflexivity]].
  - intros data.
    destruct (load_companies_from_json data) as [companies|] eqn:E; [|exact I].
    unfold load_companies_from_json in E.
    destruct data; try discriminate.
    + eapply load_listed_truncated; [constructor|exact E].
    + destruct (Py.lookup _ _); [|discriminate].
      destruct (Py.items j) eqn:Ei; cbn [rbind] in E; [|discriminate].
      eapply load_keyed_truncated; [constructor|exact E].
  - intros data.
    destruct (load_companies_from_json data) as [companies|] eqn:E; [|exact I].
    split.
    + eapply Forall_impl; [|exact (@loaded_stored_from data companies E)].
      intros kv (key & cd & Hin & _ & _ & Hc).
      destruct (@company_first_kept data cd (snd kv) Hc) as (all_terms & Ht & Hk).
      exists cd, all_terms. split; [eapply entries_documents, Hin|]. auto.
    + intros before key cd after Hsplit Hafter.
      destruct (@loaded_last_stored data companies before after key cd E Hsplit
                  Hafter) as (k & c & Hin & _ & Hc).
      destruct (@company_first_kept data cd c Hc) as (all_terms & Ht & Hk).
      exists (k, c), all_terms. auto.
Qed.

(** ** Properties of a trace *)

Section TraceFacts.

Lemma pages_logged_app (t1 t2 : list event) :
  pages_logged (t1 ++ t2) = pages_logged t1 ++ pages_logged t2.
Proof. apply flat_map_app. Qed.

Lemma gotos_app (t1 t2 : list event) : gotos (t1 ++ t2) = gotos t1 ++ gotos t2.
Proof. apply flat_map_app. Qed.

Lemma queried_app (t1 t2 : list event) :
  queried (t1 ++ t2) = queried t1 ++ queried t2.
Proof. apply flat_map_app. Qed.

Lemma offered_app (t1 t2 : list event) :
  offered (t1 ++ t2) = offered t1 ++ offered t2.
Proof. unfold offered. rewrite queried_app. apply flat_map_app. Qed.

Lemma bind_ext {World A B} (c : run World A) (k1 k2 : A -> run World B)
  (w : World) :
  (forall a w', k1 a w' = k2 a w') -> Run.bind c k1 w = Run.bind c k2 w.
Proof.
  intros H. unfold Run.bind. destruct (c w) as [[a w1] t1]. rewrite H.
  reflexivity.
Qed.

End TraceFacts.

(** ** Properties of the walker *)

Section WalkerFacts.

Context {World : Type} {P : Platform World} {RT : PyRuntime}.

Variable limit : Z.
Variable base_url : str.
Variable company : CompanyInfo.
Variable search_term : str.
Variable fetch_ts : datetime.

(** An item is appended exactly when its four texts were read; the date text
    decides nothing but the date field. *)
Lemma extract_entry_value (target_url : str) (current_page : Z)
  (entry_el : EntryEl) (w : World) :
  match entry_fields entry_el with
  | Ok (Some f) =>
    exists entry_datetime,
      date_ok entry_datetime
      /\ value_of (extract_entry company search_term target_url fetch_ts
                     current_page entry_el w)
         = Some (make_entry company search_term target_url fetch_ts
                   current_page f entry_datetime)
  | _ =>
    value_of (extract_entry company search_term target_url fetch_ts
                current_page entry_el w) = None
  end.
Proof.
  unfold extract_entry.
  destruct (entry_fields entry_el) as [[[[[e_id content] author] date_str]|]|];
    try reflexivity.
  unfold Run.bind, Run.call, Run.ret, value_of.
  destruct (now_istanbul w) as [now w1].
  destruct (parse_eksi_date_fast_returns now date_str) as [d Hd].
  pose proof (@parse_eksi_date_fast_valid _ now date_str) as Hv.
  rewrite Hd in *. cbn.
  exists d. split; [|reflexivity].
  destruct d as [dt|]; cbn; [apply Hv; reflexivity|exact I].
Qed.

Lemma extract_entry_trace (target_url : str) (current_page : Z)
  (entry_el : EntryEl) (w : World) :
  trace_of (extract_entry company search_term target_url fetch_ts current_page
              entry_el w) = [].
Proof.
  unfold extract_entry.
  destruct (entry_fields entry_el) as [[[[[e_id content] author] date_str]|]|];
    try reflexivity.
  unfold Run.bind, Run.call, Run.ret, trace_of.
  destruct (now_istanbul w) as [now w1].
  destruct (parse_eksi_date_fast now date_str); reflexivity.
Qed.

Lemma firstn_fewer {A} (n : Z) (x : A) (l : list A) :
  0 < n -> firstn (Z.to_nat n) (x :: l) = x :: firstn (Z.to_nat (n - 1)) l.
Proof.
  intros Hn. replace (Z.to_nat n) with (S (Z.to_nat (n - 1))) by lia.
  reflexivity.
Qed.

(** The loop over the elements of a page appends, in the order of the
    elements it is given, the items that have their texts, until the limit
    is reached; it writes no event. *)
Lemma for_entries_spec (target_url : str) (current_page : Z)
  (elements : list EntryEl) (all_entries : list Entry) (w : World) :
  let r := for_entries limit company search_term target_url fetch_ts
             current_page elements all_entries w in
  trace_of r = []
  /\ exists new,
       value_of r = all_entries ++ new
       /\ Forall2
            (fun e f =>
               exists entry_datetime,
                 date_ok entry_datetime
                 /\ e = make_entry company search_term target_url fetch_ts
                          current_page f entry_datetime)
            new
            (firstn (Z.to_nat (limit - PyStr.len all_entries))
               (item_fields elements)).
Proof.
  revert all_entries w.
  induction elements as [|el rest IH]; intros acc w; cbn zeta.
  - split; [reflexivity|]. exists []. cbn [for_entries Run.ret value_of fst].
    rewrite app_nil_r, firstn_nil. split; [reflexivity|constructor].
  - cbn [for_entries].
    destruct (limit <=? PyStr.len acc) eqn:Elim.
    + apply Z.leb_le in Elim. split; [reflexivity|]. exists [].
      cbn [Run.ret value_of fst]. rewrite app_nil_r.
      replace (Z.to_nat (limit - PyStr.len acc)) with O by lia.
      split; [reflexivity|constructor].
    + apply Z.leb_gt in Elim.
      rewrite bind_trace, bind_value, extract_entry_trace.
      pose proof (extract_entry_value target_url current_page el w) as Hex.
      unfold item_fields. cbn [flat_map]. fold (item_fields rest).
      set (w1 := world_of _).
      destruct (entry_fields el) as [[f|]|].
      * destruct Hex as (d & Hd & ->).
        destruct (IH (acc ++ [make_entry company search_term target_url
                                 fetch_ts current_page f d]) w1)
          as (Ht & new & Hval & Hall).
        split; [exact Ht|].
        exists (make_entry company search_term target_url fetch_ts
                  current_page f d :: new).
        split; [rewrite Hval, <- app_assoc; reflexivity|].
        cbn [app]. rewrite firstn_fewer by lia.
        constructor; [eauto|].
        replace (limit - PyStr.len acc - 1)
          with (limit - PyStr.len (acc ++ [make_entry company search_term
                  target_url fetch_ts current_page f d])); [exact Hall|].
        unfold PyStr.len. rewrite length_app. cbn. lia.
      * rewrite Hex. cbn [app]. apply IH.
      * rewrite Hex. cbn [app]. apply IH.
Qed.

(** Loading a page logs no page line, navigates to the page's address if it
    navigates at all, and records the elements it read. *)
Lemma load_page_trace (current_page : Z) (target_url : str) (w : World) :
  let r := load_page current_page target_url w in
  pages_logged (trace_of r) = []
  /\ queried (trace_of r)
     = match value_of r with
       | Ok els => [(current_page, els)]
       | Raise _ => []
       end
  /\ Forall (eq target_url) (gotos (trace_of r)).
Proof.
  unfold load_page, goto, Run.bind, Run.read, Run.call, Run.emit, Run.ret,
    trace_of, value_of.
  destruct (PyStr.eqb (page_url w) target_url).
  - destruct (wait_for_selector ItemList SELECTOR_WAIT_TIMEOUT w) as [[|] w1];
      cbn; [|repeat split; constructor].
    destruct (query_selector_all w1) as [[|] w2]; cbn;
      repeat split; constructor.
  - destruct (page_goto target_url REQUEST_TIMEOUT w) as [[|] w0]; cbn;
      [|repeat split; repeat constructor].
    destruct (wait_for_selector ItemList SELECTOR_WAIT_TIMEOUT w0) as [[|] w1];
      cbn; [|repeat split; repeat constructor].
    destruct (query_selector_all w1) as [[|] w2]; cbn;
      repeat split; repeat constructor.
Qed.

Lemma while_pages_spec (fuel : nat) (current_page : Z)
  (all_entries : list Entry) (w : World) :
  let r := while_pages limit fuel base_url company search_term fetch_ts
             current_page all_entries w in
  exists new k,
    value_of r = all_entries ++ new
    /\ Forall2 (emitted_from base_url company search_term fetch_ts) new
         (firstn (Z.to_nat (limit - PyStr.len all_entries))
            (offered (trace_of r)))
    /\ pages_logged (trace_of r) = countdown current_page k
    /\ (k <= fuel)%nat
    /\ Z.of_nat k <= Z.max 0 current_page
    /\ (exists k', (k' <= k)%nat
                   /\ map fst (queried (trace_of r)) = countdown current_page k')
    /\ Forall (fun url => In url (map (page_url_of base_url)
                                    (countdown current_page k)))
         (gotos (trace_of r)).
Proof.
  revert current_page all_entries w.
  induction fuel as [|fuel IH]; intros cp acc w; cbn zeta.
  - exists [], O. cbn. rewrite app_nil_r, firstn_nil.
    repeat split; try constructor; try lia. exists O. split; [lia|reflexivity].
  - cbn [while_pages].
    destruct ((PyStr.len acc <? limit) && (1 <=? cp)) eqn:Econd.
    2:{ exists [], O. cbn. rewrite app_nil_r, firstn_nil.
        repeat split; try constructor; try lia.
        exists O. split; [lia|reflexivity]. }
    apply andb_true_iff in Econd. destruct Econd as [Hlen Hcp].
    apply Z.ltb_lt in Hlen. apply Z.leb_le in Hcp.
    set (target_url := page_url_of base_url cp).
    rewrite !bind_trace, !bind_value.
    cbn [Run.emit trace_of value_of world_of fst snd].
    destruct (load_page_trace cp target_url w) as (Lp & Lq & Lg).
    cbn zeta in Lp, Lq, Lg.
    set (w1 := world_of (load_page cp target_url w)) in *.
    set (t1 := trace_of (load_page cp target_url w)) in *.
    assert (Hg1 : Forall (fun url => In url [page_url_of base_url cp]) (gotos t1)).
    { eapply Forall_impl; [|exact Lg]. intros u <-. left. reflexivity. }
    destruct (value_of (load_page cp target_url w)) as [[|el els]|e].
    + (* the page has no entry element *)
      exists [], 1%nat. unfold offered.
      rewrite !pages_logged_app, !gotos_app, !queried_app, Lp, Lq.
      cbn. rewrite ?app_nil_r.
      rewrite firstn_nil.
      split; [reflexivity|]. split; [constructor|]. split; [reflexivity|].
      split; [lia|]. split; [lia|]. split.
      * exists 1%nat. split; [lia|reflexivity].
      * eapply Forall_impl; [|exact Hg1]. cbn. tauto.
    + (* the page has entry elements *)
      set (els0 := el :: els) in *.
      rewrite !bind_trace, !bind_value.
      destruct (for_entries_spec target_url cp (rev els0) acc w1)
        as (Ft & new_p & Fv & Fall).
      rewrite Ft, Fv.
      cbn [Run.emit trace_of value_of world_of fst snd].
      change ([] ++ ?x) with x.
      set (w2 := world_of _).
      destruct (IH (cp - 1) (acc ++ new_p) w2)
        as (new & k & Hv & Hall & Hp & Hk & Hkz & (k' & Hk' & Hq) & Hg).
      set (r := while_pages limit fuel base_url company search_term fetch_ts
                  (cp - 1) (acc ++ new_p) w2) in *.
      exists (new_p ++ new), (S k).
      split; [rewrite Hv, app_assoc; reflexivity|].
      split.
      { rewrite !offered_app. unfold offered at 1 2 3.
        rewrite Lq. cbn [queried flat_map app]. rewrite app_nil_r.
        rewrite firstn_app. apply Forall2_app.
        - unfold page_items. cbn [fst snd]. rewrite firstn_map.
          clear - Fall. revert Fall.
          generalize (firstn (Z.to_nat (limit - PyStr.len acc))
                        (item_fields (rev els0))).
          intros l H. induction H; cbn; constructor; auto.
        - replace (Z.to_nat (limit - PyStr.len acc)
                   - List.length (page_items (cp, els0)))%nat
            with (Z.to_nat (limit - PyStr.len (acc ++ new_p))); [exact Hall|].
          apply Forall2_length in Fall. rewrite length_firstn in Fall.
          unfold page_items. rewrite length_map. cbn [snd].
          unfold PyStr.len in *. rewrite length_app. lia. }
      split.
      { rewrite !pages_logged_app, Lp, Hp. reflexivity. }
      split; [lia|]. split; [lia|]. split.
      { exists (S k'). split; [lia|].
        rewrite !queried_app, Lq, !map_app, Hq. reflexivity. }
      rewrite !gotos_app. cbn [gotos flat_map app].
      apply Forall_app. split.
      * eapply Forall_impl; [|exact Hg1]. cbn. tauto.
      * eapply Forall_impl; [|exact Hg]. cbn. tauto.
    + (* the page failed to load *)
      exists [], 1%nat. unfold offered.
      rewrite !pages_logged_app, !gotos_app, !queried_app, Lp, Lq.
      cbn. rewrite ?app_nil_r.
      rewrite firstn_nil.
      split; [reflexivity|]. split; [constructor|]. split; [reflexivity|].
      split; [lia|]. split; [lia|]. split.
      * exists O. split; [lia|reflexivity].
      * eapply Forall_impl; [|exact Hg1]. cbn. tauto.
Qed.

(** The loop stops by its own condition: fuel beyond the page index it
    starts from changes nothing. *)
Lemma while_pages_enough_fuel (fuel : nat) (current_page : Z)
  (all_entries : list Entry) (w : World) :
  (Z.to_nat current_page <= fuel)%nat ->
  while_pages limit fuel base_url company search_term fetch_ts current_page
    all_entries w
  = while_pages limit (Z.to_nat current_page) base_url company search_term
      fetch_ts current_page all_entries w.
Proof.
  revert current_page all_entries w.
  induction fuel as [|fuel IH]; intros cp acc w Hfuel.
  - replace (Z.to_nat cp) with O by lia. reflexivity.
  - destruct (Z.to_nat cp) as [|n] eqn:En.
    + cbn [while_pages].
      replace (1 <=? cp) with false by (symmetry; apply Z.leb_gt; lia).
      rewrite andb_false_r. reflexivity.
    + cbn [while_pages].
      destruct ((PyStr.len acc <? limit) && (1 <=? cp)); [|reflexivity].
      apply bind_ext. intros _ w0. apply bind_ext. intros loaded w1.
      destruct loaded as [[|el els]|e]; try reflexivity.
      apply bind_ext. intros acc' w2. apply bind_ext. intros _ w3.
      rewrite IH by lia. replace n with (Z.to_nat (cp - 1)) by lia.
      reflexivity.
Qed.

Lemma item_fields_id (elements : list EntryEl) :
  Forall (fun f => fst (fst (fst f)) <> []) (item_fields elements).
Proof.
  unfold item_fields. induction elements as [|el rest IH]; [constructor|].
  cbn [flat_map]. apply Forall_app. split; [|exact IH].
  unfold entry_fields.
  destruct (get_data_id el) as [[[|c s]|]|]; cbn [rbind]; try constructor.
  destruct (query_content el) as [ce|]; cbn [rbind]; [|constructor].
  destruct (query_author el) as [ae|]; cbn [rbind]; [|constructor].
  destruct (query_date el) as [de|]; cbn [rbind]; [|constructor].
  destruct ce as [ce|], ae as [ae|], de as [de|]; try constructor.
  destruct (inner_text ce); cbn [rbind]; [|constructor].
  destruct (inner_text ae); cbn [rbind]; [|constructor].
  destruct (inner_text de); cbn [rbind]; constructor; [|constructor].
  cbn. discriminate.
Qed.

Lemma offered_id (t : list event) :
  Forall (fun pf => fst (fst (fst (snd pf))) <> []) (offered t).
Proof.
  unfold offered. induction (queried t) as [|q qs IH]; [constructor|].
  cbn [flat_map]. apply Forall_app. split; [|exact IH].
  unfold page_items. apply Forall_map. cbn [snd]. apply item_fields_id.
Qed.

Lemma Forall_firstn_of {A} (Q : A -> Prop) (n : nat) (l : list A) :
  Forall Q l -> Forall Q (firstn n l).
Proof.
  intros H. revert n. induction H; intros [|n]; cbn; constructor; auto.
Qed.

Lemma Forall2_Forall_left {A B} (R : A -> B -> Prop) (Q : B -> Prop)
  (G : A -> Prop) (l : list A) (l' : list B) :
  (forall a b, R a b -> Q b -> G a) ->
  Forall2 R l l' -> Forall Q l' -> Forall G l.
Proof.
  intros HG H. induction H; intros HQ; constructor;
    inversion HQ; subst; eauto.
Qed.

End WalkerFacts.

Section CallFacts.

Context {World : Type}.

Lemma call_value {A} (op : World -> A * World) (w : World) :
  value_of (Run.call op w) = fst (op w).
Proof. unfold Run.call, value_of. destruct (op w). reflexivity. Qed.

Lemma call_world {A} (op : World -> A * World) (w : World) :
  world_of (Run.call op w) = snd (op w).
Proof. unfold Run.call, world_of. destruct (op w). reflexivity. Qed.

Lemma call_trace {A} (op : World -> A * World) (w : World) :
  trace_of (Run.call op w) = [].
Proof. unfold Run.call, trace_of. destruct (op w). reflexivity. Qed.

End CallFacts.

Section FetchFacts.

Context {World : Type} {P : Platform World} {RT : PyRuntime}.

Variable limit : Z.
Variable base_url : str.
Variable company : CompanyInfo.
Variable search_term : str.

(** [fetch_entries_fast] as a function of what the pages answered. *)
Lemma fetch_entries_fast_spec (start_page_num : Z) (w : World) :
  let r := fetch_entries_fast limit base_url company search_term
             start_page_num w in
  let fetch_ts := fst (now_utc w) in
  exists k,
    Forall2 (emitted_from base_url company search_term fetch_ts) (value_of r)
      (firstn (Z.to_nat limit) (offered (trace_of r)))
    /\ pages_logged (trace_of r) = countdown start_page_num k
    /\ Z.of_nat k <= Z.max 0 start_page_num
    /\ (exists k', (k' <= k)%nat
                   /\ map fst (queried (trace_of r)) = countdown start_page_num k')
    /\ Forall (fun url => In url (map (page_url_of base_url)
                                    (countdown start_page_num k)))
         (gotos (trace_of r)).
Proof.
  cbn zeta. unfold fetch_entries_fast.
  rewrite !bind_trace, !bind_value, !call_trace, !call_value, !call_world.
  destruct (now_utc w) as [ts w1].
  cbn [value_of world_of trace_of fst snd Run.emit Run.ret app].
  destruct (while_pages_spec limit base_url company search_term ts
              (Z.to_nat start_page_num) start_page_num [] w1)
    as (new & k & Hv & Hall & Hp & _ & Hkz & Hq & Hg).
  cbn [app] in Hv. rewrite <- Hv in Hall.
  unfold PyStr.len in Hall. cbn [List.length] in Hall.
  rewrite Z.sub_0_r in Hall.
  set (r := while_pages limit (Z.to_nat start_page_num) base_url company
              search_term ts start_page_num [] w1) in *.
  exists k.
  rewrite offered_app, pages_logged_app, queried_app, gotos_app.
  cbn. rewrite !app_nil_r. auto.
Qed.

(** Every entry of a walk is a [walked_entry] for the instant read at the
    start of the walk. *)
Lemma fetch_entries_fast_entries (start_page_num : Z) (w : World) :
  Forall (walked_entry base_url company search_term (fst (now_utc w)))
    (value_of (fetch_entries_fast limit base_url company search_term
                 start_page_num w)).
Proof.
  destruct (fetch_entries_fast_spec start_page_num w) as (k & Hall & _).
  eapply Forall2_Forall_left; [|exact Hall|].
  2:{ apply Forall_firstn_of, offered_id. }
  intros e pf (d & Hd & ->) Hid. exists pf, d. auto.
Qed.

Lemma fetch_entries_fast_length (start_page_num : Z) (w : World) :
  PyStr.len (value_of (fetch_entries_fast limit base_url company search_term
                         start_page_num w)) <= Z.max 0 limit.
Proof.
  destruct (fetch_entries_fast_spec start_page_num w) as (k & Hall & _).
  apply Forall2_length in Hall. unfold PyStr.len. rewrite Hall, length_firstn.
  lia.
Qed.

End FetchFacts.

(** ** Properties of the subject runner and of the batch loop *)

Section RunnerFacts.

Context {World : Type} {P : Platform World} {RT : PyRuntime}.

Variable limit : Z.

Lemma sliced_terms_short (v : json) (terms : list json) :
  rbind (Py.slice1 v) Py.iter = Ok terms -> (List.length terms <= 1)%nat.
Proof.
  destruct v; cbn; try discriminate; intros [= <-].
  - destruct s as [|c [|c' s]]; cbn; lia.
  - destruct l as [|c [|c' s]]; cbn; lia.
Qed.

Lemma subject_entries_nil (company : CompanyInfo) : subject_entries limit company [].
Proof.
  split; [unfold PyStr.len; cbn; lia|].
  exists [], [], (mk_datetime 0 0 0 0 0 0 0). constructor.
Qed.

Lemma for_terms_one (company : CompanyInfo) (terms : list json) (w : World) :
  (List.length terms <= 1)%nat ->
  match value_of (for_terms limit company terms [] [] w) with
  | Ok es => subject_entries limit company es
  | Raise _ => True
  end.
Proof.
  intros Hlen. destruct terms as [|t [|t' rest]]; [| |cbn in Hlen; lia].
  - cbn. apply subject_entries_nil.
  - destruct t; cbn [for_terms]; try exact I.
    rewrite bind_value.
    destruct (value_of (get_topic_url_fast s w)) as [[base start]|].
    + cbn [existsb]. rewrite bind_value. cbn [app].
      set (w1 := world_of _).
      set (es := value_of (fetch_entries_fast limit base company s start w1)).
      assert (Hes : subject_entries limit company es).
      { split; [apply fetch_entries_fast_length|].
        exists base, s, (fst (now_utc w1)). apply fetch_entries_fast_entries. }
      destruct (limit <=? PyStr.len es); exact Hes.
    + cbn. apply subject_entries_nil.
Qed.

(** A subject's run never raises; what it returns comes from one walk. *)
Lemma process_company_fast_spec (company : CompanyInfo) (w : World) :
  exists es,
    value_of (process_company_fast limit company w) = Ok es
    /\ subject_entries limit company es.
Proof.
  unfold process_company_fast. rewrite bind_value.
  destruct (value_of (Run.call new_context w)).
  2:{ exists []. split; [reflexivity|apply subject_entries_nil]. }
  rewrite bind_value.
  destruct (value_of (Run.call new_page _)).
  2:{ exists []. split; [rewrite !bind_value; reflexivity
                        |apply subject_entries_nil]. }
  rewrite !bind_value.
  set (w2 := world_of (Run.call new_page _)).
  assert (Hterms : match value_of (process_terms limit company w2) with
                   | Ok es => subject_entries limit company es
                   | Raise _ => True
                   end).
  { unfold process_terms.
    destruct (rbind _ _) as [terms|] eqn:E; [|exact I].
    apply for_terms_one. eapply sliced_terms_short, E. }
  destruct (value_of (process_terms limit company w2)) as [es|].
  - exists es. split; [|exact Hterms]. rewrite !bind_value. reflexivity.
  - exists []. split; [rewrite !bind_value; reflexivity
                      |apply subject_entries_nil].
Qed.

Lemma emit_ret_value {A} (e : event) (a : A) (w : World) :
  value_of (Run.bind (Run.emit e) (fun _ => Run.ret a) w) = a.
Proof. reflexivity. Qed.

Lemma emit_ret_world {A} (e : event) (a : A) (w : World) :
  world_of (Run.bind (Run.emit e) (fun _ => Run.ret a) w) = w.
Proof. reflexivity. Qed.

(** The batch is the entries of its companies, one company after the other,
    behind what was there before. *)
Lemma main_loop_value (i n : Z) (companies : list CompanyInfo)
  (all_entries : list Entry) (w : World) :
  value_of (main_loop limit i n companies all_entries w)
  = all_entries ++ List.concat (batch limit companies w).
Proof.
  revert i all_entries w.
  induction companies as [|company rest IH]; intros i acc w.
  - cbn. rewrite app_nil_r. reflexivity.
  - cbn [main_loop batch List.concat].
    rewrite !bind_value.
    cbn [Run.emit value_of world_of fst snd].
    set (r := process_company_fast limit company w).
    destruct (value_of r) as [[|e es]|]; cbn [own_entries];
      rewrite emit_ret_value, emit_ret_world, IH.
    + reflexivity.
    + rewrite <- app_assoc. reflexivity.
    + reflexivity.
Qed.

End RunnerFacts.

Section EntryFacts.

Context {World : Type} {P : Platform World} {RT : PyRuntime}.

Variable limit : Z.

Lemma walked_entry_ok (base_url : str) (company : CompanyInfo)
  (search_term : str) (fetch_ts : datetime) (e : Entry) :
  walked_entry base_url company search_term fetch_ts e -> entry_ok e.
Proof.
  intros ([p [[[e_id content] author] date_str]] & d & Hid & Hd & ->).
  cbn in Hid. split; [exact Hid|].
  cbn. destruct d as [dt|]; [right|left; reflexivity].
  exists dt. split; [exact Hd|reflexivity].
Qed.

Lemma walked_entry_stamp (base_url : str) (company : CompanyInfo)
  (search_term : str) (fetch_ts : datetime) (e : Entry) :
  walked_entry base_url company search_term fetch_ts e ->
  fetch_timestamp_utc e = isoformat_utc fetch_ts.
Proof.
  intros ([p [[[e_id content] author] date_str]] & d & Hid & Hd & ->).
  reflexivity.
Qed.

Lemma batch_Forall (G : list Entry -> Prop) (companies : list CompanyInfo)
  (w : World) :
  (forall company es, subject_entries limit company es -> G es) ->
  Forall G (batch limit companies w).
Proof.
  intros HG. revert w.
  induction companies as [|company rest IH]; intros w; cbn [batch];
    constructor; [|apply IH].
  destruct (process_company_fast_spec limit company w) as (es & -> & Hes).
  cbn. eapply HG, Hes.
Qed.

Lemma countdown_bounds (start : Z) (k : nat) :
  Z.of_nat k <= Z.max 0 start ->
  Forall (fun p => 1 <= p <= start) (countdown start k).
Proof.
  revert start. induction k as [|k IH]; intros start Hk; cbn [countdown];
    constructor; [lia|].
  eapply Forall_impl; [|apply IH; lia]. cbn. lia.
Qed.

End EntryFacts.

(** C2.  The records of a subject are never more than the limit.  The loop
    over the items of a page and the loop over the pages leave at most
    [max (len all_entries) limit] entries, whatever the pages hold; a walk
    returns at most [limit] entries; a subject's run returns normally with
    at most [limit] entries, and so does every subject of a batch; with the
    limit of the module, that is at most 5. *)
Theorem records_per_subject_capped :
  forall (World : Type) (P : Platform World) (RT : PyRuntime) (limit : Z),
    (forall company search_term target_url fetch_ts current_page elements
            all_entries (w : World),
       PyStr.len (value_of (for_entries limit company search_term target_url
                              fetch_ts current_page elements all_entries w))
       <= Z.max (PyStr.len all_entries) limit)
    /\ (forall fuel base_url company search_term fetch_ts current_page
               all_entries (w : World),
          PyStr.len (value_of (while_pages limit fuel base_url company
                                 search_term fetch_ts current_page
                                 all_entries w))
          <= Z.max (PyStr.len all_entries) limit)
    /\ (forall base_url company search_term start_page_num (w : World),
          PyStr.len (value_of (fetch_entries_fast limit base_url company
                                 search_term start_page_num w))
          <= Z.max 0 limit)
    /\ (forall company (w : World),
          exists es,
            value_of (process_company_fast limit company w) = Ok es
            /\ PyStr.len es <= Z.max 0 limit)
    /\ (forall companies (w : World),
          Forall (fun es => PyStr.len es <= Z.max 0 limit)
            (batch limit companies w))
    /\ (forall company (w : World),
          exists es,
            value_of (process_company_fast ENTRIES_PER_COMPANY_LIMIT company w)
            = Ok es
            /\ PyStr.len es <= 5).
Proof.
  intros World P RT limit. repeat split.
  - intros company term url ts cp els acc w.
    destruct (for_entries_spec limit company term ts url cp els acc w)
      as (_ & new & -> & Hall).
    apply Forall2_length in Hall. rewrite length_firstn in Hall.
    unfold PyStr.len in *. rewrite length_app. lia.
  - intros fuel base company term ts cp acc w.
    destruct (while_pages_spec limit base company term ts fuel cp acc w)
      as (new & k & -> & Hall & _).
    apply Forall2_length in Hall. rewrite length_firstn in Hall.
    unfold PyStr.len in *. rewrite length_app. lia.
  - intros. apply fetch_entries_fast_length.
  - intros company w.
    destruct (process_company_fast_spec limit company w) as (es & Hv & Hes & _).
    eauto.
  - intros cs w. apply batch_Forall. intros c es [H _]. exact H.
  - intros company w.
    destruct (process_company_fast_spec ENTRIES_PER_COMPANY_LIMIT company w)
      as (es & Hv & Hes & _).
    exists es. split; [exact Hv|]. unfold ENTRIES_PER_COMPANY_LIMIT in Hes. lia.
Qed.

(** C3.  Every record of a walk, of a subject's run and of a batch has a
    non-empty identifier and a date field that is empty or the text of a
    [datetime] of the calendar; [parse_eksi_date_fast] returns for every
    input, and what it returns is [None] or such a [datetime]; and an item is
    emitted exactly when its identifier and its three parts were read,
    whatever its date text is. *)
Theorem emitted_records_well_formed :
  forall (World : Type) (P : Platform World) (RT : PyRuntime) (limit : Z),
    (forall base_url company search_term start_page_num (w : World),
       Forall entry_ok
         (value_of (fetch_entries_fast limit base_url company search_term
                      start_page_num w)))
    /\ (forall company (w : World),
          exists es,
            value_of (process_company_fast limit company w) = Ok es
            /\ Forall entry_ok es)
    /\ (forall i n companies (w : World),
          Forall entry_ok (value_of (main_loop limit i n companies [] w)))
    /\ (forall now date_str,
          exists d, parse_eksi_date_fast now date_str = Ok d /\ date_ok d)
    /\ (forall company search_term target_url fetch_ts current_page entry_el
               (w : World),
          is_some (value_of (extract_entry company search_term target_url
                               fetch_ts current_page entry_el w))
          = has_fields entry_el).
Proof.
  intros World P RT limit.
  assert (Hsub : forall company es,
             subject_entries limit company es -> Forall entry_ok es).
  { intros c es (_ & base & term & ts & Hes).
    eapply Forall_impl; [|exact Hes]. apply walked_entry_ok. }
  repeat split.
  - intros base company term start w.
    eapply Forall_impl; [|apply fetch_entries_fast_entries].
    apply walked_entry_ok.
  - intros company w.
    destruct (process_company_fast_spec limit company w) as (es & Hv & Hes).
    eauto.
  - intros i n cs w. rewrite main_loop_value. cbn [app].
    apply Forall_concat. apply batch_Forall. exact Hsub.
  - intros now s. destruct (parse_eksi_date_fast_returns now s) as [d Hd].
    exists d. split; [exact Hd|].
    destruct d as [dt|]; [|exact I].
    eapply parse_eksi_date_fast_valid, Hd.
  - intros company term url ts cp el w.
    pose proof (extract_entry_value company term ts url cp el w) as H.
    unfold has_fields. destruct (entry_fields el) as [[f|]|].
    + destruct H as (d & _ & ->). reflexivity.
    + rewrite H. reflexivity.
    + rewrite H. reflexivity.
Qed.

(** C7.  In every walk the lines "Page n" name the pages [start],
    [start - 1], ... one by one, none below 1; the entry lists read are those
    of a first part of these pages, and nothing else is navigated to than
    their addresses; the records returned are, up to the limit, the usable
    items of the pages read, page after page in that order and within a page
    from the last element of the document to the first; and the loop ends by
    itself, fuel above the page index changes nothing. *)
Theorem walk_visits_pages_downwards :
  forall (World : Type) (P : Platform World) (RT : PyRuntime) (limit : Z)
         (base_url : str) (company : CompanyInfo) (search_term : str),
    (forall (start_page_num : Z) (w : World),
       let r := fetch_entries_fast limit base_url company search_term
                  start_page_num w in
       (exists k,
          pages_logged (trace_of r) = countdown start_page_num k
          /\ Forall (fun p => 1 <= p <= start_page_num) (pages_logged (trace_of r))
          /\ (exists k', (k' <= k)%nat
                /\ map fst (queried (trace_of r)) = countdown start_page_num k')
          /\ Forall (fun url => In url (map (page_url_of base_url)
                                          (countdown start_page_num k)))
               (gotos (trace_of r)))
       /\ Forall2 (emitted_from base_url company search_term (fst (now_utc w)))
            (value_of r)
            (firstn (Z.to_nat limit) (offered (trace_of r))))
    /\ (forall fuel fetch_ts current_page all_entries (w : World),
          (Z.to_nat current_page <= fuel)%nat ->
          while_pages limit fuel base_url company search_term fetch_ts
            current_page all_entries w
          = while_pages limit (Z.to_nat current_page) base_url company
              search_term fetch_ts current_page all_entries w).
Proof.
  intros World P RT limit base company term. split.
  - intros start w. cbn zeta.
    destruct (fetch_entries_fast_spec limit base company term start w)
      as (k & Hall & Hp & Hk & Hq & Hg).
    split; [|exact Hall].
    exists k. split; [exact Hp|]. split; [|auto].
    rewrite Hp. apply countdown_bounds, Hk.
  - intros. apply while_pages_enough_fuel. assumption.
Qed.

(** C9.  All records of a walk carry the text of the one instant read when
    the walk began, and all records of a subject's run carry the same fetch
    timestamp: any two of them agree on it. *)
Theorem fetch_timestamp_shared :
  forall (World : Type) (P : Platform World) (RT : PyRuntime) (limit : Z),
    (forall base_url company search_term start_page_num (w : World),
       Forall (fun e => fetch_timestamp_utc e = isoformat_utc (fst (now_utc w)))
         (value_of (fetch_entries_fast limit base_url company search_term
                      start_page_num w)))
    /\ (forall company (w : World),
          exists es stamp,
            value_of (process_company_fast limit company w) = Ok es
            /\ Forall (fun e => fetch_timestamp_utc e = stamp) es
            /\ forall e1 e2, In e1 es -> In e2 es ->
                 fetch_timestamp_utc e1 = fetch_timestamp_utc e2).
Proof.
  intros World P RT limit. split.
  - intros base company term start w.
    eapply Forall_impl; [|apply fetch_entries_fast_entries].
    apply walked_entry_stamp.
  - intros company w.
    destruct (process_company_fast_spec limit company w)
      as (es & Hv & _ & base & term & ts & Hes).
    assert (Hst : Forall (fun e => fetch_timestamp_utc e = isoformat_utc ts) es).
    { eapply Forall_impl; [|exact Hes]. apply walked_entry_stamp. }
    exists es, (isoformat_utc ts). split; [exact Hv|]. split; [exact Hst|].
    intros e1 e2 H1 H2. rewrite Forall_forall in Hst.
    rewrite (Hst e1 H1), (Hst e2 H2). reflexivity.
Qed.

(** ** A walk that cannot load its first page *)

Section FailedStart.

Context {World : Type} {P : Platform World} {RT : PyRuntime}.

Variable limit : Z.

Lemma fetch_entries_fast_failed_start (base_url : str) (company : CompanyInfo)
  (search_term : str) (start_page_num : Z) (w : World) (e : exn) :
  value_of (load_page start_page_num (page_url_of base_url start_page_num)
              (snd (now_utc w))) = Raise e ->
  let r := fetch_entries_fast limit base_url company search_term
             start_page_num w in
  value_of r = []
  /\ Forall (eq start_page_num) (pages_logged (trace_of r))
  /\ Forall (eq (page_url_of base_url start_page_num)) (gotos (trace_of r))
  /\ queried (trace_of r) = [].
Proof.
  intros Hload. cbn zeta. unfold fetch_entries_fast.
  rewrite !bind_trace, !bind_value, !call_trace, !call_value, !call_world.
  set (w1 := snd (now_utc w)) in *. set (ts := fst (now_utc w)).
  assert (Hloop :
    let r := while_pages limit (Z.to_nat start_page_num) base_url company
               search_term ts start_page_num [] w1 in
    value_of r = []
    /\ Forall (eq start_page_num) (pages_logged (trace_of r))
    /\ Forall (eq (page_url_of base_url start_page_num)) (gotos (trace_of r))
    /\ queried (trace_of r) = []).
  { cbn zeta. destruct (Z.to_nat start_page_num) as [|fuel] eqn:Efuel.
    - cbn. repeat split; constructor.
    - cbn [while_pages].
      destruct ((PyStr.len [] <? limit) && (1 <=? start_page_num)).
      2:{ cbn. repeat split; constructor. }
      rewrite !bind_trace, !bind_value.
      cbn [Run.emit value_of world_of trace_of fst snd].
      rewrite Hload.
      destruct (load_page_trace start_page_num
                  (page_url_of base_url start_page_num) w1) as (Lp & Lq & Lg).
      cbn zeta in Lp, Lq, Lg. rewrite Hload in Lq.
      rewrite !pages_logged_app, !gotos_app, !queried_app, Lp, Lq.
      cbn. rewrite !app_nil_r.
      split; [reflexivity|]. split; [repeat constructor|].
      split; [exact Lg|reflexivity]. }
  cbn zeta in Hloop. destruct Hloop as (Hv & Hp & Hg & Hq).
  cbn [Run.emit Run.ret value_of trace_of world_of fst snd app].
  rewrite !pages_logged_app, !gotos_app, !queried_app, Hq.
  cbn. rewrite !app_nil_r. auto.
Qed.

(** A navigation that raises, and a wait for the entry list that raises,
    make the load of a page fail. *)
Lemma load_page_fails (current_page : Z) (target_url : str) (w : World) :
  (PyStr.eqb (page_url w) target_url = false ->
   forall e, fst (page_goto target_url REQUEST_TIMEOUT w) = Raise e ->
             value_of (load_page current_page target_url w) = Raise e)
  /\ (PyStr.eqb (page_url w) target_url = true ->
      forall e, fst (wait_for_selector ItemList SELECTOR_WAIT_TIMEOUT w) = Raise e ->
                value_of (load_page current_page target_url w) = Raise e)
  /\ (PyStr.eqb (page_url w) target_url = false ->
      forall e,
        fst (page_goto target_url REQUEST_TIMEOUT w) = Ok tt ->
        fst (wait_for_selector ItemList SELECTOR_WAIT_TIMEOUT
               (snd (page_goto target_url REQUEST_TIMEOUT w))) = Raise e ->
        value_of (load_page current_page target_url w) = Raise e).
Proof.
  unfold load_page, goto, Run.bind, Run.read, Run.call, Run.emit, Run.ret,
    value_of.
  repeat split; intros Hurl e; rewrite Hurl.
  - destruct (page_goto _ _ w) as [r w0]. cbn. intros ->. reflexivity.
  - destruct (wait_for_selector _ _ w) as [r w0]. cbn. intros ->. reflexivity.
  - destruct (page_goto _ _ w) as [r w0]. cbn. intros ->.
    destruct (wait_for_selector _ _ w0) as [r w1]. cbn. intros ->. reflexivity.
Qed.

End FailedStart.

(** C5.  When the starting page does not load, because the navigation raises
    or because the wait for the entry list raises, the walk returns no
    entry, logs no page but the starting one, navigates to no address but
    the starting page's, and reads no entry list. *)
Theorem failed_start_gives_empty_walk
  (World : Type) (P : Platform World) (RT : PyRuntime) (limit : Z)
  (base_url : str) (company : CompanyInfo) (search_term : str)
  (start_page_num : Z) (w : World) (e : exn)
  (Hfails :
     value_of (load_page start_page_num (page_url_of base_url start_page_num)
                 (snd (now_utc w))) = Raise e) :
  let r := fetch_entries_fast limit base_url company search_term
             start_page_num w in
  (value_of r = []
   /\ Forall (eq start_page_num) (pages_logged (trace_of r))
   /\ Forall (eq (page_url_of base_url start_page_num)) (gotos (trace_of r))
   /\ queried (trace_of r) = [])
  /\ forall (current_page : Z) (target_url : str) (w' : World),
       (PyStr.eqb (page_url w') target_url = false ->
        forall e', fst (page_goto target_url REQUEST_TIMEOUT w') = Raise e' ->
                   value_of (load_page current_page target_url w') = Raise e')
       /\ (PyStr.eqb (page_url w') target_url = true ->
           forall e',
             fst (wait_for_selector ItemList SELECTOR_WAIT_TIMEOUT w') = Raise e' ->
             value_of (load_page current_page target_url w') = Raise e')
       /\ (PyStr.eqb (page_url w') target_url = false ->
           forall e',
             fst (page_goto target_url REQUEST_TIMEOUT w') = Ok tt ->
             fst (wait_for_selector ItemList SELECTOR_WAIT_TIMEOUT
                    (snd (page_goto target_url REQUEST_TIMEOUT w'))) = Raise e' ->
             value_of (load_page current_page target_url w') = Raise e').
Proof.
  cbn zeta. split.
  - apply fetch_entries_fast_failed_start with (e := e). exact Hfails.
  - intros. apply load_page_fails.
Qed.

(** ** Walks over a site that does not change *)

Section StaticFacts.

Context {RT : PyRuntime}.

Variable limit : Z.

Lemma static_extract_world (company : CompanyInfo) (search_term target_url : str)
  (fetch_ts : datetime) (current_page : Z) (entry_el : EntryEl)
  (w : StaticWorld) :
  world_of (extract_entry company search_term target_url fetch_ts current_page
              entry_el w) = w.
Proof.
  unfold extract_entry.
  destruct (entry_fields entry_el) as [[[[[e_id content] author] date_str]|]|];
    try reflexivity.
  unfold Run.bind, Run.call, Run.ret, world_of. cbn.
  destruct (parse_eksi_date_fast _ _); reflexivity.
Qed.

Lemma static_for_entries_world (company : CompanyInfo)
  (search_term target_url : str) (fetch_ts : datetime) (current_page : Z)
  (elements : list EntryEl) (all_entries : list Entry) (w : StaticWorld) :
  world_of (for_entries limit company search_term target_url fetch_ts
              current_page elements all_entries w) = w.
Proof.
  revert all_entries.
  induction elements as [|el rest IH]; intros acc; [reflexivity|].
  cbn [for_entries]. destruct (limit <=? PyStr.len acc); [reflexivity|].
  rewrite bind_world, static_extract_world. apply IH.
Qed.

(** A page that can be reached, or on which the browser already is, and that
    has entry elements, loads. *)
Lemma static_load_page (current_page : Z) (target_url : str)
  (w : StaticWorld) :
  at_url w = target_url \/ site_nav (site w) target_url = Ok target_url ->
  site_entries (site w) target_url <> [] ->
  value_of (load_page current_page target_url w)
  = Ok (site_entries (site w) target_url)
  /\ world_of (load_page current_page target_url w) = moved_to target_url w.
Proof.
  intros Hnav Hels.
  unfold load_page, goto, Run.bind, Run.read, Run.call, Run.emit, Run.ret,
    value_of, world_of.
  cbn [page_url page_goto wait_for_selector query_selector_all static_platform].
  unfold PyStr.eqb.
  destruct (list_eq_dec N.eq_dec (at_url w) target_url) as [Heq|Hne].
  - unfold static_wait. rewrite Heq.
    destruct (site_entries (site w) target_url) eqn:E; [congruence|].
    cbn. rewrite Heq, E. split; [reflexivity|].
    unfold moved_to. destruct w; cbn in *. congruence.
  - destruct Hnav as [Hat|Hnav]; [congruence|].
    unfold static_goto. rewrite Hnav. unfold static_wait. cbn [at_url site].
    destruct (site_entries (site w) target_url) eqn:E; [congruence|].
    cbn. rewrite E. split; reflexivity.
Qed.

Lemma item_fields_length (elements : list EntryEl) :
  forallb has_fields elements = true ->
  List.length (item_fields elements) = List.length elements.
Proof.
  unfold item_fields, has_fields.
  induction elements as [|el rest IH]; [reflexivity|].
  cbn [forallb flat_map]. intros H. apply andb_true_iff in H.
  destruct H as [Hel Hrest]. rewrite length_app, IH by exact Hrest.
  destruct (entry_fields el) as [[f|]|]; try discriminate. reflexivity.
Qed.

Lemma has_fields_rev (elements : list EntryEl) :
  forallb has_fields elements = true ->
  forallb has_fields (rev elements) = true.
Proof.
  rewrite !forallb_forall. intros H x Hx. apply H. apply in_rev. exact Hx.
Qed.

Lemma emitted_pages (base_url : str) (company : CompanyInfo)
  (search_term : str) (fetch_ts : datetime) (es : list Entry)
  (l : list (Z * (str * str * str * str))) :
  Forall2 (emitted_from base_url company search_term fetch_ts) es l ->
  map page_number es = map fst l.
Proof.
  induction 1 as [|e [p [[[a b] c] d]] es l (dt & _ & ->) _ IH]; [reflexivity|].
  cbn. rewrite IH. reflexivity.
Qed.

Lemma page_url_of_longer (base_url : str) (n : Z) :
  n <> 1 -> page_url_of base_url n <> base_url.
Proof.
  intros Hn. unfold page_url_of.
  destruct (Z.eqb_spec n 1); [contradiction|].
  intros H. apply (f_equal (@List.length N)) in H.
  rewrite length_app in H. cbn in H. lia.
Qed.

End StaticFacts.

Section StaticWalk.

Context {RT : PyRuntime}.

Variable limit : Z.
Variable base_url : str.
Variable company : CompanyInfo.
Variable search_term : str.
Variable fetch_ts : datetime.

(** One turn of the loop on a page that loads. *)
Lemma static_while_step (fuel : nat) (current_page : Z)
  (all_entries : list Entry) (w : StaticWorld) (el : EntryEl)
  (els : list EntryEl) :
  let url := page_url_of base_url current_page in
  let items :=
    for_entries limit company search_term url fetch_ts current_page
      (rev (el :: els)) all_entries (moved_to url w) in
  let rest :=
    while_pages limit fuel base_url company search_term fetch_ts
      (current_page - 1) (value_of items) (moved_to url w) in
  PyStr.len all_entries < limit -> 1 <= current_page ->
  at_url w = url \/ site_nav (site w) url = Ok url ->
  site_entries (site w) url = el :: els ->
  let r := while_pages limit (S fuel) base_url company search_term fetch_ts
             current_page all_entries w in
  value_of r = value_of rest
  /\ pages_logged (trace_of r) = current_page :: pages_logged (trace_of rest)
  /\ queried (trace_of r) = (current_page, el :: els) :: queried (trace_of rest)
  /\ exists g, Forall (eq url) g /\ gotos (trace_of r) = g ++ gotos (trace_of rest).
Proof.
  intros url items rest Hlen Hcp Hnav Hels r. subst r.
  cbn [while_pages].
  replace (PyStr.len all_entries <? limit) with true
    by (symmetry; apply Z.ltb_lt; exact Hlen).
  replace (1 <=? current_page) with true by (symmetry; apply Z.leb_le; exact Hcp).
  cbn [andb]. fold url.
  assert (Hne : site_entries (site w) url <> []) by (rewrite Hels; discriminate).
  destruct (@static_load_page current_page url w Hnav Hne) as [Lv Lw].
  destruct (load_page_trace current_page url w) as (Lp & Lq & Lg).
  cbn zeta in Lp, Lq, Lg. rewrite Lv in Lq. rewrite Hels in Lv, Lq.
  rewrite !bind_trace, !bind_value.
  cbn [Run.emit value_of world_of trace_of fst snd].
  rewrite Lv, Lw.
  rewrite !bind_trace, !bind_value.
  cbn [Run.emit value_of world_of trace_of fst snd].
  rewrite static_for_entries_world.
  destruct (for_entries_spec limit company search_term fetch_ts url
              current_page (rev (el :: els)) all_entries (moved_to url w))
    as [Ft _].
  fold items in Ft |- *. rewrite Ft. fold rest.
  rewrite !pages_logged_app, !queried_app, !gotos_app, Lp, Lq.
  cbn. repeat split. eexists. split; [exact Lg|reflexivity].
Qed.

End StaticWalk.

Section StaticScenario.

Context {RT : PyRuntime}.

Lemma Forall2_emitted (base_url : str) (company : CompanyInfo)
  (search_term : str) (fetch_ts : datetime) (p : Z) (new : list Entry)
  (l : list (str * str * str * str)) :
  Forall2
    (fun e f =>
       exists entry_datetime,
         date_ok entry_datetime
         /\ e = make_entry company search_term (page_url_of base_url p)
                  fetch_ts p f entry_datetime)
    new l ->
  Forall2 (emitted_from base_url company search_term fetch_ts) new
    (map (pair p) l).
Proof.
  induction 1; cbn; constructor; auto.
Qed.

Lemma map_fst_pair {A B} (a : A) (l : list B) :
  map fst (map (pair a) l) = repeat a (List.length l).
Proof.
  induction l as [|x l IH]; [reflexivity|]. cbn. rewrite IH. reflexivity.
Qed.

End StaticScenario.

(** C1.  On a site that does not change, a walk that starts at page 3 with
    a limit of 7, where pages 3 and 2 can be reached and hold five usable
    items each, returns the five items of page 3, last element first, and
    then the first two of page 2 counted from its last element; it logs
    pages 3 and 2, reads these two entry lists, and never logs page 1 or
    navigates to its address. *)
Theorem walk_three_pages_limit_seven (RT : PyRuntime) (w : StaticWorld)
  (base_url : str) (company : CompanyInfo) (search_term : str)
  (Hnav3 : at_url w = page_url_of base_url 3
           \/ site_nav (site w) (page_url_of base_url 3)
              = Ok (page_url_of base_url 3))
  (Hnav2 : site_nav (site w) (page_url_of base_url 2)
           = Ok (page_url_of base_url 2))
  (Hfive3 : List.length (site_entries (site w) (page_url_of base_url 3)) = 5%nat)
  (Hfive2 : List.length (site_entries (site w) (page_url_of base_url 2)) = 5%nat)
  (Husable3 :
     forallb has_fields (site_entries (site w) (page_url_of base_url 3)) = true)
  (Husable2 :
     forallb has_fields (site_entries (site w) (page_url_of base_url 2)) = true) :
  let r := fetch_entries_fast 7 base_url company search_term 3 w in
  let page3 := site_entries (site w) (page_url_of base_url 3) in
  let page2 := site_entries (site w) (page_url_of base_url 2) in
  Forall2 (emitted_from base_url company search_term (clock_utc w)) (value_of r)
    (map (pair 3) (item_fields (rev page3))
     ++ map (pair 2) (firstn 2 (item_fields (rev page2))))
  /\ map page_number (value_of r) = [3; 3; 3; 3; 3; 2; 2]
  /\ pages_logged (trace_of r) = [3; 2]
  /\ queried (trace_of r) = [(3, page3); (2, page2)]
  /\ ~ In 1 (pages_logged (trace_of r))
  /\ ~ In base_url (gotos (trace_of r)).
Proof.
  intros r page3 page2.
  set (url3 := page_url_of base_url 3) in *.
  set (url2 := page_url_of base_url 2) in *.
  set (ts := clock_utc w).
  (* the lengths of what the two pages offer *)
  assert (L3 : List.length (item_fields (rev page3)) = 5%nat).
  { rewrite item_fields_length by (apply has_fields_rev, Husable3).
    rewrite length_rev. exact Hfive3. }
  assert (L2 : List.length (item_fields (rev page2)) = 5%nat).
  { rewrite item_fields_length by (apply has_fields_rev, Husable2).
    rewrite length_rev. exact Hfive2. }
  destruct page3 as [|a3 rest3] eqn:E3; [discriminate|].
  destruct page2 as [|a2 rest2] eqn:E2; [discriminate|].
  rewrite <- E3 in L3. rewrite <- E2 in L2.
  (* page 3 *)
  set (w3 := moved_to url3 w).
  destruct (for_entries_spec 7 company search_term ts url3 3 (rev (a3 :: rest3))
              [] w3) as (_ & new3 & Hv3 & Hall3).
  cbn [app] in Hv3. rewrite <- E3 in Hall3.
  rewrite firstn_all2 in Hall3 by (unfold PyStr.len; cbn; lia).
  assert (N3 : List.length new3 = 5%nat)
    by (rewrite (Forall2_length Hall3); exact L3).
  destruct (@static_while_step RT 7 base_url company search_term ts 2 3 [] w
              a3 rest3 ltac:(unfold PyStr.len; cbn; lia) ltac:(lia) Hnav3 E3)
    as (S1v & S1p & S1q & g3 & Hg3 & S1g).
  fold url3 w3 in S1v, S1p, S1q, S1g, Hg3. rewrite Hv3 in S1v, S1p, S1q, S1g.
  change (3 - 1) with 2 in S1v, S1p, S1q, S1g.
  (* page 2 *)
  set (w2 := moved_to url2 w3).
  destruct (for_entries_spec 7 company search_term ts url2 2 (rev (a2 :: rest2))
              new3 w2) as (_ & new2 & Hv2 & Hall2).
  rewrite <- E2 in Hall2.
  replace (Z.to_nat (7 - PyStr.len new3)) with 2%nat in Hall2
    by (unfold PyStr.len; lia).
  assert (N2 : List.length new2 = 2%nat).
  { rewrite (Forall2_length Hall2), length_firstn. lia. }
  destruct (@static_while_step RT 7 base_url company search_term ts 1 2 new3 w3
              a2 rest2 ltac:(unfold PyStr.len; lia) ltac:(lia)
              (or_intror Hnav2) E2)
    as (S2v & S2p & S2q & g2 & Hg2 & S2g).
  fold url2 w2 in S2v, S2p, S2q, S2g, Hg2. rewrite Hv2 in S2v, S2p, S2q, S2g.
  change (2 - 1) with 1 in S2v, S2p, S2q, S2g.
  (* the limit is reached: the loop ends before page 1 *)
  assert (Hend : while_pages 7 1 base_url company search_term ts 1
                   (new3 ++ new2) w2 = (new3 ++ new2, w2, [])).
  { cbn [while_pages].
    replace (PyStr.len (new3 ++ new2) <? 7) with false; [reflexivity|].
    symmetry. apply Z.ltb_ge. unfold PyStr.len. rewrite length_app. lia. }
  rewrite Hend in S2v, S2p, S2q, S2g.
  cbn [value_of trace_of fst snd pages_logged queried gotos flat_map] in S2v,
    S2p, S2q, S2g.
  rewrite app_nil_r in S2g.
  rewrite S2v in S1v. rewrite S2p in S1p. rewrite S2q in S1q.
  rewrite S2g in S1g.
  (* the walk is the loop between the reading of the clock and a log line *)
  assert (Hr : value_of r = new3 ++ new2
               /\ pages_logged (trace_of r) = [3; 2]
               /\ queried (trace_of r) = [(3, a3 :: rest3); (2, a2 :: rest2)]
               /\ gotos (trace_of r) = g3 ++ g2).
  { subst r. unfold fetch_entries_fast.
    rewrite !bind_trace, !bind_value, !call_trace, !call_value, !call_world.
    cbn [now_utc static_platform fst snd].
    change (Z.to_nat 3) with 3%nat. fold ts.
    cbn [Run.emit Run.ret value_of trace_of world_of fst snd].
    rewrite !pages_logged_app, !queried_app, !gotos_app.
    rewrite S1v, S1p, S1q, S1g. cbn. rewrite !app_nil_r. auto. }
  destruct Hr as (Rv & Rp & Rq & Rg).
  assert (Hall : Forall2 (emitted_from base_url company search_term ts)
                   (new3 ++ new2)
                   (map (pair 3) (item_fields (rev (a3 :: rest3)))
                    ++ map (pair 2) (firstn 2 (item_fields (rev (a2 :: rest2)))))).
  { rewrite <- E3, <- E2. apply Forall2_app; apply Forall2_emitted; assumption. }
  rewrite Rv, Rp, Rq, Rg.
  split; [exact Hall|]. split.
  { rewrite (emitted_pages Hall), map_app, !map_fst_pair, length_firstn.
    rewrite <- E3, <- E2, L3, L2. reflexivity. }
  split; [reflexivity|]. split; [reflexivity|]. split.
  { cbn. intros [H|[H|[]]]; discriminate. }
  intros Hin. apply in_app_or in Hin.
  rewrite Forall_forall in Hg3, Hg2.
  destruct Hin as [Hin|Hin]; [apply Hg3 in Hin|apply Hg2 in Hin];
    revert Hin; apply page_url_of_longer; lia.
Qed.

Section BatchFacts.

Context {World : Type} {P : Platform World} {RT : PyRuntime}.

Variable limit : Z.

Lemma batch_app (cs1 cs2 : list CompanyInfo) (w : World) :
  batch limit (cs1 ++ cs2) w
  = batch limit cs1 w ++ batch limit cs2 (world_after limit cs1 w).
Proof.
  revert w. induction cs1 as [|c cs1 IH]; intros w; [reflexivity|].
  cbn [app batch world_after]. rewrite IH. reflexivity.
Qed.

Lemma process_company_fast_no_context (company : CompanyInfo) (w : World) :
  match fst (new_context w) with
  | Raise _ =>
    value_of (process_company_fast limit company w) = Ok []
    /\ trace_of (process_company_fast limit company w)
       = [LogCompanyError (ticker company)]
  | Ok _ => True
  end.
Proof.
  unfold process_company_fast. rewrite bind_value, bind_trace, call_value,
    call_trace.
  destruct (fst (new_context w)); [exact I|]. split; reflexivity.
Qed.

End BatchFacts.

(** C6.  A subject's run never raises: whatever goes wrong inside it is
    caught there, and when the browser context cannot be opened the run logs
    the error and returns no entry.  The batch is, in order, what each
    company's run returned, each run starting in the world the one before it
    left, so that the entries of the companies before and after any company
    are kept whatever that company's run does.  With ten companies of which
    the fourth cannot be reached, or of which the fourth makes its run raise,
    the batch holds the five entries of each of the other nine. *)
Theorem subject_failure_isolated :
  (forall (World : Type) (P : Platform World) (RT : PyRuntime) (limit : Z),
     (forall company (w : World),
        exists es, value_of (process_company_fast limit company w) = Ok es)
     /\ (forall company (w : World),
           match fst (new_context w) with
           | Raise _ =>
             value_of (process_company_fast limit company w) = Ok []
             /\ trace_of (process_company_fast limit company w)
                = [LogCompanyError (ticker company)]
           | Ok _ => True
           end)
     /\ (forall i n companies all_entries (w : World),
           value_of (main_loop limit i n companies all_entries w)
           = all_entries ++ List.concat (batch limit companies w))
     /\ (forall before company after (w : World),
           batch limit (before ++ company :: after) w
           = batch limit before w
             ++ own_entries (value_of (process_company_fast limit company
                                         (world_after limit before w)))
                :: batch limit after
                     (world_after limit (before ++ [company]) w)))
  /\ (let r := @main_loop _ _ Demo.runtime ENTRIES_PER_COMPANY_LIMIT 1 10
                 Demo.ten_companies [] Demo.world in
      map company_ticker (value_of r) = nine_times_five
      /\ existsb (fun e => match e with
                           | LogNoneFound (JStr name) => PyStr.eqb name (py "DDD")
                           | _ => false
                           end) (trace_of r) = true)
  /\ (let r := @main_loop _ _ Demo.runtime ENTRIES_PER_COMPANY_LIMIT 1 10
                 ten_companies_bad_term [] Demo.world in
      map company_ticker (value_of r) = nine_times_five
      /\ existsb (fun e => match e with
                           | LogCompanyError (JStr name) =>
                             PyStr.eqb name (py "DDD")
                           | _ => false
                           end) (trace_of r) = true).
Proof.
  split; [|split; cbv zeta; split; vm_compute; reflexivity].
  intros World P RT limit. repeat split.
  - intros company w.
    destruct (process_company_fast_spec limit company w) as (es & Hv & _).
    eauto.
  - intros company w. apply process_company_fast_no_context.
  - intros. apply main_loop_value.
  - intros before company after w.
    rewrite batch_app. cbn [batch]. f_equal. f_equal. f_equal.
    clear. revert w. induction before as [|c cs IH]; intros w; [reflexivity|].
    cbn [app world_after]. apply IH.
Qed.

(** ** The hypotheses hold somewhere *)

(** The lowering of [Demo.runtime] leaves the five texts as they are, and
    with it "09.05.2024" is read as midnight in Istanbul. *)
Lemma parse_eksi_date_fast_examples_witness :
  Forall (fun s => @str_lower Demo.runtime s = s) example_texts
  /\ @parse_eksi_date_fast Demo.runtime (mk_datetime 2024 5 10 10 0 0 0)
       (py "09.05.2024")
     = Ok (Some (mk_datetime 2024 5 8 21 0 0 0)).
Proof.
  assert (H : Forall (fun s => @str_lower Demo.runtime s = s) example_texts)
    by (repeat constructor).
  split; [exact H|].
  destruct (parse_eksi_date_fast_examples Demo.runtime H)
    as (_ & _ & _ & H4 & _).
  apply H4.
Defined.

(** The text "09.05.2024" is not read as midnight UTC of that day but as
    midnight in Istanbul; and a summer date of 2010 is converted with the
    offset of daylight saving time (+03:00), not with the standard offset of
    that year (+02:00), which would give 10:00. *)
Lemma parse_date_only_is_istanbul_midnight :
  (@parse_eksi_date_fast Demo.runtime (mk_datetime 2024 5 10 10 0 0 0)
     (py "09.05.2024")
   = Ok (Some (mk_datetime 2024 5 8 21 0 0 0))
   /\ Ok (Some (mk_datetime 2024 5 8 21 0 0 0))
      <> Ok (Some (mk_datetime 2024 5 9 0 0 0 0)))
  /\ (@parse_eksi_date_fast Demo.runtime (mk_datetime 2024 5 10 10 0 0 0)
        (py "15.07.2010 12:00")
      = Ok (Some (mk_datetime 2010 7 15 9 0 0 0))
      /\ Ok (Some (mk_datetime 2010 7 15 9 0 0 0))
         <> Ok (Some (mk_datetime 2010 7 15 10 0 0 0))).
Proof.
  split; (split; [vm_compute; reflexivity|discriminate]).
Qed.

(** On the site of [Demo] the topic [fail] cannot be reached: the walk that
    starts at its page 3 is empty. *)
Lemma failed_start_gives_empty_walk_witness :
  value_of (@load_page _ static_platform 3
              (page_url_of (py "https://eksisozluk.com/fail") 3)
              (snd (now_utc Demo.world)))
  = Raise PlaywrightError
  /\ value_of (@fetch_entries_fast _ _ Demo.runtime 7
                 (py "https://eksisozluk.com/fail") (Demo.company "DDD" "fail")
                 (py "fail") 3 Demo.world) = [].
Proof.
  assert (H : value_of (@load_page _ static_platform 3
                          (page_url_of (py "https://eksisozluk.com/fail") 3)
                          (snd (now_utc Demo.world)))
              = Raise PlaywrightError) by (vm_compute; reflexivity).
  split; [exact H|].
  apply (@failed_start_gives_empty_walk _ _ Demo.runtime 7
           (py "https://eksisozluk.com/fail") (Demo.company "DDD" "fail")
           (py "fail") 3 Demo.world PlaywrightError H).
Defined.

(** On the site of [Demo] every topic has three pages of five usable items:
    the walk with limit 7 returns the items 35 to 31 of page 3 and the items
    25 and 24 of page 2. *)
Lemma walk_three_pages_limit_seven_witness :
  let base_url := py "https://eksisozluk.com/a" in
  let r := @fetch_entries_fast _ _ Demo.runtime 7 base_url
             (Demo.company "AAA" "a") (py "a") 3 Demo.world in
  (site_nav (site Demo.world) (page_url_of base_url 3)
   = Ok (page_url_of base_url 3)
   /\ site_nav (site Demo.world) (page_url_of base_url 2)
      = Ok (page_url_of base_url 2)
   /\ List.length (site_entries (site Demo.world) (page_url_of base_url 3)) = 5%nat
   /\ List.length (site_entries (site Demo.world) (page_url_of base_url 2)) = 5%nat
   /\ forallb has_fields (site_entries (site Demo.world) (page_url_of base_url 3))
      = true
   /\ forallb has_fields (site_entries (site Demo.world) (page_url_of base_url 2))
      = true)
  /\ map page_number (value_of r) = [3; 3; 3; 3; 3; 2; 2]
  /\ map entry_id (value_of r)
     = [py "35"; py "34"; py "33"; py "32"; py "31"; py "25"; py "24"].
Proof.
  cbv zeta.
  assert (H : site_nav (site Demo.world)
                (page_url_of (py "https://eksisozluk.com/a") 3)
              = Ok (page_url_of (py "https://eksisozluk.com/a") 3)
              /\ site_nav (site Demo.world)
                   (page_url_of (py "https://eksisozluk.com/a") 2)
                 = Ok (page_url_of (py "https://eksisozluk.com/a") 2)
              /\ List.length
                   (site_entries (site Demo.world)
                      (page_url_of (py "https://eksisozluk.com/a") 3)) = 5%nat
              /\ List.length
                   (site_entries (site Demo.world)
                      (page_url_of (py "https://eksisozluk.com/a") 2)) = 5%nat
              /\ forallb has_fields
                   (site_entries (site Demo.world)
                      (page_url_of (py "https://eksisozluk.com/a") 3)) = true
              /\ forallb has_fields
                   (site_entries (site Demo.world)
                      (page_url_of (py "https://eksisozluk.com/a") 2)) = true)
    by (repeat split; vm_compute; reflexivity).
  split; [exact H|].
  destruct H as (H3 & H2 & F3 & F2 & U3 & U2).
  split; [|vm_compute; reflexivity].
  apply (@walk_three_pages_limit_seven Demo.runtime Demo.world
           (py "https://eksisozluk.com/a") (Demo.company "AAA" "a") (py "a")
           (or_intror H3) H2 F3 F2 U3 U2).
Defined.

(** * Further properties *)

(** ** The walk at its bounds *)

Section WalkBounds.

Context {World : Type} {P : Platform World} {RT : PyRuntime}.

Lemma while_pages_nothing_to_do (limit : Z) (fuel : nat) (base_url : str)
  (company : CompanyInfo) (search_term : str) (fetch_ts : datetime)
  (current_page : Z) (all_entries : list Entry) (w : World) :
  limit <= PyStr.len all_entries \/ current_page < 1 ->
  while_pages limit fuel base_url company search_term fetch_ts current_page
    all_entries w = (all_entries, w, []).
Proof.
  intros H. destruct fuel as [|fuel]; [reflexivity|]. cbn [while_pages].
  replace ((PyStr.len all_entries <? limit) && (1 <=? current_page)) with false;
    [reflexivity|].
  symmetry. apply andb_false_iff.
  destruct H; [left; apply Z.ltb_ge|right; apply Z.leb_gt]; assumption.
Qed.

End WalkBounds.

(** X1.  A walk whose limit is not positive, or whose starting page index is
    below 1, does nothing: it returns no entry, leaves the browser as it
    found it after reading the clock, and logs only its closing line with a
    count of 0. *)
Theorem walk_outside_bounds_is_empty (World : Type) (P : Platform World)
  (RT : PyRuntime) (limit : Z) (base_url : str) (company : CompanyInfo)
  (search_term : str) (start_page_num : Z) (w : World)
  (Hout : limit <= 0 \/ start_page_num < 1) :
  let r := fetch_entries_fast limit base_url company search_term
             start_page_num w in
  value_of r = []
  /\ world_of r = snd (now_utc w)
  /\ trace_of r = [LogTotal 0 start_page_num].
Proof.
  cbn zeta. unfold fetch_entries_fast.
  rewrite !bind_trace, !bind_value, !bind_world, !call_trace, !call_value,
    !call_world.
  rewrite while_pages_nothing_to_do by (unfold PyStr.len; cbn; lia).
  cbn. auto.
Qed.

(** ** Where a walk ends *)

Section WalkEnd.

Context {World : Type} {P : Platform World} {RT : PyRuntime}.

Variable limit : Z.

Lemma quiet_after_end_app (t1 t2 : list event) :
  forallb (fun e => negb (ends_walk e)) t1 = true ->
  quiet_after_end (t1 ++ t2) = quiet_after_end t2.
Proof.
  induction t1 as [|e t1 IH]; [reflexivity|].
  cbn [forallb app quiet_after_end]. intros H. apply andb_true_iff in H.
  destruct H as [He Ht]. destruct (ends_walk e); [discriminate|]. auto.
Qed.

Lemma load_page_no_end (current_page : Z) (target_url : str) (w : World) :
  forallb (fun e => negb (ends_walk e))
    (trace_of (load_page current_page target_url w)) = true.
Proof.
  unfold load_page, goto, Run.bind, Run.read, Run.call, Run.emit, Run.ret,
    trace_of.
  destruct (PyStr.eqb (page_url w) target_url).
  - destruct (wait_for_selector ItemList SELECTOR_WAIT_TIMEOUT w) as [[|] w1];
      cbn; [|reflexivity].
    destruct (query_selector_all w1) as [[|] w2]; reflexivity.
  - destruct (page_goto target_url REQUEST_TIMEOUT w) as [[|] w0]; cbn;
      [|reflexivity].
    destruct (wait_for_selector ItemList SELECTOR_WAIT_TIMEOUT w0) as [[|] w1];
      cbn; [|reflexivity].
    destruct (query_selector_all w1) as [[|] w2]; reflexivity.
Qed.

(** The loop ends at the first page that fails to load or has no entry
    element; the entry lists read before the last one are not empty. *)
Lemma while_pages_end (fuel : nat) (base_url : str) (company : CompanyInfo)
  (search_term : str) (fetch_ts : datetime) (current_page : Z)
  (all_entries : list Entry) (w : World) :
  let t := trace_of (while_pages limit fuel base_url company search_term
                       fetch_ts current_page all_entries w) in
  quiet_after_end t = true
  /\ Forall (fun q => snd q <> []) (removelast (queried t))
  /\ (List.length (pages_logged t) <= S (List.length (queried t)))%nat.
Proof.
  revert current_page all_entries w.
  induction fuel as [|fuel IH]; intros cp acc w; cbn zeta.
  - cbn. repeat split; [constructor|lia].
  - cbn [while_pages].
    destruct ((PyStr.len acc <? limit) && (1 <=? cp)).
    2:{ cbn. repeat split; [constructor|lia]. }
    set (target_url := page_url_of base_url cp).
    rewrite !bind_trace, ?bind_value, ?bind_world.
    cbn [Run.emit value_of world_of trace_of fst snd].
    destruct (load_page_trace cp target_url w) as (Lp & Lq & Lg).
    cbn zeta in Lp, Lq, Lg.
    pose proof (load_page_no_end cp target_url w) as Ln.
    set (w1 := world_of (load_page cp target_url w)) in *.
    set (t1 := trace_of (load_page cp target_url w)) in *.
    destruct (value_of (load_page cp target_url w)) as [[|el els]|e].
    + cbn [Run.emit Run.ret Run.bind trace_of snd app].
      change (LogPage cp target_url :: t1 ++ [LogPageEmpty cp])
        with ([LogPage cp target_url] ++ t1 ++ [LogPageEmpty cp]).
      rewrite !pages_logged_app, !queried_app, Lp, Lq.
      rewrite app_assoc, quiet_after_end_app
        by (rewrite forallb_app, Ln; reflexivity).
      cbn. repeat split; [constructor|lia].
    + rewrite !bind_trace, ?bind_value, ?bind_world.
      destruct (for_entries_spec limit company search_term fetch_ts target_url
                  cp (rev (el :: els)) acc w1) as (Ft & _).
      rewrite Ft. cbn [Run.emit trace_of value_of world_of fst snd].
      change ([] ++ ?x) with x.
      match goal with
      | |- context [trace_of (while_pages limit fuel ?b ?c ?s ?f ?p ?a ?x)] =>
        destruct (IH p a x) as (Hq & Hne & Hlen);
        set (tr := trace_of (while_pages limit fuel b c s f p a x)) in *
      end.
      cbn zeta in Hq, Hne, Hlen.
      rewrite !pages_logged_app, !queried_app, Lp, Lq.
      rewrite app_assoc, quiet_after_end_app
        by (rewrite forallb_app, Ln; reflexivity).
      cbn [app quiet_after_end ends_walk List.length].
      change (pages_logged [LogPage cp target_url]) with [cp].
      change (pages_logged [LogPageGot cp ?c]) with (@nil Z).
      change (queried [LogPage cp target_url]) with (@nil (Z * list EntryEl)).
      change (queried [LogPageGot cp ?c]) with (@nil (Z * list EntryEl)).
      cbn [app List.length].
      split; [exact Hq|]. split; [|lia].
      destruct (queried tr) as [|q qs] eqn:Eq.
      * cbn. constructor.
      * change (removelast ((cp, el :: els) :: q :: qs))
          with ((cp, el :: els) :: removelast (q :: qs)).
        constructor; [cbn; discriminate|exact Hne].
    + cbn [Run.emit Run.ret Run.bind trace_of snd app].
      change (LogPage cp target_url :: t1 ++ [LogPageFailed cp])
        with ([LogPage cp target_url] ++ t1 ++ [LogPageFailed cp]).
      rewrite !pages_logged_app, !queried_app, Lp, Lq.
      rewrite app_assoc, quiet_after_end_app
        by (rewrite forallb_app, Ln; reflexivity).
      cbn. repeat split; [constructor|lia].
Qed.

End WalkEnd.

(** X2.  A walk ends at the first page that fails to load or that has no
    entry element: behind the line logged for it no page is logged,
    navigated to or read.  So every entry list read other than the last one
    had elements, and at most one page is logged without being read. *)
Theorem walk_ends_at_first_bad_page :
  forall (World : Type) (P : Platform World) (RT : PyRuntime) (limit : Z)
         (base_url : str) (company : CompanyInfo) (search_term : str)
         (start_page_num : Z) (w : World),
    let t := trace_of (fetch_entries_fast limit base_url company search_term
                         start_page_num w) in
    quiet_after_end t = true
    /\ Forall (fun q => snd q <> []) (removelast (queried t))
    /\ (List.length (pages_logged t) <= S (List.length (queried t)))%nat.
Proof.
  intros. subst t. unfold fetch_entries_fast.
  rewrite !bind_trace, ?bind_value, ?call_trace, ?call_value, ?call_world.
  cbn [Run.emit Run.ret value_of trace_of world_of fst snd app].
  match goal with
  | |- context [trace_of (while_pages ?l ?f ?b ?c ?s ?ts ?p ?a ?x)] =>
    destruct (while_pages_end l f b c s ts p a x) as (Hq & Hne & Hlen);
    set (tr := trace_of (while_pages l f b c s ts p a x)) in *
  end.
  cbn zeta in Hq, Hne, Hlen.
  rewrite !pages_logged_app, !queried_app. cbn [pages_logged queried flat_map].
  rewrite !app_nil_r. split; [|auto].
  clear - Hq. induction tr as [|e tr IH]; [reflexivity|].
  cbn [app quiet_after_end] in *. destruct (ends_walk e).
  - rewrite existsb_app. cbn. rewrite orb_false_r. exact Hq.
  - auto.
Qed.

(** ** Where the records of a walk come from *)

Section WalkRecords.

Context {World : Type} {P : Platform World} {RT : PyRuntime}.

Lemma Forall2_left_witness {A B} (R : A -> B -> Prop) (l : list A)
  (l' : list B) :
  Forall2 R l l' -> Forall (fun a => exists b, In b l' /\ R a b) l.
Proof.
  induction 1 as [|a b l l' Hab _ IH]; constructor.
  - exists b. split; [left; reflexivity|exact Hab].
  - eapply Forall_impl; [|exact IH]. intros a' (b' & Hin & HR).
    exists b'. split; [right; exact Hin|exact HR].
Qed.

Lemma In_firstn_of {A} (n : nat) (x : A) (l : list A) :
  In x (firstn n l) -> In x l.
Proof.
  revert l. induction n as [|n IH]; intros [|y l]; cbn; try tauto.
  intros [H|H]; [left; exact H|right; apply IH, H].
Qed.

Lemma item_fields_rev (elements : list EntryEl) :
  item_fields (rev elements) = rev (item_fields elements).
Proof.
  unfold item_fields. induction elements as [|el rest IH]; [reflexivity|].
  cbn [rev flat_map]. rewrite flat_map_app, IH, rev_app_distr.
  cbn [flat_map]. rewrite app_nil_r.
  destruct (entry_fields el) as [[f|]|]; reflexivity.
Qed.

Lemma countdown_In (start : Z) (k : nat) (p : Z) :
  In p (countdown start k) -> start - Z.of_nat k < p <= start.
Proof.
  revert start. induction k as [|k IH]; intros start; cbn [countdown In];
    [tauto|].
  intros [<-|H]; [lia|]. apply IH in H. lia.
Qed.

(** The page indices of what the pages read offer never increase. *)
Lemma offered_pages_sorted (qs : list (Z * list EntryEl)) (start : Z) (k : nat) :
  map fst qs = countdown start k ->
  StronglySorted Z.ge (map fst (flat_map page_items qs))
  /\ Forall (fun p => p <= start) (map fst (flat_map page_items qs)).
Proof.
  revert start k. induction qs as [|[p els] qs IH]; intros start k Hk.
  - cbn. split; constructor.
  - destruct k as [|k]; [discriminate|]. cbn [map countdown fst] in Hk.
    injection Hk as -> Hk. destruct (IH _ _ Hk) as [Hs Hb].
    cbn [flat_map]. rewrite map_app. unfold page_items at 1 3.
    cbn [fst snd]. rewrite map_map. cbn [fst].
    induction (item_fields (rev els)) as [|f fs IHf]; cbn [map app].
    + split; [exact Hs|]. eapply Forall_impl; [|exact Hb]. cbn. lia.
    + destruct IHf as [IH1 IH2]. split.
      * constructor; [exact IH1|].
        eapply Forall_impl; [|exact IH2]. cbn. lia.
      * constructor; [lia|exact IH2].
Qed.

Lemma StronglySorted_firstn {A} (R : A -> A -> Prop) (n : nat) (l : list A) :
  StronglySorted R l -> StronglySorted R (firstn n l).
Proof.
  intros H. revert n. induction H as [|a l Hl IH Ha]; intros [|n]; cbn;
    try constructor.
  - apply IH.
  - rewrite Forall_forall in *. intros x Hx. apply Ha.
    eapply In_firstn_of, Hx.
Qed.

End WalkRecords.

(** X3.  Every record of a walk comes from an element of a page that was
    read: its page index is that of the page, between 1 and the starting
    index; its four texts are those of one of the elements read there; its
    address is the address of that page, which for page 1 is the topic's
    address itself; and it carries the search term and the company given to
    the walk. *)
Theorem walk_records_are_tagged :
  forall (World : Type) (P : Platform World) (RT : PyRuntime) (limit : Z)
         (base_url : str) (company : CompanyInfo) (search_term : str)
         (start_page_num : Z) (w : World),
    let r := fetch_entries_fast limit base_url company search_term
               start_page_num w in
    Forall
      (fun e =>
         (exists els,
            In (page_number e, els) (queried (trace_of r))
            /\ In (entry_id e, entry_content e, entry_author e, entry_date_str e)
                 (item_fields els))
         /\ 1 <= page_number e <= start_page_num
         /\ topic_url e = page_url_of base_url (page_number e)
         /\ search_term_used e = search_term
         /\ company_ticker e = ticker company
         /\ company_official_name e = official_name company)
      (value_of r)
    /\ page_url_of base_url 1 = base_url.
Proof.
  intros. split; [|reflexivity]. subst r.
  destruct (fetch_entries_fast_spec limit base_url company search_term
              start_page_num w) as (k & Hall & Hp & Hk & (k' & Hk' & Hq) & _).
  apply Forall2_left_witness in Hall.
  eapply Forall_impl; [|exact Hall].
  intros e ([p [[[e_id content] author] date_str]] & Hin & d & _ & ->).
  apply In_firstn_of in Hin. unfold offered in Hin.
  apply in_flat_map in Hin. destruct Hin as ([p' els] & Hq' & Hin).
  unfold page_items in Hin. cbn [fst snd] in Hin.
  apply in_map_iff in Hin. destruct Hin as (f & [= <- <-] & Hf).
  rewrite item_fields_rev in Hf. apply in_rev in Hf.
  destruct f as [[[f_id f_content] f_author] f_date].
  cbn [make_entry fst snd page_number entry_id entry_content entry_author
         entry_date_str topic_url search_term_used company_ticker
         company_official_name].
  split; [exists els; split; assumption|].
  split; [|auto].
  assert (Hp' : In p' (countdown start_page_num k')).
  { rewrite <- Hq. apply in_map_iff. exists (p', els). split; [reflexivity|].
    exact Hq'. }
  apply countdown_In in Hp'. lia.
Qed.

(** X4.  Along the list a walk returns the page index never increases: the
    records of a later (newer) page come before those of an earlier one. *)
Theorem walk_records_newest_page_first :
  forall (World : Type) (P : Platform World) (RT : PyRuntime) (limit : Z)
         (base_url : str) (company : CompanyInfo) (search_term : str)
         (start_page_num : Z) (w : World),
    StronglySorted Z.ge
      (map page_number
         (value_of (fetch_entries_fast limit base_url company search_term
                      start_page_num w))).
Proof.
  intros.
  destruct (fetch_entries_fast_spec limit base_url company search_term
              start_page_num w) as (k & Hall & _ & _ & (k' & _ & Hq) & _).
  rewrite (emitted_pages Hall), <- firstn_map.
  apply StronglySorted_firstn. unfold offered.
  eapply offered_pages_sorted, Hq.
Qed.

(** ** The resolver *)

Section Resolver.

Context {World : Type} {P : Platform World} {RT : PyRuntime}.

(** The probe for the last page navigates at most once, to the address of
    the page it names, and returns that page only when the navigation and
    the wait behind it succeed. *)
Lemma probe_last_page_spec (real_url : str) (w : World) :
  let r := probe_last_page real_url w in
  (value_of r = None
   /\ (gotos (trace_of r) = []
       \/ exists m, gotos (trace_of r)
                    = [real_url ++ py "?p=" ++ str_of_int m]))
  \/ exists m, value_of r = Some (real_url, m)
               /\ gotos (trace_of r) = [real_url ++ py "?p=" ++ str_of_int m].
Proof.
  unfold probe_last_page, goto, Run.bind, Run.call, Run.emit, Run.ret,
    value_of, trace_of.
  destruct (wait_for_selector Pager 3000 w) as [[|] w1]; cbn; [|auto].
  destruct (query_last_page_link w1) as [[[link|]|] w2]; cbn; auto.
  destruct (get_href link) as [[href|]|]; cbn; auto.
  match goal with
  | |- context [if ?b then _ else _] => destruct b; cbn; auto
  end.
  match goal with
  | |- context [int_of_str ?x] => destruct (int_of_str x) as [m|]; cbn; auto
  end.
  match goal with
  | |- context [page_goto ?u ?t ?x] =>
    destruct (page_goto u t x) as [[|] w3]; cbn
  end.
  - match goal with
    | |- context [wait_for_selector ?s ?t ?x] =>
      destruct (wait_for_selector s t x) as [[|] w4]; cbn
    end.
    + right. exists m. split; reflexivity.
    + left. split; [reflexivity|]. right. exists m. reflexivity.
  - left. split; [reflexivity|]. right. exists m. reflexivity.
Qed.

End Resolver.

(** X5.  The resolver gives "not found" exactly when the navigation to the
    slugged address raises or the wait for the entry list behind it raises,
    and then it has navigated once and leaves the browser where that call
    left it.  Otherwise it returns the address the browser landed on (not
    the slugged one) with a page index, found so: it waits for the pager and
    asks for the link to the last page; when the wait raises, or the link
    gives no number (no link, no [href], no [?p=] in it, or text behind
    [?p=] that is no number), the index is 1 and nothing more is navigated
    to.  When the link gives the number m, the browser is sent once more,
    to the landed address with [?p=m], and the index is m if that
    navigation and the wait for the entry list behind it both succeed, and
    1 if either raises. *)
Theorem resolver_outcome :
  forall (World : Type) (P : Platform World) (RT : PyRuntime)
         (search_term : str) (w : World),
    let topic := BASE_URL ++ py "/" ++ url_term search_term in
    let r := get_topic_url_fast search_term w in
    let nav := page_goto topic REQUEST_TIMEOUT w in
    let waited := wait_for_selector ItemList SELECTOR_WAIT_TIMEOUT (snd nav) in
    match fst nav, fst waited with
    | Raise _, _ =>
      value_of r = None /\ world_of r = snd nav
      /\ gotos (trace_of r) = [topic]
    | Ok _, Raise _ =>
      value_of r = None /\ world_of r = snd waited
      /\ gotos (trace_of r) = [topic]
    | Ok _, Ok _ =>
      let real_url := page_url (snd waited) in
      let pager := wait_for_selector Pager 3000 (snd waited) in
      let link := query_last_page_link (snd pager) in
      match
        match fst pager with
        | Ok _ => last_page_of_link (fst link)
        | Raise _ => None
        end
      with
      | None =>
        value_of r = Some (real_url, 1)
        /\ gotos (trace_of r) = [topic]
        /\ world_of r = match fst pager with
                        | Ok _ => snd link
                        | Raise _ => snd pager
                        end
      | Some m =>
        let last_page_url := real_url ++ py "?p=" ++ str_of_int m in
        let nav_last := page_goto last_page_url REQUEST_TIMEOUT (snd link) in
        let waited_last :=
          wait_for_selector ItemList SELECTOR_WAIT_TIMEOUT (snd nav_last) in
        value_of r
        = Some (real_url,
                match fst nav_last, fst waited_last with
                | Ok _, Ok _ => m
                | _, _ => 1
                end)
        /\ gotos (trace_of r) = [topic; last_page_url]
        /\ world_of r = match fst nav_last with
                        | Ok _ => snd waited_last
                        | Raise _ => snd nav_last
                        end
      end
    end.
Proof.
  intros World P RT search_term w topic r nav waited.
  subst r waited nav. unfold get_topic_url_fast. fold topic.
  unfold probe_last_page, last_page_of_link, goto, Run.bind, Run.call,
    Run.emit, Run.read, Run.ret, value_of, world_of, trace_of.
  destruct (page_goto topic REQUEST_TIMEOUT w) as [[[]|e] w1];
    cbn [fst snd app gotos flat_map]; [|auto].
  destruct (wait_for_selector ItemList SELECTOR_WAIT_TIMEOUT w1)
    as [[[]|e] w2]; cbn [fst snd app gotos flat_map]; [|auto].
  destruct (wait_for_selector Pager 3000 w2) as [[[]|e] w3];
    cbn [fst snd app gotos flat_map]; [|auto].
  destruct (query_last_page_link w3) as [[[link|]|e] w4];
    cbn [fst snd app gotos flat_map]; auto.
  destruct (get_href link) as [[href|]|e];
    cbn [fst snd app gotos flat_map]; auto.
  destruct (negb (PyStr.eqb href []) && PyStr.contains (py "?p=") href);
    cbn [fst snd app gotos flat_map]; auto.
  destruct (int_of_str (nth 1 (PyStr.split (py "?p=") href) [])) as [m|e];
    cbn [fst snd app gotos flat_map]; auto.
  destruct (page_goto (page_url w2 ++ py "?p=" ++ str_of_int m)
              REQUEST_TIMEOUT w4) as [[[]|e] w5];
    cbn [fst snd app gotos flat_map]; auto.
  destruct (wait_for_selector ItemList SELECTOR_WAIT_TIMEOUT w5)
    as [[[]|e] w6]; cbn [fst snd app gotos flat_map]; auto.
Qed.

(** ** One subject's run *)

Section Runner.

Context {World : Type} {P : Platform World} {RT : PyRuntime}.

Variable limit : Z.

Lemma process_terms_without_term (company : CompanyInfo) (w : World) :
  searched_term (eksi_search_terms company) = None ->
  process_terms limit company w = (Ok [], w, [])
  \/ exists e, process_terms limit company w = (Raise e, w, []).
Proof.
  unfold process_terms, searched_term.
  destruct (eksi_search_terms company) as [| | | |s|l|d]; cbn;
    try (right; eexists; reflexivity).
  - destruct s; [left; reflexivity|discriminate].
  - destruct l as [|[] l]; cbn; try discriminate;
      try (left; reflexivity); right; eexists; reflexivity.
Qed.

Lemma process_terms_with_term (company : CompanyInfo) (term : str) (w : World) :
  searched_term (eksi_search_terms company) = Some term ->
  process_terms limit company w
  = for_terms limit company [JStr term] [] [] w.
Proof.
  unfold process_terms, searched_term.
  destruct (eksi_search_terms company) as [| | | |s|l|d]; try discriminate.
  - destruct s; [discriminate|]. intros [= <-]. reflexivity.
  - destruct l as [|[] l]; try discriminate. intros [= <-]. reflexivity.
Qed.

End Runner.

(** X6.  A subject whose search terms hold no usable first term (an empty
    list or string, a first element that is not a string, or a value that
    cannot be sliced) gets the empty list, and the browser is sent nowhere
    and reads no page for it. *)
Theorem runner_without_term_visits_nothing (World : Type) (P : Platform World)
  (RT : PyRuntime) (limit : Z) (company : CompanyInfo) (w : World)
  (Hnone : searched_term (eksi_search_terms company) = None) :
  let r := process_company_fast limit company w in
  value_of r = Ok []
  /\ gotos (trace_of r) = []
  /\ queried (trace_of r) = []
  /\ pages_logged (trace_of r) = [].
Proof.
  cbn zeta.
  assert (H : exists w' e,
             process_company_fast limit company w = (Ok [], w', [e])
             /\ (e = LogCompany (ticker company) 0
                 \/ e = LogCompanyError (ticker company))).
  { unfold process_company_fast, Run.bind, Run.call, Run.emit, Run.ret.
    destruct (new_context w) as [[[]|e] w1];
      [|do 2 eexists; split; [reflexivity|auto]].
    destruct (new_page w1) as [[[]|e] w2].
    2:{ destruct (context_close w2).
        do 2 eexists; split; [reflexivity|auto]. }
    destruct (process_terms_without_term limit company w2 Hnone)
      as [->|(e & ->)];
      destruct (page_close w2) as [? w3]; destruct (context_close w3);
      do 2 eexists; (split; [reflexivity|auto]). }
  destruct H as (w' & e & -> & [->| ->]); cbn; auto.
Qed.

(** X7.  A subject with a first term, once its context and page are open, is
    run as one resolution of that term followed, when the topic is found, by
    one walk from the address and page index the resolution returned; the
    list returned is the walk's, and page and context are closed behind
    it.  When the topic is not found the list is empty. *)
Theorem runner_resolves_then_walks (World : Type) (P : Platform World)
  (RT : PyRuntime) (limit : Z) (company : CompanyInfo) (term : str)
  (w : World)
  (Hterm : searched_term (eksi_search_terms company) = Some term)
  (Hcontext : fst (new_context w) = Ok tt)
  (Hpage : fst (new_page (snd (new_context w))) = Ok tt) :
  let r := process_company_fast limit company w in
  let found := get_topic_url_fast term (snd (new_page (snd (new_context w)))) in
  match value_of found with
  | None =>
    value_of r = Ok []
    /\ trace_of r = trace_of found ++ [LogCompany (ticker company) 0]
    /\ world_of r = snd (context_close (snd (page_close (world_of found))))
  | Some (base_url, start_page_num) =>
    let walk := fetch_entries_fast limit base_url company term start_page_num
                  (world_of found) in
    value_of r = Ok (value_of walk)
    /\ trace_of r
       = trace_of found ++ trace_of walk
         ++ [LogCompany (ticker company) (PyStr.len (value_of walk))]
    /\ world_of r = snd (context_close (snd (page_close (world_of walk))))
  end.
Proof.
  cbn zeta.
  set (found := get_topic_url_fast term (snd (new_page (snd (new_context w))))).
  assert (H : process_company_fast limit company w
              = match value_of found with
                | None =>
                  (Ok [],
                   snd (context_close (snd (page_close (world_of found)))),
                   trace_of found ++ [LogCompany (ticker company) 0])
                | Some (base_url, start_page_num) =>
                  let walk := fetch_entries_fast limit base_url company term
                                start_page_num (world_of found) in
                  (Ok (value_of walk),
                   snd (context_close (snd (page_close (world_of walk)))),
                   trace_of found ++ trace_of walk
                   ++ [LogCompany (ticker company) (PyStr.len (value_of walk))])
                end).
  { subst found. unfold process_company_fast.
    unfold Run.bind at 1, Run.call at 1.
    destruct (new_context w) as [c w1]. cbn [fst snd] in *. subst c.
    unfold Run.bind at 1, Run.call at 1.
    destruct (new_page w1) as [c w2]. cbn [fst snd] in *. subst c.
    unfold Run.bind at 1. rewrite (process_terms_with_term limit _ _ Hterm).
    cbn [for_terms]. unfold Run.bind at 1 2.
    destruct (get_topic_url_fast term w2) as [[[[base n]|] w3] t3];
      cbn [value_of world_of trace_of fst snd existsb].
    - unfold Run.bind at 1 2.
      destruct (fetch_entries_fast limit base company term n w3)
        as [[es w4] t4].
      cbn [value_of world_of trace_of fst snd app].
      unfold Run.bind, Run.call, Run.emit, Run.ret.
      destruct (limit <=? PyStr.len es);
        destruct (page_close w4) as [? w5]; cbn [fst snd];
        destruct (context_close w5);
        cbn [fst snd]; rewrite ?app_nil_r, <- ?app_assoc; reflexivity.
    - unfold Run.bind, Run.call, Run.emit, Run.ret.
      destruct (page_close w3) as [? w5]; cbn [fst snd];
        destruct (context_close w5);
        cbn [fst snd]; rewrite ?app_nil_r, <- ?app_assoc; reflexivity. }
  rewrite H. destruct (value_of found) as [[base n]|]; cbn; auto.
Qed.

(** X8.  What the loader returns is a dictionary with one company per key:
    no key is equal to a later one, and there are no more companies than
    company documents.  Every company stored is the record of a company
    document of the input, under a key equal to that document's key: its
    own ticker in the list shape, the very key of its document in the keyed
    shape.  And of the company documents with equal keys the last one is
    kept: a document whose key no later document has is stored. *)
Theorem loader_returns_one_company_per_key (data : json)
  (companies : list (json * CompanyInfo))
  (Hload : load_companies_from_json data = Ok companies) :
  distinct_keys (map fst companies) = true
  /\ (List.length companies <= List.length (documents data))%nat
  /\ Forall (stored_under data) companies
  /\ Forall (stored_from data) companies
  /\ forall before key company_data after,
       entries_of data = before ++ (key, company_data) :: after ->
       Forall (fun e => Py.key_eqb key (fst e) = false) after ->
       exists k c,
         In (k, c) companies /\ Py.key_eqb k key = true
         /\ company_of data company_data = Ok c.
Proof.
  assert (H3 : distinct_keys (map fst companies) = true
               /\ (List.length companies <= List.length (documents data))%nat
               /\ Forall (stored_under data) companies).
  { unfold load_companies_from_json in Hload. unfold documents, stored_under.
    destruct data as [| | | |s|l|d]; try discriminate.
    - apply (load_listed_keys l Hload); constructor.
    - destruct (Py.lookup (py "companies") d) as [cd|]; [|discriminate].
      destruct cd; try discriminate. cbn [Py.items rbind] in Hload.
      rewrite length_map.
      apply (load_keyed_keys _ Hload); constructor. }
  destruct H3 as (H1 & H2 & H3).
  split; [exact H1|]. split; [exact H2|]. split; [exact H3|].
  split; [exact (@loaded_stored_from data companies Hload)|].
  intros before key cd after Hsplit Hafter.
  exact (@loaded_last_stored data companies before after key cd Hload Hsplit
           Hafter).
Qed.

(** ** What the loader accepts *)

Section LoaderAccepts.

Ltac refuse :=
  split; [intros [? H]; discriminate H|intros H; discriminate H].

Lemma load_keyed_accepts (items : list (str * json))
  (acc : list (json * CompanyInfo)) :
  (exists companies, load_keyed items acc = Ok companies)
  <-> forallb keyed_ok (map snd items) = true.
Proof.
  revert acc. induction items as [|[key cd] items IH]; intros acc.
  - cbn. split; eauto.
  - cbn [load_keyed map snd forallb].
    destruct cd as [| | | |s|l|fields]; try (cbn; refuse).
    unfold keyed_ok, required_fields. cbn [forallb Py.getitem Py.get].
    destruct (Py.lookup (py "ticker") fields); [|cbn; refuse].
    destruct (Py.lookup (py "official_name") fields); [|cbn; refuse].
    destruct (Py.lookup (py "short_name") fields); [|cbn; refuse].
    destruct (Py.lookup (py "common_names") fields); [|cbn; refuse].
    destruct (Py.lookup (py "eksi_search_terms") fields) as [terms|];
      [|cbn; refuse].
    destruct (Py.lookup (py "sector") fields);
      [|destruct terms; cbn; refuse].
    cbn [is_some andb rbind].
    destruct terms; try (cbn; refuse); cbn [Py.slice1 rbind sliceable andb];
      destruct (Py.lookup (py "is_active") fields); cbn [rbind]; apply IH.
Qed.

Lemma get_of_dict (fields : list (str * json)) (key : str) (default : json) :
  Py.get (JDict fields) key default
  = Ok (match Py.lookup key fields with Some x => x | None => default end).
Proof. cbn. destruct (Py.lookup key fields); reflexivity. Qed.

Lemma load_listed_accepts (data : list json)
  (acc : list (json * CompanyInfo)) :
  (exists companies, load_listed data acc = Ok companies)
  <-> forallb listed_ok data = true.
Proof.
  revert acc. induction data as [|cd data IH]; intros acc.
  - cbn. split; eauto.
  - cbn [load_listed forallb].
    destruct cd as [| | | |s|l|fields]; try (cbn; refuse).
    unfold listed_ok. rewrite !get_of_dict. cbn [rbind].
    destruct (Py.lookup (py "eksi_search_terms") fields) as [terms|];
      [destruct terms; try (cbn; refuse)|];
      cbn [Py.slice1 rbind sliceable andb];
      (destruct (Py.lookup (py "ticker") fields) as [t|];
       [destruct (Py.hashable t); [|cbn; refuse]|];
       cbn [Py.hashable andb]; apply IH).
Qed.

End LoaderAccepts.

(** X9.  The loader returns a dictionary exactly for these documents: a list
    of objects, each with terms that can be sliced (a list or a string) and
    a ticker that can be a key, where a missing field is no obstacle; or an
    object whose field [companies] is an object of objects that each have
    the six fields [ticker], [official_name], [short_name], [common_names],
    [eksi_search_terms] and [sector], with terms that can be sliced.  For
    every other document it raises. *)
Theorem loader_accepts_exactly :
  forall data : json,
    (exists companies, load_companies_from_json data = Ok companies)
    <-> accepted data = true.
Proof.
  intros data. unfold load_companies_from_json, accepted.
  destruct data as [| | | |s|l|d];
    try (split; [intros [? H]; discriminate H|intros H; discriminate H]).
  - apply load_listed_accepts.
  - destruct (Py.lookup (py "companies") d) as [cd|];
      [|split; [intros [? H]; discriminate H|intros H; discriminate H]].
    destruct cd;
      try (split; [intros [? H]; discriminate H|intros H; discriminate H]).
    cbn [Py.items rbind]. apply load_keyed_accepts.
Qed.

(** ** The loading stage of [main] *)

Section LoadingStage.

Lemma join_items_strings (sep : str) (items : list json) (s : str) :
  join_items sep items = Ok s -> forallb is_string items = true.
Proof.
  revert s. induction items as [|item rest IH]; intros s; [reflexivity|].
  cbn [join_items forallb]. destruct item; try discriminate.
  destruct rest as [|item' rest']; [reflexivity|].
  destruct (join_items sep (item' :: rest')) as [r|] eqn:E; [|discriminate].
  intros _. cbn [is_string andb]. eapply IH. reflexivity.
Qed.

Lemma show_companies_raises (companies : list CompanyInfo) :
  show_companies companies = Ok tt \/ show_companies companies = Raise TypeError.
Proof.
  induction companies as [|company rest IH]; [left; reflexivity|].
  cbn [show_companies]. unfold join.
  destruct (eksi_search_terms company) as [| | | |s|l|d];
    try (right; reflexivity).
  - destruct s as [|c s]; exact IH.
  - destruct l as [|[] l]; try exact IH; right; reflexivity.
Qed.

Lemma show_companies_strings (companies : list CompanyInfo) :
  show_companies companies = Ok tt ->
  Forall
    (fun company =>
       exists terms,
         rbind (Py.slice1 (eksi_search_terms company)) Py.iter = Ok terms
         /\ forallb is_string terms = true)
    companies.
Proof.
  induction companies as [|company rest IH]; [constructor|].
  cbn [show_companies]. unfold join.
  destruct (Py.slice1 (eksi_search_terms company)) as [v|] eqn:Ev;
    [|discriminate].
  cbn [rbind]. destruct (Py.iter v) as [items|] eqn:Ei; [|discriminate].
  cbn [rbind]. destruct (join_items (py ", ") items) as [s|] eqn:E;
    [|discriminate].
  intros H. constructor; [|exact (IH H)].
  exists items. split; [rewrite Ev; exact Ei|]. eapply join_items_strings, E.
Qed.

Context {World : Type} {P : Platform World} {RT : PyRuntime}.

Variable limit : Z.

Lemma for_terms_strings (company : CompanyInfo) (terms : list json) :
  forallb is_string terms = true ->
  forall (processed_urls : list str) (all_entries : list Entry) (w : World),
  exists es,
    value_of (for_terms limit company terms processed_urls all_entries w)
    = Ok es.
Proof.
  induction terms as [|term rest IH]; intros Hs processed acc w.
  - eexists. reflexivity.
  - cbn [forallb] in Hs. apply andb_true_iff in Hs. destruct Hs as [Ht Hs].
    destruct term; try discriminate. cbn [for_terms]. rewrite bind_value.
    destruct (value_of (get_topic_url_fast s w)) as [[base n]|];
      [|apply IH, Hs].
    destruct (existsb (PyStr.eqb base) processed); [apply IH, Hs|].
    rewrite bind_value. cbn zeta.
    match goal with
    | |- context [if ?c then _ else _] => destruct c
    end; [eexists; reflexivity|apply IH, Hs].
Qed.

End LoadingStage.

(** X10.  The companies [main] goes on to process are the loaded ones in
    the order of the dictionary, at most 999999 of them, and for each of
    them the loop over its terms cannot raise in whatever state the browser
    is: its first term, if it has one, is a string. *)
Theorem fetched_companies_have_string_terms (data : json)
  (companies : list CompanyInfo)
  (Hfetch : companies_to_fetch data = Ok companies) :
  (exists loaded,
     load_companies_from_json data = Ok loaded
     /\ companies
        = firstn (Z.to_nat TARGET_COMPANIES_FOR_DEBUG) (map snd loaded))
  /\ Forall
       (fun company =>
          forall (World : Type) (P : Platform World) (RT : PyRuntime)
                 (limit : Z) (w : World),
          exists es, value_of (process_terms limit company w) = Ok es)
       companies.
Proof.
  unfold companies_to_fetch in Hfetch.
  remember (Z.to_nat TARGET_COMPANIES_FOR_DEBUG) as cap eqn:Ecap.
  clear Ecap.
  destruct (load_companies_from_json data) as [loaded|]; [|discriminate].
  cbn [rbind] in Hfetch. cbv zeta in Hfetch.
  destruct (show_companies _) as [[]|] eqn:Es; [|discriminate].
  cbn [rbind] in Hfetch. injection Hfetch as <-.
  split; [exists loaded; split; reflexivity|].
  eapply Forall_impl; [|exact (show_companies_strings _ Es)].
  intros company (terms & Ht & Hs) World P RT limit w.
  unfold process_terms. rewrite Ht. apply for_terms_strings, Hs.
Qed.

(** X11.  One loaded company whose first term is not a string stops [main]
    before any company is processed: joining its terms for the log raises
    [TypeError], which ends the run. *)
Theorem one_bad_term_stops_the_run (data : json)
  (loaded : list (json * CompanyInfo)) (company : CompanyInfo)
  (Hload : load_companies_from_json data = Ok loaded)
  (Hin : In company
           (firstn (Z.to_nat TARGET_COMPANIES_FOR_DEBUG) (map snd loaded)))
  (Hbad : first_term_not_string (eksi_search_terms company) = true) :
  companies_to_fetch data = Raise TypeError.
Proof.
  unfold companies_to_fetch. rewrite Hload.
  remember (Z.to_nat TARGET_COMPANIES_FOR_DEBUG) as cap eqn:Ecap.
  clear Ecap. cbn [rbind]. cbv zeta.
  destruct (show_companies_raises (firstn cap (map snd loaded)))
    as [Es|Es]; rewrite Es; [|reflexivity].
  exfalso. pose proof (show_companies_strings _ Es) as Hall.
  rewrite Forall_forall in Hall. destruct (Hall _ Hin) as (terms & Ht & Hs).
  unfold first_term_not_string in Hbad.
  destruct (eksi_search_terms company) as [| | | |s|l|d]; try discriminate.
  destruct l as [|term l]; [discriminate|].
  cbn in Ht. injection Ht as <-. cbn in Hs.
  destruct (is_string term); discriminate.
Qed.

(** ** The calendar, there and back *)

Section CalendarRoundTrip.

Lemma month_day_back_table :
  forallb (fun k => month_day_back true (Z.of_nat k)
                    && month_day_back false (Z.of_nat k))
    (seq 0 365) = true.
Proof. vm_compute. reflexivity. Qed.

Lemma month_day_back_in_range (leapyear : bool) (n : Z) :
  0 <= n < 365 -> month_day_back leapyear n = true.
Proof.
  intros Hn.
  assert (Hin : In (Z.to_nat n) (seq 0 365)) by (apply in_seq; lia).
  apply (proj1 (forallb_forall _ _) month_day_back_table) in Hin.
  cbv beta in Hin. rewrite Z2Nat.id in Hin by lia.
  apply andb_true_iff in Hin.
  destruct leapyear; tauto.
Qed.

Lemma days_before_year_succ (y : Z) :
  Datetime.days_before_year (y + 1)
  = Datetime.days_before_year y + 365 + (if Datetime.is_leap y then 1 else 0).
Proof.
  unfold Datetime.days_before_year, Datetime.is_leap. cbv zeta.
  replace (y + 1 - 1) with y by lia.
  destruct (Z.eqb_spec (y mod 4) 0); destruct (Z.eqb_spec (y mod 100) 0);
    destruct (Z.eqb_spec (y mod 400) 0); cbn [andb orb negb];
    Z.div_mod_to_equations; lia.
Qed.

Lemma days_before_year_mono (a b : Z) :
  a <= b -> Datetime.days_before_year a <= Datetime.days_before_year b.
Proof.
  unfold Datetime.days_before_year. cbv zeta. intros H.
  Z.div_mod_to_equations. lia.
Qed.

Lemma month_in_range (m : Z) :
  1 <= m <= 12 ->
  m = 1 \/ m = 2 \/ m = 3 \/ m = 4 \/ m = 5 \/ m = 6 \/ m = 7 \/ m = 8
  \/ m = 9 \/ m = 10 \/ m = 11 \/ m = 12.
Proof. lia. Qed.

Lemma check_date_bounds (y m d : Z) :
  Datetime.check_date y m d = true ->
  1 <= y <= 9999 /\ 1 <= m <= 12 /\ 1 <= d <= Datetime.days_in_month y m.
Proof.
  unfold Datetime.check_date, Datetime.MINYEAR, Datetime.MAXYEAR.
  rewrite !andb_true_iff, !Z.leb_le. lia.
Qed.

Lemma month_part_bounds (y m d : Z) :
  Datetime.check_date y m d = true ->
  1 <= Datetime.days_before_month y m + d
    <= 365 + (if Datetime.is_leap y then 1 else 0).
Proof.
  intros H. apply check_date_bounds in H. destruct H as (_ & Hm & Hd).
  revert Hd. unfold Datetime.days_in_month, Datetime.days_before_month.
  destruct (Datetime.is_leap y);
    destruct (@month_in_range m Hm)
      as [->|[->|[->|[->|[->|[->|[->|[->|[->|[->|[->| ->]]]]]]]]]]];
    cbn -[Z.add]; lia.
Qed.

Lemma month_part_inj (y m d m' d' : Z) :
  Datetime.check_date y m d = true -> Datetime.check_date y m' d' = true ->
  Datetime.days_before_month y m + d = Datetime.days_before_month y m' + d' ->
  m = m' /\ d = d'.
Proof.
  intros H H'. apply check_date_bounds in H, H'.
  destruct H as (_ & Hm & Hd). destruct H' as (_ & Hm' & Hd').
  revert Hd Hd'. unfold Datetime.days_in_month, Datetime.days_before_month.
  destruct (Datetime.is_leap y);
    destruct (@month_in_range m Hm)
      as [->|[->|[->|[->|[->|[->|[->|[->|[->|[->|[->| ->]]]]]]]]]]];
    destruct (@month_in_range m' Hm')
      as [->|[->|[->|[->|[->|[->|[->|[->|[->|[->|[->| ->]]]]]]]]]]];
    cbn -[Z.add]; lia.
Qed.

Lemma ymd2ord_bounds (y m d : Z) :
  Datetime.check_date y m d = true ->
  Datetime.days_before_year y < Datetime.ymd2ord y m d
    <= Datetime.days_before_year (y + 1).
Proof.
  intros H. pose proof (@month_part_bounds y m d H) as Hp.
  rewrite days_before_year_succ. unfold Datetime.ymd2ord. lia.
Qed.

Lemma ymd2ord_in_calendar (y m d : Z) :
  Datetime.check_date y m d = true ->
  1 <= Datetime.ymd2ord y m d <= Datetime.MAXORDINAL.
Proof.
  intros H. pose proof (@ymd2ord_bounds y m d H) as Hb.
  apply check_date_bounds in H. destruct H as (Hy & _).
  pose proof (@days_before_year_mono 1 y ltac:(lia)) as Hlo.
  pose proof (@days_before_year_mono (y + 1) 10000 ltac:(lia)) as Hhi.
  change (Datetime.days_before_year 1) with 0 in Hlo.
  change (Datetime.days_before_year 10000) with 3652059 in Hhi.
  unfold Datetime.MAXORDINAL. lia.
Qed.

Lemma ymd2ord_inj (y m d y' m' d' : Z) :
  Datetime.check_date y m d = true -> Datetime.check_date y' m' d' = true ->
  Datetime.ymd2ord y m d = Datetime.ymd2ord y' m' d' ->
  (y, m, d) = (y', m', d').
Proof.
  intros H H' E.
  pose proof (@ymd2ord_bounds y m d H) as Hb.
  pose proof (@ymd2ord_bounds y' m' d' H') as Hb'.
  assert (Hy : y = y').
  { destruct (Z.lt_trichotomy y y') as [Hlt|[Heq|Hgt]]; [|exact Heq|].
    - pose proof (@days_before_year_mono (y + 1) y' ltac:(lia)). lia.
    - pose proof (@days_before_year_mono (y' + 1) y ltac:(lia)). lia. }
  subst y'. unfold Datetime.ymd2ord in E.
  destruct (@month_part_inj y m d m' d' H H' ltac:(lia)) as [-> ->].
  reflexivity.
Qed.

(** The ordinal of the date of an ordinal is that ordinal. *)
Lemma ymd2ord_ord2ymd (n : Z) :
  1 <= n <= Datetime.MAXORDINAL ->
  let '(y, m, d) := Datetime.ord2ymd n in Datetime.ymd2ord y m d = n.
Proof.
  unfold Datetime.MAXORDINAL. intros Hn. unfold Datetime.ord2ymd.
  set (n0 := n - 1).
  set (n400 := n0 / 146097). set (r := n0 mod 146097).
  set (n100 := r / 36524). set (r2 := r mod 36524).
  set (n4 := r2 / 1461). set (r3 := r2 mod 1461).
  set (n1 := r3 / 365). set (r4 := r3 mod 365).
  assert (B400 : 0 <= n400 <= 24 /\ 0 <= r < 146097
                 /\ n0 = 146097 * n400 + r).
  { subst n400 r. Z.div_mod_to_equations. lia. }
  assert (B100 : 0 <= n100 <= 4 /\ 0 <= r2 < 36524 /\ r = 36524 * n100 + r2).
  { subst n100 r2. Z.div_mod_to_equations. lia. }
  assert (B4 : 0 <= n4 <= 24 /\ 0 <= r3 < 1461 /\ r2 = 1461 * n4 + r3).
  { subst n4 r3. Z.div_mod_to_equations. lia. }
  assert (B1 : 0 <= n1 <= 4 /\ 0 <= r4 < 365 /\ r3 = 365 * n1 + r4).
  { subst n1 r4. Z.div_mod_to_equations. lia. }
  assert (En : n = n0 + 1) by (subst n0; lia).
  clearbody n400 r n100 r2 n4 r3 n1 r4 n0. subst n.
  destruct ((n1 =? 4) || (n100 =? 4)) eqn:Elast.
  - apply orb_true_iff in Elast.
    unfold Datetime.ymd2ord, Datetime.days_before_month,
      Datetime.days_before_year.
    cbn [Datetime.DAYS_BEFORE_MONTH Z.ltb Z.compare Pos.compare
           Pos.compare_cont andb]. cbv zeta.
    set (y := n400 * 400 + 1 + n100 * 100 + n4 * 4 + n1 - 1).
    assert (Hleap : Datetime.is_leap y = true).
    { unfold Datetime.is_leap. subst y.
      destruct Elast as [E|E]; apply Z.eqb_eq in E.
      - assert (n4 <= 23) by lia.
        replace ((n400 * 400 + 1 + n100 * 100 + n4 * 4 + n1 - 1) mod 4)
          with 0 by (Z.div_mod_to_equations; lia).
        replace ((n400 * 400 + 1 + n100 * 100 + n4 * 4 + n1 - 1) mod 100 =? 0)
          with false; [reflexivity|].
        symmetry. apply Z.eqb_neq. Z.div_mod_to_equations. lia.
      - replace ((n400 * 400 + 1 + n100 * 100 + n4 * 4 + n1 - 1) mod 4)
          with 0 by (Z.div_mod_to_equations; lia).
        replace ((n400 * 400 + 1 + n100 * 100 + n4 * 4 + n1 - 1) mod 400)
          with 0 by (Z.div_mod_to_equations; lia).
        cbn. apply orb_true_r. }
    rewrite Hleap. subst y.
    destruct Elast as [E|E]; apply Z.eqb_eq in E;
      Z.div_mod_to_equations; lia.
  - apply orb_false_iff in Elast. destruct Elast as [E1 E100].
    apply Z.eqb_neq in E1, E100.
    pose proof (@is_leap_cycles n400 n100 n4 n1 ltac:(lia) ltac:(lia) ltac:(lia))
      as Hleap.
    set (leapyear := (n1 =? 3) && (negb (n4 =? 24) || (n100 =? 3))) in *.
    pose proof (@month_day_back_in_range leapyear r4 ltac:(lia)) as Hmd.
    unfold month_day_back, month_day in Hmd.
    set (y := n400 * 400 + 1 + n100 * 100 + n4 * 4 + n1) in *.
    assert (Hy : Datetime.days_before_year y
                 = 146097 * n400 + 36524 * n100 + 1461 * n4 + 365 * n1).
    { unfold Datetime.days_before_year. subst y. cbv zeta.
      Z.div_mod_to_equations. lia. }
    destruct (r4 <? _) in Hmd |- *; apply Z.eqb_eq in Hmd;
      unfold Datetime.ymd2ord, Datetime.days_before_month;
      rewrite Hleap, Hy; lia.
Qed.

(** The date of the ordinal of a date is that date. *)
Lemma ord2ymd_ymd2ord (y m d : Z) :
  Datetime.check_date y m d = true ->
  Datetime.ord2ymd (Datetime.ymd2ord y m d) = (y, m, d).
Proof.
  intros H. pose proof (@ymd2ord_in_calendar y m d H) as Hn.
  pose proof (@ord2ymd_valid _ Hn) as Hv.
  pose proof (@ymd2ord_ord2ymd _ Hn) as Ho.
  destruct (Datetime.ord2ymd (Datetime.ymd2ord y m d)) as [[y' m'] d'].
  apply ymd2ord_inj; assumption.
Qed.

End CalendarRoundTrip.

(** ** Texts of dates and the patterns of [strptime] *)

Section TextFacts.

Lemma countdown_has (start : Z) (k : nat) (p : Z) :
  start - Z.of_nat k < p <= start -> In p (countdown start k).
Proof.
  revert start. induction k as [|k IH]; intros start H; [lia|].
  cbn [countdown In].
  destruct (Z.eq_dec start p) as [E|E]; [left; exact E|right].
  apply IH. lia.
Qed.

(** Case analysis on a number of a small range. *)
Ltac each_value H :=
  vm_compute in H; repeat (destruct H as [<-|H]); try contradiction.

Lemma digit_value (v : Z) (rest : str) :
  0 <= v <= 9 -> Strptime.digit (Z.to_N (48 + v) :: rest) = [(v, rest)].
Proof.
  intros Hv. assert (H : In v (countdown 9 10)) by (apply countdown_has; lia).
  each_value H; reflexivity.
Qed.

Lemma digit_not_space (v : Z) :
  0 <= v <= 9 -> PyStr.isspace (Z.to_N (48 + v)) = false.
Proof.
  intros Hv. assert (H : In v (countdown 9 10)) by (apply countdown_has; lia).
  each_value H; reflexivity.
Qed.

Lemma dir_d_then_dot {A} (k : Z -> Strptime.rx A) (d : Z) (rest : str) :
  1 <= d <= 31 ->
  Strptime.seq Strptime.dir_d
    (fun d => Strptime.seq Strptime.dot (fun _ => k d))
    (padded 2 d ++ 46%N :: rest)
  = k d rest.
Proof.
  intros Hd. assert (H : In d (countdown 31 31)) by (apply countdown_has; lia).
  each_value H; cbn; rewrite ?app_nil_r; reflexivity.
Qed.

Lemma dir_m_then_dot {A} (k : Z -> Strptime.rx A) (m : Z) (rest : str) :
  1 <= m <= 12 ->
  Strptime.seq Strptime.dir_m
    (fun m => Strptime.seq Strptime.dot (fun _ => k m))
    (padded 2 m ++ 46%N :: rest)
  = k m rest.
Proof.
  intros Hm. assert (H : In m (countdown 12 12)) by (apply countdown_has; lia).
  each_value H; cbn; rewrite ?app_nil_r; reflexivity.
Qed.

Lemma dir_H_then_colon {A} (k : Z -> Strptime.rx A) (H : Z) (rest : str) :
  0 <= H <= 23 ->
  Strptime.seq Strptime.dir_H
    (fun H => Strptime.seq Strptime.colon (fun _ => k H))
    (padded 2 H ++ 58%N :: rest)
  = k H rest.
Proof.
  intros HH. assert (Hin : In H (countdown 23 24)) by (apply countdown_has; lia).
  each_value Hin; cbn; rewrite ?app_nil_r; reflexivity.
Qed.

Lemma dir_M_at_end {A} (k : Z -> Strptime.rx A) (M : Z) :
  0 <= M <= 59 ->
  exists tl, Strptime.seq Strptime.dir_M k (padded 2 M) = k M [] ++ tl.
Proof.
  intros HM. assert (H : In M (countdown 59 60)) by (apply countdown_has; lia).
  each_value H; cbn; eexists; reflexivity.
Qed.

Lemma dir_Y_then {A} (k : Z -> Strptime.rx A) (y : Z) (rest : str) :
  0 <= y <= 9999 ->
  Strptime.seq Strptime.dir_Y k (padded 4 y ++ rest) = k y rest.
Proof.
  intros Hy. unfold Strptime.dir_Y, Strptime.seq, padded. cbn [app].
  rewrite digit_value by (Z.div_mod_to_equations; lia). cbn [flat_map].
  rewrite digit_value by (Z.div_mod_to_equations; lia). cbn [flat_map].
  rewrite digit_value by (Z.div_mod_to_equations; lia). cbn [flat_map].
  rewrite digit_value by (Z.div_mod_to_equations; lia). cbn [flat_map].
  unfold Strptime.pure. cbn [flat_map app]. rewrite !app_nil_r.
  f_equal. Z.div_mod_to_equations. lia.
Qed.

(** The pattern of a date reads the text of a date, and nothing else of
    it. *)
Lemma rx_dmY_text (y m d : Z) (rest : str) :
  Datetime.check_date y m d = true ->
  Strptime.rx_dmY (dmY_text y m d ++ rest) = [((d, m, y), rest)].
Proof.
  intros Hv. apply check_date_bounds in Hv. destruct Hv as (Hy & Hm & Hd).
  assert (Hd' : 1 <= d <= 31).
  { revert Hd. unfold Datetime.days_in_month, Datetime.DAYS_IN_MONTH.
    destruct (_ && _); [lia|]. destruct (m =? 2); [lia|].
    destruct (_ || _); lia. }
  unfold Strptime.rx_dmY, dmY_text.
  change (py ".") with [46%N]. rewrite <- !app_assoc. cbn [app].
  pose proof (@dir_d_then_dot _
                (fun d => Strptime.seq Strptime.dir_m (fun m =>
                   Strptime.seq Strptime.dot (fun _ =>
                     Strptime.seq Strptime.dir_Y (fun Y =>
                       Strptime.pure (d, m, Y)))))
                d (padded 2 m ++ 46%N :: padded 4 y ++ rest) Hd') as E1.
  cbv beta in E1. rewrite E1. clear E1.
  pose proof (@dir_m_then_dot _
                (fun m => Strptime.seq Strptime.dir_Y (fun Y =>
                   Strptime.pure (d, m, Y)))
                m (padded 4 y ++ rest) Hm) as E2.
  cbv beta in E2. rewrite E2. clear E2.
  rewrite dir_Y_then by lia. reflexivity.
Qed.

Lemma rx_HM_text (H M : Z) :
  0 <= H <= 23 -> 0 <= M <= 59 ->
  exists tl, Strptime.rx_HM (HM_text H M) = ((H, M), []) :: tl.
Proof.
  intros HH HM. unfold Strptime.rx_HM, HM_text.
  change (py ":") with [58%N]. cbn [app].
  pose proof (@dir_H_then_colon _
                (fun H => Strptime.seq Strptime.dir_M (fun M =>
                   Strptime.pure (H, M)))
                H (padded 2 M) HH) as E1.
  cbv beta in E1. rewrite E1. clear E1.
  destruct (@dir_M_at_end _ (fun M => Strptime.pure (H, M)) M HM) as [tl ->].
  exists tl. reflexivity.
Qed.

Lemma check_time_bounds (H M : Z) :
  Datetime.check_time H M 0 0 = true <-> 0 <= H <= 23 /\ 0 <= M <= 59.
Proof.
  unfold Datetime.check_time.
  rewrite !andb_true_iff, !Z.leb_le, !Z.ltb_lt. lia.
Qed.

(** [strptime] reads the text of a time of day as that time on
    1900-01-01. *)
Lemma strptime_HM_text (H M : Z) :
  0 <= H <= 23 -> 0 <= M <= 59 ->
  Strptime.strptime_HM (HM_text H M) = Ok (mk_datetime 1900 1 1 H M 0 0).
Proof.
  intros HH HM. unfold Strptime.strptime_HM, Strptime.fullmatch.
  destruct (@rx_HM_text H M HH HM) as [tl ->]. cbn [rbind].
  unfold Datetime.make, Datetime.valid.
  cbn [year month day hour minute second microsecond].
  rewrite (proj2 (check_time_bounds H M)) by auto. reflexivity.
Qed.

(** [strptime] reads the text of a wall clock as that wall clock. *)
Lemma strptime_dmY_HM_text (dt : datetime) :
  Datetime.valid dt = true -> second dt = 0 -> microsecond dt = 0 ->
  Strptime.strptime_dmY_HM (dmY_HM_text dt) = Ok dt.
Proof.
  destruct dt as [y m d H M S us]. unfold Datetime.valid.
  cbn [year month day hour minute second microsecond].
  intros Hv -> ->. pose proof Hv as Hv'.
  apply andb_true_iff in Hv'. destruct Hv' as [Hd Ht].
  apply check_time_bounds in Ht. destruct Ht as [HH HM].
  unfold Strptime.strptime_dmY_HM, Strptime.fullmatch, Strptime.rx_dmY_HM,
    dmY_HM_text.
  cbn [year month day hour minute second microsecond].
  unfold Strptime.seq at 1. rewrite (@rx_dmY_text y m d _ Hd). cbn [flat_map].
  change (py " ") with [32%N]. cbn [app].
  unfold Strptime.seq at 1.
  assert (Hs : Strptime.spaces (32%N :: HM_text H M) = [(tt, HM_text H M)]).
  { unfold HM_text, padded. cbn [app Strptime.spaces].
    change (PyStr.isspace 32) with true. cbv iota.
    rewrite digit_not_space by (Z.div_mod_to_equations; lia).
    reflexivity. }
  rewrite Hs. cbn [flat_map]. unfold Strptime.seq at 1.
  destruct (@rx_HM_text H M HH HM) as [tl ->].
  cbn [flat_map app Strptime.pure].
  cbn [rbind]. unfold Datetime.make, Datetime.valid.
  cbn [year month day hour minute second microsecond].
  rewrite Hv. reflexivity.
Qed.

(** A text that is a date and nothing more does not match the pattern with
    a time; [strptime] reads it as the start of that day. *)
Lemma strptime_dmY_text (y m d : Z) :
  Datetime.check_date y m d = true ->
  Strptime.strptime_dmY_HM (dmY_text y m d) = Raise ValueError
  /\ Strptime.strptime_dmY (dmY_text y m d) = Ok (mk_datetime y m d 0 0 0 0).
Proof.
  intros Hd. pose proof (@rx_dmY_text y m d [] Hd) as E. rewrite app_nil_r in E.
  split.
  - unfold Strptime.strptime_dmY_HM, Strptime.fullmatch, Strptime.rx_dmY_HM.
    unfold Strptime.seq at 1. rewrite E. reflexivity.
  - unfold Strptime.strptime_dmY, Strptime.fullmatch. rewrite E.
    cbn [rbind]. unfold Datetime.make, Datetime.valid.
    cbn [year month day hour minute second microsecond]. rewrite Hd.
    reflexivity.
Qed.

End TextFacts.

(** ** Sums of a [datetime] and seconds *)

Section SumFacts.

Lemma valid_bounds (dt : datetime) :
  Datetime.valid dt = true ->
  Datetime.check_date (year dt) (month dt) (day dt) = true
  /\ 0 <= hour dt <= 23 /\ 0 <= minute dt <= 59 /\ 0 <= second dt <= 59
  /\ 0 <= microsecond dt < 1000000.
Proof.
  unfold Datetime.valid, Datetime.check_time.
  rewrite !andb_true_iff, !Z.leb_le, !Z.ltb_lt. intuition lia.
Qed.

(** What a sum is made of: the day is found from the seconds since the
    start of the calendar, the time of day is the remainder. *)
Lemma add_seconds_fields (dt : datetime) (s : Z) (r : datetime) :
  Datetime.add_seconds dt s = Ok r ->
  let total :=
    Datetime.toordinal dt * 86400 + hour dt * 3600 + minute dt * 60
    + second dt + s in
  1 <= total / 86400 <= Datetime.MAXORDINAL
  /\ Datetime.toordinal r = total / 86400
  /\ (year r, month r, day r) = Datetime.ord2ymd (total / 86400)
  /\ hour r = total mod 86400 / 3600
  /\ minute r = total mod 86400 mod 3600 / 60
  /\ second r = total mod 86400 mod 60
  /\ microsecond r = microsecond dt.
Proof.
  unfold Datetime.add_seconds. cbv zeta.
  set (total := _ + s).
  destruct ((0 <? total / 86400) && (total / 86400 <=? Datetime.MAXORDINAL))
    eqn:Erange; [|discriminate].
  apply andb_true_iff in Erange. destruct Erange as [Hlo Hhi].
  apply Z.ltb_lt in Hlo. apply Z.leb_le in Hhi.
  pose proof (@ymd2ord_ord2ymd (total / 86400) ltac:(lia)) as Ho.
  destruct (Datetime.ord2ymd (total / 86400)) as [[y m] d].
  intros [= <-]. unfold Datetime.toordinal.
  cbn [year month day hour minute second microsecond].
  repeat split; try reflexivity; try lia; exact Ho.
Qed.

Lemma add_seconds_in_range (dt : datetime) (s : Z) :
  let total :=
    Datetime.toordinal dt * 86400 + hour dt * 3600 + minute dt * 60
    + second dt + s in
  1 <= total / 86400 <= Datetime.MAXORDINAL ->
  exists r, Datetime.add_seconds dt s = Ok r.
Proof.
  cbv zeta. intros [Hlo Hhi]. unfold Datetime.add_seconds. cbv zeta.
  set (total := _ + s) in *.
  replace (0 <? total / 86400) with true by (symmetry; apply Z.ltb_lt; lia).
  replace (total / 86400 <=? Datetime.MAXORDINAL) with true
    by (symmetry; apply Z.leb_le; lia).
  cbn [andb]. destruct (Datetime.ord2ymd (total / 86400)) as [[y m] d].
  eexists. reflexivity.
Qed.

(** Taking the seconds away again gives the [datetime] one started from. *)
Lemma add_seconds_back (dt : datetime) (s : Z) (r : datetime) :
  Datetime.valid dt = true ->
  Datetime.add_seconds dt s = Ok r -> Datetime.add_seconds r (- s) = Ok dt.
Proof.
  intros Hv Hr. apply valid_bounds in Hv.
  destruct Hv as (Hd & HH & HM & HS & Hus).
  pose proof (@ymd2ord_in_calendar _ _ _ Hd) as Hord.
  pose proof (@ord2ymd_ymd2ord _ _ _ Hd) as Hback.
  apply add_seconds_fields in Hr. cbv zeta in Hr.
  destruct Hr as (Hrange & Ho & _ & Eh & Em & Es & Eus).
  unfold Datetime.MAXORDINAL in *.
  fold (Datetime.toordinal dt) in Hord, Hback.
  set (ord := Datetime.toordinal dt) in *.
  set (total := ord * 86400 + hour dt * 3600 + minute dt * 60 + second dt + s)
    in *.
  unfold Datetime.add_seconds. cbv zeta. rewrite Ho, Eh, Em, Es, Eus.
  assert (Et : total / 86400 * 86400 + total mod 86400 / 3600 * 3600
               + total mod 86400 mod 3600 / 60 * 60 + total mod 86400 mod 60
               + - s
               = ord * 86400 + (hour dt * 3600 + minute dt * 60 + second dt)).
  { subst total. Z.div_mod_to_equations. lia. }
  rewrite Et.
  assert (Eq : (ord * 86400 + (hour dt * 3600 + minute dt * 60 + second dt))
               / 86400 = ord) by (Z.div_mod_to_equations; lia).
  assert (Er : (ord * 86400 + (hour dt * 3600 + minute dt * 60 + second dt))
               mod 86400 = hour dt * 3600 + minute dt * 60 + second dt)
    by (Z.div_mod_to_equations; lia).
  rewrite Eq, Er.
  replace (0 <? ord) with true by (symmetry; apply Z.ltb_lt; lia).
  replace (ord <=? Datetime.MAXORDINAL) with true
    by (symmetry; apply Z.leb_le; unfold Datetime.MAXORDINAL; lia).
  cbn [andb]. rewrite Hback.
  replace ((hour dt * 3600 + minute dt * 60 + second dt) / 3600)
    with (hour dt) by (Z.div_mod_to_equations; lia).
  replace ((hour dt * 3600 + minute dt * 60 + second dt) mod 3600 / 60)
    with (minute dt) by (Z.div_mod_to_equations; lia).
  replace ((hour dt * 3600 + minute dt * 60 + second dt) mod 60)
    with (second dt) by (Z.div_mod_to_equations; lia).
  destruct dt; reflexivity.
Qed.

End SumFacts.

(** ** Stripping, searching and replacing in the texts of dates *)

Section StripFacts.

Lemma lstrip_spaces (pre s : str) :
  forallb PyStr.isspace pre = true -> PyStr.lstrip (pre ++ s) = PyStr.lstrip s.
Proof.
  induction pre as [|c pre IH]; [reflexivity|].
  cbn [forallb app PyStr.lstrip]. intros H. apply andb_true_iff in H.
  destruct H as [-> H]. auto.
Qed.

Lemma lstrip_all_spaces (s : str) :
  forallb PyStr.isspace s = true -> PyStr.lstrip s = [].
Proof.
  intros H. rewrite <- (app_nil_r s), lstrip_spaces by exact H. reflexivity.
Qed.

Lemma rstrip_spaces (s post : str) :
  forallb PyStr.isspace post = true -> PyStr.rstrip (s ++ post) = PyStr.rstrip s.
Proof.
  intros H. unfold PyStr.rstrip. rewrite rev_app_distr, lstrip_spaces;
    [reflexivity|].
  rewrite forallb_forall in *. intros c Hc. apply H, in_rev, Hc.
Qed.

Lemma lstrip_cases (s : str) :
  (forallb PyStr.isspace s = true /\ PyStr.lstrip s = [])
  \/ exists pre c rest,
       s = pre ++ c :: rest /\ forallb PyStr.isspace pre = true
       /\ PyStr.isspace c = false /\ PyStr.lstrip s = c :: rest.
Proof.
  induction s as [|c s IH]; [left; split; reflexivity|].
  cbn [forallb PyStr.lstrip]. destruct (PyStr.isspace c) eqn:E.
  - destruct IH as [[Ha Hl]|(pre & c' & rest & -> & Hp & Hc & Hl)].
    + left. split; assumption.
    + right. exists (c :: pre), c', rest. cbn [forallb]. rewrite E.
      repeat split; assumption.
  - right. exists [], c, s. repeat split. exact E.
Qed.

(** Whitespace around a text is stripped with it. *)
Lemma strip_padding (pre s post : str) :
  forallb PyStr.isspace pre = true -> forallb PyStr.isspace post = true ->
  PyStr.strip (pre ++ s ++ post) = PyStr.strip s.
Proof.
  intros Hpre Hpost. unfold PyStr.strip. rewrite lstrip_spaces by exact Hpre.
  destruct (lstrip_cases s) as [[Ha Hl]|(p & c & rest & -> & Hp & Hc & Hl)].
  - rewrite Hl, lstrip_all_spaces; [reflexivity|].
    rewrite forallb_app, Ha, Hpost. reflexivity.
  - rewrite Hl, <- app_assoc, lstrip_spaces by exact Hp.
    cbn [app PyStr.lstrip]. rewrite Hc.
    change (c :: rest ++ post) with ((c :: rest) ++ post).
    apply rstrip_spaces, Hpost.
Qed.

(** A text that neither begins nor ends with whitespace is left as it
    is. *)
Lemma strip_ends (a z : N) (mid : str) :
  PyStr.isspace a = false -> PyStr.isspace z = false ->
  PyStr.strip (a :: mid ++ [z]) = a :: mid ++ [z].
Proof.
  intros Ha Hz. unfold PyStr.strip, PyStr.rstrip. cbn [PyStr.lstrip].
  rewrite Ha. change (a :: mid ++ [z]) with ((a :: mid) ++ [z]).
  rewrite rev_app_distr. cbn [rev app PyStr.lstrip]. rewrite Hz.
  change (z :: rev mid ++ [a]) with ([z] ++ rev (a :: mid)).
  rewrite rev_app_distr, rev_involutive. reflexivity.
Qed.

Lemma is_prefix_absent (c0 : N) (p s : str) :
  match s with c :: _ => c <> c0 | [] => True end ->
  PyStr.is_prefix (c0 :: p) s = false.
Proof.
  destruct s as [|c s]; [reflexivity|]. cbn [PyStr.is_prefix]. intros H.
  replace (c0 =? c)%N with false; [reflexivity|].
  symmetry. apply N.eqb_neq. congruence.
Qed.

Lemma contains_absent (c0 : N) (p s : str) :
  Forall (fun c => c <> c0) s -> PyStr.contains (c0 :: p) s = false.
Proof.
  induction 1 as [|c s Hc Hs IH]; [reflexivity|].
  cbn [PyStr.contains]. rewrite is_prefix_absent by exact Hc. exact IH.
Qed.

Lemma replace_absent (c0 : N) (p new s : str) :
  Forall (fun c => c <> c0) s -> PyStr.replace_from (c0 :: p) new O s = s.
Proof.
  induction 1 as [|c s Hc Hs IH]; [reflexivity|].
  cbn [PyStr.replace_from]. rewrite is_prefix_absent by exact Hc.
  rewrite IH. reflexivity.
Qed.

Lemma padded_digits (width : nat) (n : Z) :
  Forall (fun c => (c < 64)%N) (padded width n).
Proof.
  revert n. induction width as [|w IH]; intros n; [constructor|].
  cbn [padded]. apply Forall_app. split; [apply IH|].
  constructor; [|constructor]. pose proof (Z.mod_pos_bound n 10). lia.
Qed.

Lemma HM_text_chars (H M : Z) : Forall (fun c => (c < 64)%N) (HM_text H M).
Proof.
  unfold HM_text. change (py ":") with [58%N].
  apply Forall_app; split; [apply padded_digits|].
  constructor; [reflexivity|apply padded_digits].
Qed.

Lemma dmY_text_chars (y m d : Z) : Forall (fun c => (c < 64)%N) (dmY_text y m d).
Proof.
  unfold dmY_text. change (py ".") with [46%N].
  apply Forall_app; split; [apply padded_digits|].
  constructor; [reflexivity|].
  apply Forall_app; split; [apply padded_digits|].
  constructor; [reflexivity|apply padded_digits].
Qed.

Lemma dmY_HM_text_chars (dt : datetime) :
  Forall (fun c => (c < 64)%N) (dmY_HM_text dt).
Proof.
  unfold dmY_HM_text. change (py " ") with [32%N].
  apply Forall_app; split; [apply dmY_text_chars|].
  constructor; [reflexivity|apply HM_text_chars].
Qed.

Lemma below_64_not (c0 : N) (s : str) :
  (64 <= c0)%N -> Forall (fun c => (c < 64)%N) s -> Forall (fun c => c <> c0) s.
Proof. intros H. apply Forall_impl. intros c Hc. lia. Qed.

Lemma padded_not_space (n : Z) :
  PyStr.isspace (Z.to_N (48 + n mod 10)) = false.
Proof. apply digit_not_space. pose proof (Z.mod_pos_bound n 10). lia. Qed.

Lemma strip_HM_text (H M : Z) : PyStr.strip (HM_text H M) = HM_text H M.
Proof.
  unfold HM_text, padded. change (py ":") with [58%N]. cbn [app].
  apply (@strip_ends _ _ [_; _; _]); apply padded_not_space.
Qed.

Lemma strip_dmY_text (y m d : Z) : PyStr.strip (dmY_text y m d) = dmY_text y m d.
Proof.
  unfold dmY_text, padded. change (py ".") with [46%N]. cbn [app].
  apply (@strip_ends _ _ [_; _; _; _; _; _; _; _]); apply padded_not_space.
Qed.

Lemma strip_dmY_HM_text (dt : datetime) :
  PyStr.strip (dmY_HM_text dt) = dmY_HM_text dt.
Proof.
  unfold dmY_HM_text, dmY_text, HM_text, padded.
  change (py ".") with [46%N]. change (py ":") with [58%N].
  change (py " ") with [32%N]. cbn [app].
  apply (@strip_ends _ _ [_; _; _; _; _; _; _; _; _; _; _; _; _; _]);
    apply padded_not_space.
Qed.

End StripFacts.

Section ReplaceFacts.

Lemma is_prefix_app (p s : str) : PyStr.is_prefix p (p ++ s) = true.
Proof.
  induction p as [|c p IH]; [reflexivity|].
  cbn [app PyStr.is_prefix]. rewrite N.eqb_refl. exact IH.
Qed.

Lemma contains_prefix (p s : str) : PyStr.contains p (p ++ s) = true.
Proof.
  destruct p as [|c p]; [destruct s; reflexivity|].
  cbn [app PyStr.contains].
  change (c :: p ++ s) with ((c :: p) ++ s). rewrite is_prefix_app.
  reflexivity.
Qed.

Lemma replace_from_skip (old new skipped s : str) :
  PyStr.replace_from old new (List.length skipped) (skipped ++ s)
  = PyStr.replace_from old new O s.
Proof.
  induction skipped as [|c skipped IH]; [reflexivity|].
  cbn [app List.length PyStr.replace_from]. exact IH.
Qed.

(** An occurrence at the start is replaced, and the search goes on behind
    it. *)
Lemma replace_prefix (c : N) (old new s : str) :
  PyStr.replace (c :: old) new ((c :: old) ++ s)
  = new ++ PyStr.replace (c :: old) new s.
Proof.
  unfold PyStr.replace. cbn [app PyStr.replace_from].
  change (c :: old ++ s) with ((c :: old) ++ s). rewrite is_prefix_app.
  cbn [List.length Nat.pred]. rewrite replace_from_skip. reflexivity.
Qed.

End ReplaceFacts.

(** ** What the parser makes of the texts of dates *)

Section ParserTexts.

Context {RT : PyRuntime}.

Lemma parse_try_wall_clock (now dt : datetime) :
  Datetime.valid dt = true -> second dt = 0 -> microsecond dt = 0 ->
  parse_eksi_date_try now (dmY_HM_text dt)
  = rbind (localize dt) (fun utcoffset =>
      rbind (astimezone_utc dt utcoffset) (fun dt_utc => Ok (Some dt_utc))).
Proof.
  intros Hv Hs Hus. unfold parse_eksi_date_try.
  change (py "bugün") with [98; 117; 103; 252; 110]%N.
  change (py "dün") with [100; 252; 110]%N.
  rewrite !contains_absent
    by (apply below_64_not; [lia|apply dmY_HM_text_chars]).
  rewrite strptime_dmY_HM_text by assumption. reflexivity.
Qed.

Lemma parse_try_date_only (now : datetime) (y m d : Z) :
  Datetime.check_date y m d = true ->
  parse_eksi_date_try now (dmY_text y m d)
  = rbind (localize (mk_datetime y m d 0 0 0 0)) (fun utcoffset =>
      rbind (astimezone_utc (mk_datetime y m d 0 0 0 0) utcoffset)
        (fun dt_utc => Ok (Some dt_utc))).
Proof.
  intros Hd. unfold parse_eksi_date_try.
  change (py "bugün") with [98; 117; 103; 252; 110]%N.
  change (py "dün") with [100; 252; 110]%N.
  rewrite !contains_absent
    by (apply below_64_not; [lia|apply dmY_text_chars]).
  destruct (@strptime_dmY_text y m d Hd) as [-> ->]. reflexivity.
Qed.

Lemma replace_date_at_time (t date : datetime) :
  Datetime.check_date (year date) (month date) (day date) = true ->
  Datetime.valid t = true -> second t = 0 -> microsecond t = 0 ->
  Datetime.replace_date t (year date) (month date) (day date)
  = Ok (at_time date (hour t) (minute t)).
Proof.
  intros Hd Ht Hs Hus. unfold Datetime.replace_date, Datetime.make, at_time.
  rewrite Hs, Hus. unfold Datetime.valid in *.
  cbn [year month day hour minute second microsecond].
  apply andb_true_iff in Ht. destruct Ht as [_ Ht]. rewrite Hs, Hus in Ht.
  rewrite Hd, Ht. reflexivity.
Qed.

Lemma parse_try_today (now : datetime) (H M : Z) :
  Datetime.check_date (year now) (month now) (day now) = true ->
  0 <= H <= 23 -> 0 <= M <= 59 ->
  parse_eksi_date_try now (py "bugün " ++ HM_text H M)
  = rbind (localize (at_time now H M)) (fun utcoffset =>
      rbind (astimezone_utc (at_time now H M) utcoffset)
        (fun dt_utc => Ok (Some dt_utc))).
Proof.
  intros Hd HH HM. unfold parse_eksi_date_try.
  change (py "bugün " ++ HM_text H M)
    with (py "bugün" ++ 32%N :: HM_text H M).
  rewrite contains_prefix.
  change (py "bugün") with [98; 117; 103; 252; 110]%N.
  rewrite replace_prefix. unfold PyStr.replace.
  rewrite replace_absent
    by (constructor; [discriminate|];
        apply below_64_not; [lia|apply HM_text_chars]).
  change (PyStr.strip (py "" ++ 32%N :: HM_text H M))
    with (PyStr.strip (HM_text H M)).
  rewrite strip_HM_text, strptime_HM_text by assumption. cbn [rbind].
  rewrite (@replace_date_at_time (mk_datetime 1900 1 1 H M 0 0) now Hd);
    [reflexivity| |reflexivity|reflexivity].
  unfold Datetime.valid. cbn [year month day hour minute second microsecond].
  rewrite (proj2 (check_time_bounds H M)) by auto. reflexivity.
Qed.

Lemma parse_try_yesterday (now yesterday : datetime) (H M : Z) :
  Datetime.valid now = true ->
  Datetime.add_days now (-1) = Ok yesterday ->
  0 <= H <= 23 -> 0 <= M <= 59 ->
  parse_eksi_date_try now (py "dün " ++ HM_text H M)
  = rbind (localize (at_time yesterday H M)) (fun utcoffset =>
      rbind (astimezone_utc (at_time yesterday H M) utcoffset)
        (fun dt_utc => Ok (Some dt_utc))).
Proof.
  intros Hnow Hy HH HM. unfold parse_eksi_date_try.
  assert (Hd : Datetime.check_date (year yesterday) (month yesterday)
                 (day yesterday) = true).
  { apply (add_seconds_valid _ _ Hnow) in Hy. apply valid_bounds in Hy.
    tauto. }
  change (py "dün " ++ HM_text H M)
    with ([100; 252; 110]%N ++ 32%N :: HM_text H M).
  change (py "bugün") with [98; 117; 103; 252; 110]%N.
  rewrite contains_absent.
  2:{ cbn [app]. repeat (constructor; [discriminate|]).
      apply below_64_not; [lia|apply HM_text_chars]. }
  change (py "dün") with [100; 252; 110]%N.
  rewrite contains_prefix, Hy. cbn [rbind].
  rewrite replace_prefix. unfold PyStr.replace.
  rewrite replace_absent
    by (constructor; [discriminate|];
        apply below_64_not; [lia|apply HM_text_chars]).
  change (PyStr.strip (py "" ++ 32%N :: HM_text H M))
    with (PyStr.strip (HM_text H M)).
  rewrite strip_HM_text, strptime_HM_text by assumption. cbn [rbind].
  rewrite (@replace_date_at_time (mk_datetime 1900 1 1 H M 0 0) yesterday Hd);
    [reflexivity| |reflexivity|reflexivity].
  unfold Datetime.valid. cbn [year month day hour minute second microsecond].
  rewrite (proj2 (check_time_bounds H M)) by auto. reflexivity.
Qed.

End ParserTexts.

Section FixedOffset.

Context {RT : PyRuntime}.

Lemma toordinal_fixed_offset_era (dt : datetime) :
  Datetime.valid dt = true -> fixed_offset_era dt = true -> year dt <= 9998 ->
  735963 < Datetime.toordinal dt <= 3651694.
Proof.
  intros Hv He Hy. apply valid_bounds in Hv. destruct Hv as (Hd & _).
  pose proof (@ymd2ord_bounds _ _ _ Hd) as Hb.
  assert (H2016 : 2016 <= year dt).
  { unfold fixed_offset_era in He. apply orb_true_iff in He.
    destruct He as [He|He].
    - apply Z.ltb_lt in He. lia.
    - apply andb_true_iff in He. destruct He as [He _].
      apply Z.eqb_eq in He. lia. }
  pose proof (@days_before_year_mono 2016 (year dt) H2016) as Hlo.
  pose proof (@days_before_year_mono (year dt + 1) 9999 ltac:(lia)) as Hhi.
  change (Datetime.days_before_year 2016) with 735963 in Hlo.
  change (Datetime.days_before_year 9999) with 3651694 in Hhi.
  unfold Datetime.toordinal. lia.
Qed.

Lemma add_seconds_within_a_day (dt : datetime) (s : Z) :
  Datetime.valid dt = true ->
  2 <= Datetime.toordinal dt < Datetime.MAXORDINAL ->
  -86400 <= s <= 86400 ->
  exists r, Datetime.add_seconds dt s = Ok r.
Proof.
  intros Hv Ho Hs. apply valid_bounds in Hv.
  destruct Hv as (_ & HH & HM & HS & _).
  apply add_seconds_in_range. cbv zeta. unfold Datetime.MAXORDINAL in *.
  Z.div_mod_to_equations. lia.
Qed.

Lemma localize_fixed_offset_era (dt : datetime) :
  Datetime.valid dt = true -> fixed_offset_era dt = true -> year dt <= 9998 ->
  localize dt = Ok 10800.
Proof.
  intros Hv He Hy. pose proof (toordinal_fixed_offset_era dt Hv He Hy) as Ho.
  unfold localize, Datetime.add_days. rewrite He.
  destruct (@add_seconds_within_a_day dt (-1 * 86400) Hv) as [r1 ->];
    [unfold Datetime.MAXORDINAL; lia|lia|].
  destruct (@add_seconds_within_a_day dt (1 * 86400) Hv) as [r2 ->];
    [unfold Datetime.MAXORDINAL; lia|lia|].
  reflexivity.
Qed.

End FixedOffset.

(** X12.  Whitespace before and behind the text of a date changes nothing
    of what the parser returns. *)
Theorem parse_ignores_surrounding_space (RT : PyRuntime) (now : datetime)
  (pre date_str post : str)
  (Hpre : forallb PyStr.isspace pre = true)
  (Hpost : forallb PyStr.isspace post = true) :
  parse_eksi_date_fast now (pre ++ date_str ++ post)
  = parse_eksi_date_fast now date_str.
Proof.
  unfold parse_eksi_date_fast. rewrite strip_padding by assumption.
  reflexivity.
Qed.

(** X13.  The text [DD.MM.YYYY HH:MM] of a wall clock on or after
    2016-09-07 is read as the instant three hours earlier: the result plus
    three hours is the wall clock again, and from 03:00 on it is the same
    day with the hour lowered by 3.  The clock reading plays no part. *)
Theorem wall_clock_text_is_three_hours_back (RT : PyRuntime)
  (now dt : datetime)
  (Hvalid : Datetime.valid dt = true)
  (Hsecond : second dt = 0) (Hmicro : microsecond dt = 0)
  (Hera : fixed_offset_era dt = true) (Hyear : year dt <= 9998)
  (Hlower : str_lower (dmY_HM_text dt) = dmY_HM_text dt) :
  exists r,
    parse_eksi_date_fast now (dmY_HM_text dt) = Ok (Some r)
    /\ Datetime.add_seconds r 10800 = Ok dt
    /\ (3 <= hour dt ->
        r = mk_datetime (year dt) (month dt) (day dt) (hour dt - 3)
              (minute dt) 0 0).
Proof.
  pose proof (toordinal_fixed_offset_era dt Hvalid Hera Hyear) as Ho.
  destruct (@add_seconds_within_a_day dt (- 10800) Hvalid) as [r Hr];
    [unfold Datetime.MAXORDINAL; lia|lia|].
  exists r. split; [|split].
  - unfold parse_eksi_date_fast.
    rewrite strip_dmY_HM_text, Hlower, parse_try_wall_clock by assumption.
    rewrite localize_fixed_offset_era by assumption. cbn [rbind].
    unfold astimezone_utc. change (Z.opp 10800) with (-10800). rewrite Hr.
    reflexivity.
  - exact (@add_seconds_back dt (-10800) r Hvalid Hr).
  - intros H3. pose proof (@valid_bounds dt Hvalid) as (Hd & HH & HM & _).
    apply add_seconds_fields in Hr. cbv zeta in Hr.
    destruct Hr as (_ & _ & Edate & Eh & Em & Es & Eus).
    rewrite Hsecond in *. rewrite Hmicro in *.
    set (ord := Datetime.toordinal dt) in *.
    replace ((ord * 86400 + hour dt * 3600 + minute dt * 60 + 0 + - 10800)
             / 86400) with ord in Edate by (Z.div_mod_to_equations; lia).
    replace ((ord * 86400 + hour dt * 3600 + minute dt * 60 + 0 + - 10800)
             mod 86400) with ((hour dt - 3) * 3600 + minute dt * 60)
      in Eh, Em, Es by (Z.div_mod_to_equations; lia).
    replace (((hour dt - 3) * 3600 + minute dt * 60) / 3600)
      with (hour dt - 3) in Eh by (Z.div_mod_to_equations; lia).
    replace (((hour dt - 3) * 3600 + minute dt * 60) mod 3600 / 60)
      with (minute dt) in Em by (Z.div_mod_to_equations; lia).
    replace (((hour dt - 3) * 3600 + minute dt * 60) mod 60)
      with 0 in Es by (Z.div_mod_to_equations; lia).
    subst ord. unfold Datetime.toordinal in Edate.
    rewrite (@ord2ymd_ymd2ord _ _ _ Hd) in Edate.
    destruct r as [ry rm rd rH rM rS rus].
    cbn [year month day hour minute second microsecond] in *.
    injection Edate as -> -> ->. subst. reflexivity.
Qed.

(** X14.  A text [DD.MM.YYYY] with a date and no time is read as the text
    of that date at 00:00: the start of the day on Istanbul's wall
    clock. *)
Theorem date_only_text_is_midnight (RT : PyRuntime) (now : datetime)
  (y m d : Z)
  (Hdate : Datetime.check_date y m d = true)
  (Hlower : str_lower (dmY_text y m d) = dmY_text y m d)
  (Hlower' : str_lower (dmY_HM_text (mk_datetime y m d 0 0 0 0))
             = dmY_HM_text (mk_datetime y m d 0 0 0 0)) :
  parse_eksi_date_fast now (dmY_text y m d)
  = parse_eksi_date_fast now (dmY_HM_text (mk_datetime y m d 0 0 0 0)).
Proof.
  unfold parse_eksi_date_fast.
  rewrite strip_dmY_text, strip_dmY_HM_text, Hlower, Hlower'.
  rewrite parse_try_date_only by assumption.
  rewrite parse_try_wall_clock; [reflexivity| |reflexivity|reflexivity].
  unfold Datetime.valid. cbn [year month day hour minute second microsecond].
  rewrite Hdate. reflexivity.
Qed.

(** X15.  The text "bugün HH:MM" is read as the text of the date of the
    clock reading at HH:MM. *)
Theorem today_text_is_the_date_of_now (RT : PyRuntime) (now : datetime)
  (H M : Z)
  (Hnow : Datetime.valid now = true)
  (HH : 0 <= H <= 23) (HM : 0 <= M <= 59)
  (Hlower : str_lower (py "bugün " ++ HM_text H M) = py "bugün " ++ HM_text H M)
  (Hlower' : str_lower (dmY_HM_text (at_time now H M))
             = dmY_HM_text (at_time now H M)) :
  parse_eksi_date_fast now (py "bugün " ++ HM_text H M)
  = parse_eksi_date_fast now (dmY_HM_text (at_time now H M)).
Proof.
  pose proof (@valid_bounds now Hnow) as (Hd & _).
  unfold parse_eksi_date_fast.
  assert (Es : PyStr.strip (py "bugün " ++ HM_text H M)
               = py "bugün " ++ HM_text H M).
  { unfold HM_text, padded. change (py ":") with [58%N].
    apply (@strip_ends 98%N _ [_; _; _; _; _; _; _; _; _]);
      [reflexivity|apply padded_not_space]. }
  rewrite Es, strip_dmY_HM_text, Hlower, Hlower'.
  rewrite parse_try_today by assumption.
  rewrite parse_try_wall_clock; [reflexivity| |reflexivity|reflexivity].
  unfold Datetime.valid, at_time.
  cbn [year month day hour minute second microsecond].
  rewrite Hd, (proj2 (check_time_bounds H M)) by auto. reflexivity.
Qed.

(** X16.  The text "dün HH:MM" is read as the text of the day before the
    clock reading at HH:MM, where the day before is the date whose ordinal
    is one less. *)
Theorem yesterday_text_is_the_day_before (RT : PyRuntime)
  (now yesterday : datetime) (H M : Z)
  (Hnow : Datetime.valid now = true)
  (Hyesterday : Datetime.add_days now (-1) = Ok yesterday)
  (HH : 0 <= H <= 23) (HM : 0 <= M <= 59)
  (Hlower : str_lower (py "dün " ++ HM_text H M) = py "dün " ++ HM_text H M)
  (Hlower' : str_lower (dmY_HM_text (at_time yesterday H M))
             = dmY_HM_text (at_time yesterday H M)) :
  Datetime.toordinal yesterday = Datetime.toordinal now - 1
  /\ parse_eksi_date_fast now (py "dün " ++ HM_text H M)
     = parse_eksi_date_fast now (dmY_HM_text (at_time yesterday H M)).
Proof.
  split.
  - pose proof (@valid_bounds now Hnow) as (_ & Hh & Hm & Hs & _).
    unfold Datetime.add_days in Hyesterday.
    apply add_seconds_fields in Hyesterday. cbv zeta in Hyesterday.
    destruct Hyesterday as (_ & -> & _). Z.div_mod_to_equations. lia.
  - assert (Hd : Datetime.check_date (year yesterday) (month yesterday)
                   (day yesterday) = true).
    { apply (add_seconds_valid _ _ Hnow) in Hyesterday.
      apply valid_bounds in Hyesterday. tauto. }
    unfold parse_eksi_date_fast.
    assert (Es : PyStr.strip (py "dün " ++ HM_text H M)
                 = py "dün " ++ HM_text H M).
    { unfold HM_text, padded. change (py ":") with [58%N].
      apply (@strip_ends 100%N _ [_; _; _; _; _; _; _]);
        [reflexivity|apply padded_not_space]. }
    rewrite Es, strip_dmY_HM_text, Hlower, Hlower'.
    rewrite (@parse_try_yesterday _ now yesterday H M Hnow Hyesterday)
      by assumption.
    rewrite parse_try_wall_clock; [reflexivity| |reflexivity|reflexivity].
    unfold Datetime.valid, at_time.
    cbn [year month day hour minute second microsecond].
    rewrite Hd, (proj2 (check_time_bounds H M)) by auto. reflexivity.
Qed.

(** ** The counts a walk logs *)

Section WalkCounts.

Context {World : Type} {P : Platform World} {RT : PyRuntime}.

Variable limit : Z.

Lemma got_counts_app (t1 t2 : list event) :
  got_counts (t1 ++ t2) = got_counts t1 ++ got_counts t2.
Proof. apply flat_map_app. Qed.

Lemma sum_counts_app (l1 l2 : list Z) :
  sum_counts (l1 ++ l2) = sum_counts l1 + sum_counts l2.
Proof.
  unfold sum_counts. induction l1 as [|x l1 IH]; cbn [app fold_right]; lia.
Qed.

Lemma load_page_no_counts (current_page : Z) (target_url : str) (w : World) :
  got_counts (trace_of (load_page current_page target_url w)) = [].
Proof.
  unfold load_page, goto, Run.bind, Run.read, Run.call, Run.emit, Run.ret,
    trace_of.
  destruct (PyStr.eqb (page_url w) target_url).
  - destruct (wait_for_selector ItemList SELECTOR_WAIT_TIMEOUT w) as [[|] w1];
      cbn; [|reflexivity].
    destruct (query_selector_all w1) as [[|] w2]; reflexivity.
  - destruct (page_goto target_url REQUEST_TIMEOUT w) as [[|] w0]; cbn;
      [|reflexivity].
    destruct (wait_for_selector ItemList SELECTOR_WAIT_TIMEOUT w0) as [[|] w1];
      cbn; [|reflexivity].
    destruct (query_selector_all w1) as [[|] w2]; reflexivity.
Qed.

Lemma load_page_no_totals (current_page : Z) (target_url : str) (w : World) :
  totals_logged (trace_of (load_page current_page target_url w)) = [].
Proof.
  unfold load_page, goto, Run.bind, Run.read, Run.call, Run.emit, Run.ret,
    trace_of.
  destruct (PyStr.eqb (page_url w) target_url).
  - destruct (wait_for_selector ItemList SELECTOR_WAIT_TIMEOUT w) as [[|] w1];
      cbn; [|reflexivity].
    destruct (query_selector_all w1) as [[|] w2]; reflexivity.
  - destruct (page_goto target_url REQUEST_TIMEOUT w) as [[|] w0]; cbn;
      [|reflexivity].
    destruct (wait_for_selector ItemList SELECTOR_WAIT_TIMEOUT w0) as [[|] w1];
      cbn; [|reflexivity].
    destruct (query_selector_all w1) as [[|] w2]; reflexivity.
Qed.

(** Of the entries collected so far those of the current page are the ones
    the page has just given: the earlier ones come from later pages. *)
Lemma count_on_page_new (current_page : Z) (all_entries new : list Entry) :
  Forall (fun e => current_page < page_number e) all_entries ->
  Forall (fun e => page_number e = current_page) new ->
  count_on_page current_page (all_entries ++ new) = PyStr.len new.
Proof.
  intros Hold Hnew. unfold count_on_page, PyStr.len. f_equal. f_equal.
  rewrite filter_app.
  replace (filter (fun e => page_number e =? current_page) all_entries)
    with (@nil Entry).
  - cbn [app]. clear Hold. induction Hnew as [|e new He _ IH]; [reflexivity|].
    cbn [filter]. rewrite (proj2 (Z.eqb_eq _ _) He), IH. reflexivity.
  - symmetry. clear Hnew. induction Hold as [|e old He _ IH]; [reflexivity|].
    cbn [filter]. replace (page_number e =? current_page) with false;
      [exact IH|]. symmetry. apply Z.eqb_neq. lia.
Qed.

Lemma while_pages_counts (fuel : nat) (base_url : str) (company : CompanyInfo)
  (search_term : str) (fetch_ts : datetime) (current_page : Z)
  (all_entries : list Entry) (w : World) :
  Forall (fun e => current_page < page_number e) all_entries ->
  let r := while_pages limit fuel base_url company search_term fetch_ts
             current_page all_entries w in
  sum_counts (got_counts (trace_of r))
  = PyStr.len (value_of r) - PyStr.len all_entries
  /\ totals_logged (trace_of r) = [].
Proof.
  revert current_page all_entries w.
  induction fuel as [|fuel IH]; intros cp acc w Hacc; cbn zeta.
  - cbn. split; [lia|reflexivity].
  - cbn [while_pages].
    destruct ((PyStr.len acc <? limit) && (1 <=? cp)).
    2:{ cbn. split; [lia|reflexivity]. }
    set (target_url := page_url_of base_url cp).
    rewrite !bind_trace, !bind_value.
    cbn [Run.emit value_of world_of trace_of fst snd].
    pose proof (load_page_no_counts cp target_url w) as Lc.
    pose proof (load_page_no_totals cp target_url w) as Lt.
    set (w1 := world_of (load_page cp target_url w)) in *.
    set (t1 := trace_of (load_page cp target_url w)) in *.
    destruct (value_of (load_page cp target_url w)) as [[|el els]|e].
    + cbn [Run.emit Run.ret Run.bind trace_of value_of fst snd app].
      change (LogPage cp target_url :: t1 ++ [LogPageEmpty cp])
        with ([LogPage cp target_url] ++ t1 ++ [LogPageEmpty cp]).
      unfold totals_logged. rewrite !got_counts_app, !flat_map_app.
      fold (totals_logged t1). rewrite Lc, Lt. cbn. split; [lia|reflexivity].
    + rewrite !bind_trace, !bind_value.
      destruct (for_entries_spec limit company search_term fetch_ts target_url
                  cp (rev (el :: els)) acc w1) as (Ft & new_p & Fv & Fall).
      rewrite Ft, Fv. cbn [Run.emit trace_of value_of world_of fst snd].
      change ([] ++ ?x) with x.
      assert (Hnew : Forall (fun e => page_number e = cp) new_p).
      { clear - Fall. induction Fall as [|e f l l' (d & _ & ->) _ IHl];
          constructor; [|exact IHl].
        destruct f as [[[f_id f_content] f_author] f_date]. reflexivity. }
      rewrite (count_on_page_new Hacc Hnew).
      match goal with
      | |- context [while_pages limit fuel ?b ?c ?s ?f ?p ?a ?x] =>
        destruct (IH p a x) as (Hsum & Htot);
        [|set (r := while_pages limit fuel b c s f p a x) in *]
      end.
      { apply Forall_app. split.
        - eapply Forall_impl; [|exact Hacc]. cbn. intros; lia.
        - eapply Forall_impl; [|exact Hnew]. cbn. intros; lia. }
      cbn zeta in Hsum, Htot.
      change (LogPage cp target_url :: t1 ++ LogPageGot cp (PyStr.len new_p)
                :: trace_of r)
        with ([LogPage cp target_url] ++ t1
              ++ [LogPageGot cp (PyStr.len new_p)] ++ trace_of r).
      unfold totals_logged. rewrite !got_counts_app, !flat_map_app.
      fold (totals_logged t1). fold (totals_logged (trace_of r)).
      rewrite Lc, Lt, Htot, !sum_counts_app, Hsum. cbn.
      unfold PyStr.len. rewrite length_app. split; [lia|reflexivity].
    + cbn [Run.emit Run.ret Run.bind trace_of value_of fst snd app].
      change (LogPage cp target_url :: t1 ++ [LogPageFailed cp])
        with ([LogPage cp target_url] ++ t1 ++ [LogPageFailed cp]).
      unfold totals_logged. rewrite !got_counts_app, !flat_map_app.
      fold (totals_logged t1). rewrite Lc, Lt. cbn. split; [lia|reflexivity].
Qed.

End WalkCounts.

(** X17.  The counts a walk logs agree with what it returns: its closing
    line, logged once, carries the number of records returned, and the
    counts of the lines "Got c entries" of its pages add up to that
    number. *)
Theorem walk_log_counts_add_up :
  forall (World : Type) (P : Platform World) (RT : PyRuntime) (limit : Z)
         (base_url : str) (company : CompanyInfo) (search_term : str)
         (start_page_num : Z) (w : World),
    let r := fetch_entries_fast limit base_url company search_term
               start_page_num w in
    totals_logged (trace_of r) = [PyStr.len (value_of r)]
    /\ sum_counts (got_counts (trace_of r)) = PyStr.len (value_of r).
Proof.
  intros. subst r. unfold fetch_entries_fast.
  rewrite !bind_trace, !bind_value, ?call_trace, ?call_value, ?call_world.
  cbn [Run.emit Run.ret value_of trace_of world_of fst snd app].
  match goal with
  | |- context [while_pages ?l ?f ?b ?c ?s ?ts ?p ?a ?x] =>
    destruct (@while_pages_counts _ _ _ l f b c s ts p a x) as (Hsum & Htot);
    [constructor|set (r := while_pages l f b c s ts p a x) in *]
  end.
  cbn zeta in Hsum, Htot. unfold totals_logged.
  rewrite !got_counts_app, !flat_map_app. fold (totals_logged (trace_of r)).
  rewrite Htot, !sum_counts_app, Hsum. cbn. unfold PyStr.len. cbn. split;
    [reflexivity|lia].
Qed.

(** ** The hypotheses of the further properties hold somewhere *)

(** With a limit of 0 the walk on the site of [Demo] is empty. *)
Lemma walk_outside_bounds_is_empty_witness :
  let r := @fetch_entries_fast _ static_platform Demo.runtime 0
             (py "https://eksisozluk.com/a") (Demo.company "AAA" "a") (py "a")
             3 Demo.world in
  (0 <= 0 \/ 3 < 1)
  /\ value_of r = []
  /\ world_of r = snd (now_utc Demo.world)
  /\ trace_of r = [LogTotal 0 3].
Proof.
  cbv zeta. assert (H : 0 <= 0 \/ 3 < 1) by (left; lia).
  split; [exact H|].
  exact (@walk_outside_bounds_is_empty _ static_platform Demo.runtime 0
           (py "https://eksisozluk.com/a") (Demo.company "AAA" "a") (py "a")
           3 Demo.world H).
Defined.

(** A company without search terms gets nothing and sends the browser
    nowhere. *)
Lemma runner_without_term_visits_nothing_witness :
  let company :=
    mk_CompanyInfo (JStr (py "AAA")) (JStr (py "AAA")) (JStr (py "AAA"))
      (JList []) (JList []) (JStr (py "unknown")) (JBool true) in
  let r := @process_company_fast _ static_platform Demo.runtime 5 company
             Demo.world in
  searched_term (eksi_search_terms company) = None
  /\ value_of r = Ok []
  /\ gotos (trace_of r) = []
  /\ queried (trace_of r) = []
  /\ pages_logged (trace_of r) = [].
Proof.
  cbv zeta. split; [reflexivity|].
  exact (@runner_without_term_visits_nothing _ static_platform Demo.runtime 5
           (mk_CompanyInfo (JStr (py "AAA")) (JStr (py "AAA"))
              (JStr (py "AAA")) (JList []) (JList []) (JStr (py "unknown"))
              (JBool true))
           Demo.world eq_refl).
Defined.

(** On the site of [Demo] the company AAA is resolved and then walked. *)
Lemma runner_resolves_then_walks_witness :
  let company := Demo.company "AAA" "a" in
  let r := @process_company_fast _ static_platform Demo.runtime 5 company
             Demo.world in
  let found :=
    @get_topic_url_fast _ static_platform Demo.runtime (py "a")
      (snd (new_page (snd (new_context Demo.world)))) in
  (searched_term (eksi_search_terms company) = Some (py "a")
   /\ fst (new_context Demo.world) = Ok tt
   /\ fst (new_page (snd (new_context Demo.world))) = Ok tt)
  /\ match value_of found with
     | None =>
       value_of r = Ok []
       /\ trace_of r = trace_of found ++ [LogCompany (ticker company) 0]
       /\ world_of r = snd (context_close (snd (page_close (world_of found))))
     | Some (base_url, start_page_num) =>
       let walk :=
         @fetch_entries_fast _ static_platform Demo.runtime 5 base_url company
           (py "a") start_page_num (world_of found) in
       value_of r = Ok (value_of walk)
       /\ trace_of r
          = trace_of found ++ trace_of walk
            ++ [LogCompany (ticker company) (PyStr.len (value_of walk))]
       /\ world_of r = snd (context_close (snd (page_close (world_of walk))))
     end.
Proof.
  cbv zeta. split; [repeat split|].
  exact (@runner_resolves_then_walks _ static_platform Demo.runtime 5
           (Demo.company "AAA" "a") (py "a") Demo.world eq_refl eq_refl
           eq_refl).
Defined.

(** Two documents with the ticker AAA are loaded as one company, the
    second. *)
Lemma loader_returns_one_company_per_key_witness :
  let data :=
    JList [JDict [(py "ticker", JStr (py "AAA"));
                  (py "eksi_search_terms", JList [JStr (py "a")])];
           JDict [(py "ticker", JStr (py "AAA"));
                  (py "eksi_search_terms", JList [JStr (py "b")])]] in
  let companies :=
    [(JStr (py "AAA"),
      mk_CompanyInfo (JStr (py "AAA")) (JStr []) (JStr []) (JList [])
        (JList [JStr (py "b")]) (JStr (py "unknown")) (JBool true))] in
  load_companies_from_json data = Ok companies
  /\ distinct_keys (map fst companies) = true
  /\ (List.length companies <= List.length (documents data))%nat
  /\ Forall (stored_under data) companies
  /\ Forall (stored_from data) companies
  /\ forall before key company_data after,
       entries_of data = before ++ (key, company_data) :: after ->
       Forall (fun e => Py.key_eqb key (fst e) = false) after ->
       exists k c,
         In (k, c) companies /\ Py.key_eqb k key = true
         /\ company_of data company_data = Ok c.
Proof.
  cbv zeta.
  match goal with
  | |- ?A /\ _ => assert (H : A) by reflexivity
  end.
  split; [exact H|].
  exact (@loader_returns_one_company_per_key _ _ H).
Defined.

(** The company of [listed_document] goes on to be processed. *)
Lemma fetched_companies_have_string_terms_witness :
  let companies :=
    [mk_CompanyInfo (JStr (py "THYAO")) (JStr []) (JStr []) (JList [])
       (JList [JStr (py "thy")]) (JStr (py "unknown")) (JBool true)] in
  companies_to_fetch listed_document = Ok companies
  /\ (exists loaded,
        load_companies_from_json listed_document = Ok loaded
        /\ companies
           = firstn (Z.to_nat TARGET_COMPANIES_FOR_DEBUG) (map snd loaded))
  /\ Forall
       (fun company =>
          forall (World : Type) (P : Platform World) (RT : PyRuntime)
                 (limit : Z) (w : World),
          exists es, value_of (process_terms limit company w) = Ok es)
       companies.
Proof.
  cbv zeta.
  match goal with
  | |- ?A /\ _ => assert (H : A) by reflexivity
  end.
  split; [exact H|].
  exact (@fetched_companies_have_string_terms listed_document _ H).
Defined.

(** A number as first term of the only company stops the run. *)
Lemma one_bad_term_stops_the_run_witness :
  let data :=
    JList [JDict [(py "ticker", JStr (py "AAA"));
                  (py "eksi_search_terms", JList [JInt 7])]] in
  let company :=
    mk_CompanyInfo (JStr (py "AAA")) (JStr []) (JStr []) (JList [])
      (JList [JInt 7]) (JStr (py "unknown")) (JBool true) in
  let loaded := [(JStr (py "AAA"), company)] in
  (load_companies_from_json data = Ok loaded
   /\ In company
        (firstn (Z.to_nat TARGET_COMPANIES_FOR_DEBUG) (map snd loaded))
   /\ first_term_not_string (eksi_search_terms company) = true)
  /\ companies_to_fetch data = Raise TypeError.
Proof.
  cbv zeta.
  match goal with
  | |- (?A /\ ?B /\ ?C) /\ _ =>
    assert (H1 : A) by reflexivity;
    assert (H2 : B) by (left; reflexivity);
    assert (H3 : C) by reflexivity
  end.
  split; [repeat split; assumption|].
  exact (@one_bad_term_stops_the_run _ _ _ H1 H2 H3).
Defined.

(** Blanks and a line break around "09.05.2024 12:00". *)
Lemma parse_ignores_surrounding_space_witness :
  let now := mk_datetime 2024 5 10 10 0 0 250000 in
  (forallb PyStr.isspace [32; 32]%N = true
   /\ forallb PyStr.isspace [32; 10]%N = true)
  /\ @parse_eksi_date_fast Demo.runtime now
       ([32; 32]%N ++ py "09.05.2024 12:00" ++ [32; 10]%N)
     = @parse_eksi_date_fast Demo.runtime now (py "09.05.2024 12:00").
Proof.
  cbv zeta. split; [split; reflexivity|].
  exact (@parse_ignores_surrounding_space Demo.runtime
           (mk_datetime 2024 5 10 10 0 0 250000) [32; 32]%N
           (py "09.05.2024 12:00") [32; 10]%N eq_refl eq_refl).
Defined.

(** The wall clock 2024-05-09 12:00, with the lowering of
    [Demo.runtime]. *)
Lemma wall_clock_text_is_three_hours_back_witness :
  let now := mk_datetime 2024 5 10 10 0 0 250000 in
  let dt := mk_datetime 2024 5 9 12 0 0 0 in
  (Datetime.valid dt = true /\ second dt = 0 /\ microsecond dt = 0
   /\ fixed_offset_era dt = true /\ year dt <= 9998
   /\ @str_lower Demo.runtime (dmY_HM_text dt) = dmY_HM_text dt)
  /\ exists r,
       @parse_eksi_date_fast Demo.runtime now (dmY_HM_text dt) = Ok (Some r)
       /\ Datetime.add_seconds r 10800 = Ok dt
       /\ (3 <= hour dt ->
           r = mk_datetime (year dt) (month dt) (day dt) (hour dt - 3)
                 (minute dt) 0 0).
Proof.
  cbv zeta.
  assert (Hy : year (mk_datetime 2024 5 9 12 0 0 0) <= 9998) by (cbn; lia).
  split; [repeat split; try reflexivity; exact Hy|].
  exact (@wall_clock_text_is_three_hours_back Demo.runtime
           (mk_datetime 2024 5 10 10 0 0 250000)
           (mk_datetime 2024 5 9 12 0 0 0) eq_refl eq_refl eq_refl eq_refl Hy
           eq_refl).
Defined.

(** The date 2024-05-09, with the lowering of [Demo.runtime]. *)
Lemma date_only_text_is_midnight_witness :
  let now := mk_datetime 2024 5 10 10 0 0 250000 in
  (Datetime.check_date 2024 5 9 = true
   /\ @str_lower Demo.runtime (dmY_text 2024 5 9) = dmY_text 2024 5 9
   /\ @str_lower Demo.runtime (dmY_HM_text (mk_datetime 2024 5 9 0 0 0 0))
      = dmY_HM_text (mk_datetime 2024 5 9 0 0 0 0))
  /\ @parse_eksi_date_fast Demo.runtime now (dmY_text 2024 5 9)
     = @parse_eksi_date_fast Demo.runtime now
         (dmY_HM_text (mk_datetime 2024 5 9 0 0 0 0)).
Proof.
  cbv zeta. split; [repeat split|].
  exact (@date_only_text_is_midnight Demo.runtime
           (mk_datetime 2024 5 10 10 0 0 250000) 2024 5 9 eq_refl eq_refl
           eq_refl).
Defined.

(** "bugün 14:05" read on 2024-05-10. *)
Lemma today_text_is_the_date_of_now_witness :
  let now := mk_datetime 2024 5 10 10 0 0 250000 in
  (Datetime.valid now = true /\ 0 <= 14 <= 23 /\ 0 <= 5 <= 59
   /\ @str_lower Demo.runtime (py "bugün " ++ HM_text 14 5)
      = py "bugün " ++ HM_text 14 5
   /\ @str_lower Demo.runtime (dmY_HM_text (at_time now 14 5))
      = dmY_HM_text (at_time now 14 5))
  /\ @parse_eksi_date_fast Demo.runtime now (py "bugün " ++ HM_text 14 5)
     = @parse_eksi_date_fast Demo.runtime now (dmY_HM_text (at_time now 14 5)).
Proof.
  cbv zeta.
  assert (HH : 0 <= 14 <= 23) by lia. assert (HM : 0 <= 5 <= 59) by lia.
  split; [repeat split; try reflexivity; lia|].
  exact (@today_text_is_the_date_of_now Demo.runtime
           (mk_datetime 2024 5 10 10 0 0 250000) 14 5 eq_refl HH HM eq_refl
           eq_refl).
Defined.

(** "dün 09:00" read on 2024-05-10: the day before is 2024-05-09. *)
Lemma yesterday_text_is_the_day_before_witness :
  let now := mk_datetime 2024 5 10 10 0 0 250000 in
  let yesterday := mk_datetime 2024 5 9 10 0 0 250000 in
  (Datetime.valid now = true
   /\ Datetime.add_days now (-1) = Ok yesterday
   /\ 0 <= 9 <= 23 /\ 0 <= 0 <= 59
   /\ @str_lower Demo.runtime (py "dün " ++ HM_text 9 0)
      = py "dün " ++ HM_text 9 0
   /\ @str_lower Demo.runtime (dmY_HM_text (at_time yesterday 9 0))
      = dmY_HM_text (at_time yesterday 9 0))
  /\ Datetime.toordinal yesterday = Datetime.toordinal now - 1
  /\ @parse_eksi_date_fast Demo.runtime now (py "dün " ++ HM_text 9 0)
     = @parse_eksi_date_fast Demo.runtime now
         (dmY_HM_text (at_time yesterday 9 0)).
Proof.
  cbv zeta.
  assert (HH : 0 <= 9 <= 23) by lia. assert (HM : 0 <= 0 <= 59) by lia.
  split; [repeat split; try reflexivity; lia|].
  exact (@yesterday_text_is_the_day_before Demo.runtime
           (mk_datetime 2024 5 10 10 0 0 250000)
           (mk_datetime 2024 5 9 10 0 0 250000) 9 0 eq_refl eq_refl HH HM
           eq_refl eq_refl).
Defined.
